(** * MP-Gadget: SPH density iteration and gradient finalisation

    A shallow embedding of

    - [src/density.c]: [density], [density_isactive], [density_reduce],
      [density_post_process] and [density_check_neighbours];
    - [src/libgadget/mfm/gradients.c]: [local_slopelimiter] and
      [construct_gradient].

    Numbers.  A C [double] (and [MyFloat], [MyDouble]) is a real number
    of [R]: arithmetic is exact, comparisons are the order of the reals,
    and there is neither rounding nor NaN.  A C [int] is an integer of
    [Z] (no wrap-around).  Where a statement is about divisions by zero
    the divisors of the floating-point divisions are recorded explicitly
    (the [Div] log of [density_post_process]).  Where the rounding of
    the doubles decides a statement, the function is given a second
    time over the binary64 numbers of [PrimFloat] (module [Binary64]),
    and the statements over [R] say that they are about exact
    arithmetic.

    Build.  The density loop is the build without the optional blocks
    [DENSITY_INDEPENDENT_SPH], [VOLUME_CORRECTION], [SOFTEREQS], [WINDS],
    [SPH_GRAD_RHO] and [HYDRO_COST_FACTOR]; the [BLACK_HOLES] blocks are
    kept behind a boolean switch.  Macros and globals of [allvars.h],
    which is not among the sources, are parameters of the development. *)

From Stdlib Require Import PrimFloat.
From Stdlib Require Import Reals Lra Lia ZArith List Bool.
Import ListNotations.
Local Open Scope R_scope.

(** ** C comparisons on doubles *)

Definition Rltb (x y : R) : bool := if Rlt_dec x y then true else false.
Definition Rgtb (x y : R) : bool := Rltb y x.
Definition Reqb (x y : R) : bool := if Req_dec_T x y then true else false.

Notation "x <? y" := (Rltb x y) : R_scope.
Notation "x >? y" := (Rgtb x y) : R_scope.
Notation "x =? y" := (Reqb x y) : R_scope.

(** Every comparison of the goal is decided, one case per outcome. *)
Ltac rdec :=
  unfold Rgtb, Rltb, Reqb;
  repeat match goal with
    | |- context [Rlt_dec ?a ?b] => destruct (Rlt_dec a b)
    | |- context [Req_dec_T ?a ?b] => destruct (Req_dec_T a b)
    | H : context [Rlt_dec ?a ?b] |- _ => destruct (Rlt_dec a b)
    | H : context [Req_dec_T ?a ?b] |- _ => destruct (Req_dec_T a b)
    end.

(** Every hypothesis and variable the goal does not mention is cleared. *)
Ltac unclutter := repeat match goal with H : _ |- _ => clear H end.

(** Modelled from the spec: the macros [DMAX] and [DMIN] of [allvars.h],
    which is not among the sources; the spec reads them as the maximum
    and the minimum of two doubles.  They are taken in the usual form
    [((a) > (b)) ? (a) : (b)] and [((a) < (b)) ? (a) : (b)]. *)
Definition DMAX (a b : R) : R := if a >? b then a else b.
Definition DMIN (a b : R) : R := if a <? b then a else b.

(** [fabs] of [math.h]. *)
Definition fabs (x : R) : R := Rabs x.

(** Conversion of a double to [int]: the fractional part is discarded
    (rounding towards zero). *)
Definition trunc (x : R) : Z :=
  if x <? 0 then (- Int_part (- x))%Z else Int_part x.

(** A C array of three doubles. *)
Definition vec3 : Type := (R * R * R)%type.

Definition vscale (c : R) (v : vec3) : vec3 :=
  let '(a, b, d) := v in (a * c, b * c, d * c).

(** Evaluation on concrete numbers: a comparison that [lra] can decide
    is replaced by its outcome, as long as there is one. *)
Ltac rstep :=
  match goal with
  | |- context [Rlt_dec ?a ?b] =>
      first
        [ let H := fresh in
          assert (a < b) as H by lra;
          destruct (Rlt_dec a b); [clear H | contradiction]
        | let H := fresh in
          assert (~ a < b) as H by lra;
          destruct (Rlt_dec a b); [contradiction | clear H] ]
  | |- context [Req_dec_T ?a ?b] =>
      first
        [ let H := fresh in
          assert (a = b) as H by lra;
          destruct (Req_dec_T a b); [clear H | contradiction]
        | let H := fresh in
          assert (a <> b) as H by lra;
          destruct (Req_dec_T a b); [contradiction | clear H] ]
  | |- context [Rcase_abs ?a] =>
      first
        [ let H := fresh in
          assert (a < 0) as H by lra;
          destruct (Rcase_abs a); [clear H | exfalso; lra]
        | let H := fresh in
          assert (a >= 0) as H by lra;
          destruct (Rcase_abs a); [exfalso; lra | clear H] ]
  end.

Ltac reval :=
  unfold Rgtb, Rltb, Reqb, fabs, Rabs; repeat (cbn; rstep); cbn.

(** ** Fatal termination

    [endrun(code, ...)] does not return: a computation either yields a
    value or stops the program with the code of the [endrun] call. *)

Inductive result (A : Type) : Type :=
| Ok (a : A)
| Endrun (errno : Z).
Arguments Ok {A} a.
Arguments Endrun {A} errno.

Definition bind {A B : Type} (m : result A) (k : A -> result B) : result B :=
  match m with
  | Ok a => k a
  | Endrun e => Endrun e
  end.

Notation "x <- m ;; k" := (bind m (fun x => k))
  (at level 61, m at next level, right associativity).
Notation "' pat <- m ;; k" := (bind m (fun x => match x with pat => k end))
  (at level 61, pat pattern, m at next level, right associativity).

(** ** Logged divisions

    A value together with the divisors of the floating-point divisions
    that were evaluated to compute it, in program order. *)

Definition Div (A : Type) : Type := (A * list R)%type.

Definition dret {A : Type} (a : A) : Div A := (a, []).

Definition dbind {A B : Type} (m : Div A) (k : A -> Div B) : Div B :=
  let '(a, l1) := m in let '(b, l2) := k a in (b, l1 ++ l2).

Definition fdiv (x y : R) : Div R := (x / y, [y]).

Notation "x <-/ m ;; k" := (dbind m (fun x => k))
  (at level 61, m at next level, right associativity).

(** ** gradients.c *)

Module Gradients.

(** The fields of [SphP[i]] and [PPP[i]] read by [construct_gradient]. *)
Record sph_particle_data : Type := {
  ConditionNumber : R;
  Density : R;
  NV_T : vec3 * vec3 * vec3   (* rows NV_T[0], NV_T[1], NV_T[2] *)
}.

Record particle_data : Type := {
  Hsml : R;
  DhsmlNgbFactor : R
}.

Section Build.

(** The macro [CONDITION_NUMBER_DANGER] of [allvars.h]. *)
Variable CONDITION_NUMBER_DANGER : R.

Definition SHOULD_I_USE_SPH_GRADIENTS (condition_number : R) : Z :=
  if condition_number >? CONDITION_NUMBER_DANGER then 1%Z else 0%Z.

(** [local_slopelimiter(grad, valmax, valmin, alim, h, shoot_tol)]:
    the array [grad] is updated in place; the model returns it. *)
Definition local_slopelimiter
    (grad : vec3) (valmax valmin alim h shoot_tol : R) : vec3 :=
  let '(g0, g1, g2) := grad in
  let d_abs := 0.0 + g0 * g0 + g1 * g1 + g2 * g2 in
  if d_abs >? 0 then
    let cfac := 1 / (alim * h * sqrt d_abs) in
    let fabs_max := fabs valmax in
    let fabs_min := fabs valmin in
    let abs_min := DMIN fabs_max fabs_min in
    let cfac :=
      if shoot_tol >? 0 then
        let abs_max := DMAX fabs_max fabs_min in
        cfac * DMIN (abs_min + shoot_tol * abs_max) abs_max
      else cfac * abs_min in
    if cfac <? 1 then vscale cfac grad else grad
  else grad.

(** The limiter as the specification words it (section 4.F), written
    independently of the code, with which it is compared below: a zero
    gradient is returned as it is; otherwise
    [c = 1 / (alpha * h_lim * |g|) * (M + tau * A if tau > 0 else M)]
    with [M] the smaller and [A] the larger of the two absolute
    envelopes, and [g] is scaled by [c] when [c < 1]. *)
Definition norm3 (g : vec3) : R :=
  let '(g0, g1, g2) := g in sqrt (g0 * g0 + g1 * g1 + g2 * g2).

Definition spec_slopelimiter
    (g : vec3) (dphi_max dphi_min alpha h_lim tau : R) : vec3 :=
  if norm3 g =? 0 then g
  else
    let M := Rmin (Rabs dphi_max) (Rabs dphi_min) in
    let A := Rmax (Rabs dphi_max) (Rabs dphi_min) in
    let c := 1 / (alpha * h_lim * norm3 g)
             * (if tau >? 0 then M + tau * A else M) in
    if c <? 1 then vscale c g else g.

(** [construct_gradient(grad, i)], over the arrays [SphP] and [PPP]. *)
Definition construct_gradient
    (SphP : nat -> sph_particle_data) (PPP : nat -> particle_data)
    (grad : vec3) (i : nat) : vec3 :=
  if negb (SHOULD_I_USE_SPH_GRADIENTS (ConditionNumber (SphP i)) =? 0)%Z then
    (* the condition number was bad: SPH-like gradients *)
    vscale (DhsmlNgbFactor (PPP i) / Density (SphP i)) grad
  else
    (* the condition number was good: matrix-like gradient estimator *)
    let '(v0, v1, v2) := grad in
    let '(r0, r1, r2) := NV_T (SphP i) in
    let row (r : vec3) := let '(a, b, c) := r in a * v0 + b * v1 + c * v2 in
    (row r0, row r1, row r2).

End Build.

End Gradients.

(** ** gradients.c over binary64

    [local_slopelimiter] once more, with every operation of the C
    function rounded as IEEE 754 binary64 does (round to nearest, ties
    to even; no fused multiply-add), to see what rounding does to the
    statements about the limiter. *)

Module Binary64.

Definition DMAX (a b : float) : float := if PrimFloat.ltb b a then a else b.
Definition DMIN (a b : float) : float := if PrimFloat.ltb a b then a else b.

Definition local_slopelimiter
    (grad : float * float * float) (valmax valmin alim h shoot_tol : float)
    : float * float * float :=
  let '(g0, g1, g2) := grad in
  let d_abs := (0.0 + g0 * g0 + g1 * g1 + g2 * g2)%float in
  if PrimFloat.ltb 0%float d_abs then
    let cfac := (1 / (alim * h * PrimFloat.sqrt d_abs))%float in
    let fabs_max := PrimFloat.abs valmax in
    let fabs_min := PrimFloat.abs valmin in
    let abs_min := DMIN fabs_max fabs_min in
    let cfac :=
      if PrimFloat.ltb 0%float shoot_tol then
        let abs_max := DMAX fabs_max fabs_min in
        (cfac * DMIN (abs_min + shoot_tol * abs_max) abs_max)%float
      else (cfac * abs_min)%float in
    if PrimFloat.ltb cfac 1%float
    then ((g0 * cfac)%float, (g1 * cfac)%float, (g2 * cfac)%float)
    else grad
  else grad.

End Binary64.

(** ** gradients.c: the gradient loop

    The pieces of [hydro_gradient_calc] and [GasGrad_evaluate] that do not
    need the tree or the kernel: the export record, the reduction of a
    result into a particle, the ordering test of a pair, the envelope
    macros and the finalisation.  The build is the baseline one (none of
    the MHD, radiation, turbulence, shearing-box or SPH blocks). *)

Module GasGrad.

Definition Rleb (x y : R) : bool := if Rle_dec x y then true else false.
Notation "x <=? y" := (Rleb x y) : R_scope.

(** [idx v k] is [v[k]] for an array of three doubles ([k] is 0, 1 or
    2 wherever the code indexes one). *)
Definition idx (v : vec3) (k : Z) : R :=
  let '(v0, v1, v2) := v in
  if (k =? 0)%Z then v0 else if (k =? 1)%Z then v1 else v2.

(** The macros of lines 28-29 and 153-154, as the new value of the
    variables they assign. *)
Definition MINMAX_CHECK (x xmin xmax : R) : R * R :=
  if x <? xmin then (x, xmax)
  else if x >? xmax then (xmin, x)
  else (xmin, xmax).

Definition MAX_ADD (x y : R) : R := if y >? x then y else x.
Definition MIN_ADD (x y : R) : R := if y <? x then y else x.
Definition ASSIGN_ADD_PRESET (x y : R) : R := x + y.

Definition ASSIGN_ADD_PRESET3 (x y : vec3) : vec3 :=
  let '(x0, x1, x2) := x in
  let '(y0, y1, y2) := y in
  (ASSIGN_ADD_PRESET x0 y0, ASSIGN_ADD_PRESET x1 y1, ASSIGN_ADD_PRESET x2 y2).

(** [struct Quantities_for_Gradients]. *)
Module Q.
Record Quantities_for_Gradients : Type := {
  Density : R;
  Pressure : R;
  Velocity : vec3
}.
End Q.

(** [struct GasGraddata_in], without the node list. *)
Module In.
Record GasGraddata_in : Type := {
  Pos : vec3;
  Mass : R;
  Hsml : R;
  Timestep : Z;
  GQuant : Q.Quantities_for_Gradients
}.
End In.

(** [struct GasGraddata_out]: [Gradients] holds [Gradients[0]],
    [Gradients[1]], [Gradients[2]]. *)
Module Out.
Record GasGraddata_out : Type := {
  Gradients : Q.Quantities_for_Gradients * Q.Quantities_for_Gradients
              * Q.Quantities_for_Gradients;
  Maxima : Q.Quantities_for_Gradients;
  Minima : Q.Quantities_for_Gradients;
  MaxDistance : R
}.
End Out.

(** [struct temporary_data_topass]. *)
Module Passer.
Record temporary_data_topass : Type := {
  Maxima : Q.Quantities_for_Gradients;
  Minima : Q.Quantities_for_Gradients;
  MaxDistance : R
}.
End Passer.

(** [SphP[i].Gradients]: [Velocity] holds the rows [Velocity[0]],
    [Velocity[1]], [Velocity[2]]. *)
Module Grads.
Record Gradients : Type := {
  Density : vec3;
  Pressure : vec3;
  Velocity : vec3 * vec3 * vec3
}.
End Grads.

(** The fields of [P[i]] and [SphP[i]] read by [particle2in_GasGrad]. *)
Record particle_data : Type := {
  Pos : vec3;
  Mass : R;
  TimeBin : Z
}.

Record sph_particle_data : Type := {
  ConditionNumber : R;
  Density : R;
  Pressure : R;
  VelPred : vec3
}.

Section Build.

Variable CONDITION_NUMBER_DANGER : R.

(** The macro [SLOPE_LIMITER_TOLERANCE] of [allvars.h]. *)
Variable SLOPE_LIMITER_TOLERANCE : Z.

(** [(P[i].TimeBin ? (((integertime) 1) << P[i].TimeBin) : 0)], for a
    time bin below the width of [integertime] (the shift does not
    wrap). *)
Definition TimeStep_of (timebin : Z) : Z :=
  if (timebin =? 0)%Z then 0%Z else Z.shiftl 1 timebin.

(** [particle2in_GasGrad(in, i, gradient_iteration)]: the record [in] as
    the function leaves it. *)
Definition particle2in_GasGrad
    (P : nat -> particle_data) (PPP : nat -> Gradients.particle_data)
    (SphP : nat -> sph_particle_data)
    (in_ : In.GasGraddata_in) (i : nat) (gradient_iteration : Z)
    : In.GasGraddata_in :=
  let mass := Mass (P i) in
  let mass := if mass <? 0 then 0 else mass in
  let mass :=
    if negb (Gradients.SHOULD_I_USE_SPH_GRADIENTS CONDITION_NUMBER_DANGER
               (ConditionNumber (SphP i)) =? 0)%Z
    then mass * -1 else mass in
  {| In.Pos := Pos (P i);
     In.Hsml := Gradients.Hsml (PPP i);
     In.Mass := mass;
     In.Timestep := TimeStep_of (TimeBin (P i));
     In.GQuant :=
       if (gradient_iteration =? 0)%Z then
         {| Q.Density := Density (SphP i);
            Q.Pressure := Pressure (SphP i);
            Q.Velocity := VelPred (SphP i) |}
       else In.GQuant in_ |}.

(** Lines 690-703 of [GasGrad_evaluate]: [None] when the function
    returns 0 before the neighbour loop; otherwise
    [sph_gradients_flag_i], the record [local] and [V_i] as the loop
    finds them. *)
Definition evaluate_prologue (local : In.GasGraddata_in)
    (gradient_iteration : Z) : option (Z * In.GasGraddata_in * R) :=
  if In.Hsml local <=? 0 then None
  else if In.Mass local =? 0 then None
  else if (gradient_iteration =? 0)%Z
          && (Q.Density (In.GQuant local) <=? 0) then None
  else
    let '(sph_gradients_flag_i, local) :=
      if In.Mass local <? 0 then
        (1%Z, {| In.Pos := In.Pos local; In.Mass := In.Mass local * -1;
                 In.Hsml := In.Hsml local; In.Timestep := In.Timestep local;
                 In.GQuant := In.GQuant local |})
      else (0%Z, local) in
    let V_i := In.Mass local / Q.Density (In.GQuant local) in
    Some (sph_gradients_flag_i, local, V_i).

(** Lines 738-744 (the build without [BOX_SHEARING]): [true] when the
    pair is left to the other particle ([continue]). *)
Definition skip_by_order (local_Timestep TimeStep_J : Z)
    (local_Pos Pos_j : vec3) : bool :=
  if (local_Timestep >? TimeStep_J)%Z then true
  else if (local_Timestep =? TimeStep_J)%Z then
    let n0 := 0%Z in
    let n0 :=
      if idx local_Pos n0 =? idx Pos_j n0 then
        let n0 := (n0 + 1)%Z in
        if idx local_Pos n0 =? idx Pos_j n0 then (n0 + 1)%Z else n0
      else n0 in
    if idx local_Pos n0 <? idx Pos_j n0 then true else false
  else false.

(** The envelope of a field over the pairs of one target (lines 947,
    951, 1018): [MINMAX_CHECK] applied to the differences in turn. *)
Definition envelope (diffs : list R) (start : R * R) : R * R :=
  fold_left (fun e d => MINMAX_CHECK d (fst e) (snd e)) diffs start.

(** [out2particle_GasGrad(out, i, mode, gradient_iteration)], on
    [GasGradDataPasser[i]] and [SphP[i].Gradients]. *)
Definition out2particle_GasGrad (out : Out.GasGraddata_out)
    (st : Passer.temporary_data_topass * Grads.Gradients)
    (mode gradient_iteration : Z)
    : Passer.temporary_data_topass * Grads.Gradients :=
  if (gradient_iteration =? 0)%Z then
    let '(passer, grads) := st in
    let '(o0, o1, o2) := Out.Gradients out in
    let '(vmax0, vmax1, vmax2) := Q.Velocity (Passer.Maxima passer) in
    let '(vmin0, vmin1, vmin2) := Q.Velocity (Passer.Minima passer) in
    let '(omax0, omax1, omax2) := Q.Velocity (Out.Maxima out) in
    let '(omin0, omin1, omin2) := Q.Velocity (Out.Minima out) in
    let '(gv0, gv1, gv2) := Grads.Velocity grads in
    let column (k : Z) : vec3 :=
      (idx (Q.Velocity o0) k, idx (Q.Velocity o1) k, idx (Q.Velocity o2) k) in
    ({| Passer.MaxDistance :=
          MAX_ADD (Passer.MaxDistance passer) (Out.MaxDistance out);
        Passer.Maxima :=
          {| Q.Density := MAX_ADD (Q.Density (Passer.Maxima passer))
                                  (Q.Density (Out.Maxima out));
             Q.Pressure := MAX_ADD (Q.Pressure (Passer.Maxima passer))
                                   (Q.Pressure (Out.Maxima out));
             Q.Velocity := (MAX_ADD vmax0 omax0, MAX_ADD vmax1 omax1,
                            MAX_ADD vmax2 omax2) |};
        Passer.Minima :=
          {| Q.Density := MIN_ADD (Q.Density (Passer.Minima passer))
                                  (Q.Density (Out.Minima out));
             Q.Pressure := MIN_ADD (Q.Pressure (Passer.Minima passer))
                                   (Q.Pressure (Out.Minima out));
             Q.Velocity := (MIN_ADD vmin0 omin0, MIN_ADD vmin1 omin1,
                            MIN_ADD vmin2 omin2) |} |},
     {| Grads.Density :=
          ASSIGN_ADD_PRESET3 (Grads.Density grads)
            (Q.Density o0, Q.Density o1, Q.Density o2);
        Grads.Pressure :=
          ASSIGN_ADD_PRESET3 (Grads.Pressure grads)
            (Q.Pressure o0, Q.Pressure o1, Q.Pressure o2);
        Grads.Velocity :=
          (ASSIGN_ADD_PRESET3 gv0 (column 0%Z),
           ASSIGN_ADD_PRESET3 gv1 (column 1%Z),
           ASSIGN_ADD_PRESET3 gv2 (column 2%Z)) |})
  else st.

(** Lines 606-622 of [hydro_gradient_calc]: the aggressiveness
    [a_limiter], the length [h_lim] and the tolerance [stol] handed to
    the limiter. *)
Definition limiter_parameters (hsml maxdistance condition_number : R)
    : R * R * R :=
  let stol := 0.0 in
  let h_lim := hsml in
  let h_lim := DMAX hsml maxdistance in
  let a_limiter := 0.25 in
  let a_limiter :=
    if condition_number >? 100
    then DMIN 0.5 (0.25 + 0.25 * (condition_number - 100) / 100)
    else a_limiter in
  let '(h_lim, a_limiter, stol) :=
    if (SLOPE_LIMITER_TOLERANCE =? 2)%Z
    then (hsml, a_limiter * 0.5, 0.125) else (h_lim, a_limiter, stol) in
  let '(a_limiter, stol) :=
    if (SLOPE_LIMITER_TOLERANCE =? 0)%Z
    then (a_limiter * 2.0, 0.0) else (a_limiter, stol) in
  (a_limiter, h_lim, stol).

(** Lines 585-628 for one gas particle [i]: the accumulated sums of
    [SphP[i].Gradients] become gradients and are limited. *)
Definition finalise_gradients
    (SphP : nat -> Gradients.sph_particle_data)
    (PPP : nat -> Gradients.particle_data)
    (passer : Passer.temporary_data_topass)
    (grads : Grads.Gradients) (i : nat) : Grads.Gradients :=
  let construct g :=
    Gradients.construct_gradient CONDITION_NUMBER_DANGER SphP PPP g i in
  let gd := construct (Grads.Density grads) in
  let gp := construct (Grads.Pressure grads) in
  let '(gv0, gv1, gv2) := Grads.Velocity grads in
  let gv0 := construct gv0 in
  let gv1 := construct gv1 in
  let gv2 := construct gv2 in
  let '(a_limiter, h_lim, stol) :=
    limiter_parameters (Gradients.Hsml (PPP i)) (Passer.MaxDistance passer)
      (Gradients.ConditionNumber (SphP i)) in
  let stol_tmp := stol in
  let '(vmax0, vmax1, vmax2) := Q.Velocity (Passer.Maxima passer) in
  let '(vmin0, vmin1, vmin2) := Q.Velocity (Passer.Minima passer) in
  {| Grads.Density :=
       Gradients.local_slopelimiter gd (Q.Density (Passer.Maxima passer))
         (Q.Density (Passer.Minima passer)) a_limiter h_lim 0;
     Grads.Pressure :=
       Gradients.local_slopelimiter gp (Q.Pressure (Passer.Maxima passer))
         (Q.Pressure (Passer.Minima passer)) a_limiter h_lim stol;
     Grads.Velocity :=
       (Gradients.local_slopelimiter gv0 vmax0 vmin0 a_limiter h_lim stol_tmp,
        Gradients.local_slopelimiter gv1 vmax1 vmin1 a_limiter h_lim stol_tmp,
        Gradients.local_slopelimiter gv2 vmax2 vmin2 a_limiter h_lim stol_tmp)
  |}.

End Build.

End GasGrad.

(** ** lenstools: the grid helpers *)

Module Lenstools.

Definition Rgeb (x y : R) : bool := if Rge_dec x y then true else false.
Notation "x >=? y" := (Rgeb x y) : R_scope.

(** [linspace(start, stop, num, result)]: the array [result] as the
    loop fills it, entries [0 .. num-1], in exact arithmetic (on
    binary64 every entry is rounded, and the last one need not be
    [stop]). *)
Definition linspace (start stop : R) (num : Z) : list R :=
  let step := (stop - start) / IZR (num - 1) in
  map (fun i : nat => start + IZR (Z.of_nat i) * step)
      (seq 0 (Z.to_nat num)).

(** The loop of [find_bin] from index [i] with [todo] rounds left;
    [bins] holds at least [num_bins] entries. *)
Fixpoint find_bin_loop (value : R) (bins : list R) (i todo : nat) : Z :=
  match todo with
  | O => (-1)%Z
  | S todo' =>
      if (value >=? nth i bins 0) && (value <? nth (i + 1) bins 0)
      then Z.of_nat i
      else find_bin_loop value bins (S i) todo'
  end.

(** [find_bin(value, bins, num_bins)]. *)
Definition find_bin (value : R) (bins : list R) (num_bins : Z) : Z :=
  find_bin_loop value bins 0 (Z.to_nat (num_bins - 1)).

End Lenstools.

(** ** density.c: data *)

(** [SPHP(i)]: the gas state of a particle. *)
Record sph_particle_data : Type := {
  Density : R;
  DhsmlDensityFactor : R;
  DivVel : R;
  CurlVel : R;
  Rot : vec3;
  Pressure : R;
  Entropy : R;
  DtEntropy : R;
  VelPred : vec3
}.

(** [BHP(i)]: the state of a black-hole particle ([BLACK_HOLES]). *)
Module BHP.
Record bh_particle_data : Type := {
  Density : R;
  Entropy : R;
  Pressure : R;
  FeedbackWeightSum : R;
  SurroundingGasVel : vec3
}.
End BHP.

(** [P[i]].  [Type_] is the field [Type]; [NumNgb] is the union [n]
    ([n.NumNgb], [n.dNumNgb]); [sph] and [bh] are what [SPHP(i)] and
    [BHP(i)] reach from the particle. *)
Record particle_data : Type := {
  ID : Z;
  Type_ : Z;
  Pos : vec3;
  Mass : R;
  TimeBin : Z;
  Ti_begstep : Z;
  Hsml : R;
  NumNgb : R;
  DensityIterationDone : bool;
  SwallowID : Z;
  sph : sph_particle_data;
  bh : BHP.bh_particle_data
}.

Definition set_Hsml (h : R) (p : particle_data) : particle_data :=
  {| ID := ID p; Type_ := Type_ p; Pos := Pos p; Mass := Mass p;
     TimeBin := TimeBin p; Ti_begstep := Ti_begstep p; Hsml := h;
     NumNgb := NumNgb p; DensityIterationDone := DensityIterationDone p;
     SwallowID := SwallowID p; sph := sph p; bh := bh p |}.

Definition set_NumNgb (n : R) (p : particle_data) : particle_data :=
  {| ID := ID p; Type_ := Type_ p; Pos := Pos p; Mass := Mass p;
     TimeBin := TimeBin p; Ti_begstep := Ti_begstep p; Hsml := Hsml p;
     NumNgb := n; DensityIterationDone := DensityIterationDone p;
     SwallowID := SwallowID p; sph := sph p; bh := bh p |}.

Definition set_DensityIterationDone (b : bool) (p : particle_data)
    : particle_data :=
  {| ID := ID p; Type_ := Type_ p; Pos := Pos p; Mass := Mass p;
     TimeBin := TimeBin p; Ti_begstep := Ti_begstep p; Hsml := Hsml p;
     NumNgb := NumNgb p; DensityIterationDone := b;
     SwallowID := SwallowID p; sph := sph p; bh := bh p |}.

Definition set_SwallowID (w : Z) (p : particle_data) : particle_data :=
  {| ID := ID p; Type_ := Type_ p; Pos := Pos p; Mass := Mass p;
     TimeBin := TimeBin p; Ti_begstep := Ti_begstep p; Hsml := Hsml p;
     NumNgb := NumNgb p; DensityIterationDone := DensityIterationDone p;
     SwallowID := w; sph := sph p; bh := bh p |}.

Definition set_sph (d : sph_particle_data) (p : particle_data)
    : particle_data :=
  {| ID := ID p; Type_ := Type_ p; Pos := Pos p; Mass := Mass p;
     TimeBin := TimeBin p; Ti_begstep := Ti_begstep p; Hsml := Hsml p;
     NumNgb := NumNgb p; DensityIterationDone := DensityIterationDone p;
     SwallowID := SwallowID p; sph := d; bh := bh p |}.

Definition set_bh (d : BHP.bh_particle_data) (p : particle_data)
    : particle_data :=
  {| ID := ID p; Type_ := Type_ p; Pos := Pos p; Mass := Mass p;
     TimeBin := TimeBin p; Ti_begstep := Ti_begstep p; Hsml := Hsml p;
     NumNgb := NumNgb p; DensityIterationDone := DensityIterationDone p;
     SwallowID := SwallowID p; sph := sph p; bh := d |}.

(** The globals of [All] read by the density loop. *)
Record global_data : Type := {
  DesNumNgb : R;
  MaxNumNgbDeviation : R;
  MinGasHsml : R;
  BlackHoleNgbFactor : R;
  BlackHoleMaxAccretionRadius : R;
  Ti_Current : Z;
  Timebase_interval : R
}.

(** [TreeWalkResultDensity]: the sums a tree walk returns for a target. *)
Record TreeWalkResultDensity : Type := {
  Rho : R;
  DhsmlDensity : R;
  Ngb : R;
  Div_ : R;
  Rot_ : vec3;
  SmoothedEntropy : R;
  SmoothedPressure : R;
  FeedbackWeightSum_ : R;
  GasVel : vec3
}.

Inductive TreeWalkReduceMode : Type :=
| TREEWALK_PRIMARY
| TREEWALK_GHOSTS.

(** The memory the density loop works on: the particle array [P] and the
    two bracket arrays [Left] and [Right] of [density], all indexed by
    the particle number. *)
Record store : Type := {
  P : nat -> particle_data;
  Left : nat -> R;
  Right : nat -> R
}.

(** [a[i] = v]. *)
Definition upd {A : Type} (a : nat -> A) (i : nat) (v : A) : nat -> A :=
  fun j => if Nat.eqb j i then v else a j.

(** ** Sample data

    The parameters of scenario 1 of the specification (N* = 32,
    Delta = 2, H_min = 0.01) and a gas particle, used to run the
    definitions on concrete inputs. *)

Definition ex_All : global_data :=
  {| DesNumNgb := 32; MaxNumNgbDeviation := 2; MinGasHsml := 0.01;
     BlackHoleNgbFactor := 2; BlackHoleMaxAccretionRadius := 1;
     Ti_Current := 0; Timebase_interval := 1 |}.

Definition ex_sph (rho dhsml : R) : sph_particle_data :=
  {| Density := rho; DhsmlDensityFactor := dhsml; DivVel := 3;
     CurlVel := 0; Rot := (0, 0, 4); Pressure := 0; Entropy := 1;
     DtEntropy := 0; VelPred := (0, 0, 0) |}.

Definition ex_bh : BHP.bh_particle_data :=
  {| BHP.Density := 0; BHP.Entropy := 0; BHP.Pressure := 0;
     BHP.FeedbackWeightSum := 0; BHP.SurroundingGasVel := (0, 0, 0) |}.

(** A gas particle with smoothing length [h], neighbour count [n] and
    the flag [done]. *)
Definition ex_particle (h n : R) (done : bool) (d : sph_particle_data)
    : particle_data :=
  {| ID := 1; Type_ := 0; Pos := (0, 0, 0); Mass := 1; TimeBin := 0;
     Ti_begstep := 0; Hsml := h; NumNgb := n; DensityIterationDone := done;
     SwallowID := 0; sph := d; bh := ex_bh |}.

(** A black hole with smoothing length [h] and neighbour count [n], its
    flag clear. *)
Definition ex_black_hole (h n : R) : particle_data :=
  {| ID := 2; Type_ := 5; Pos := (0, 0, 0); Mass := 1; TimeBin := 0;
     Ti_begstep := 0; Hsml := h; NumNgb := n; DensityIterationDone := false;
     SwallowID := 0; sph := ex_sph 0 0; bh := ex_bh |}.

(** A gas particle as the gradient loop reads it: mass 3, density 2,
    smoothing length 1, a good condition number and the identity
    matrix; an envelope from -1 to 1 for every field, and accumulated
    sums along the axes. *)
Definition ex_gas_P : GasGrad.particle_data :=
  {| GasGrad.Pos := (0, 0, 0); GasGrad.Mass := 3; GasGrad.TimeBin := 2 |}.

Definition ex_gas_SphP : GasGrad.sph_particle_data :=
  {| GasGrad.ConditionNumber := 10; GasGrad.Density := 2;
     GasGrad.Pressure := 1; GasGrad.VelPred := (0, 0, 0) |}.

Definition ex_grad_SphP : Gradients.sph_particle_data :=
  {| Gradients.ConditionNumber := 10; Gradients.Density := 2;
     Gradients.NV_T := ((1, 0, 0), (0, 1, 0), (0, 0, 1)) |}.

Definition ex_grad_PPP : Gradients.particle_data :=
  {| Gradients.Hsml := 1; Gradients.DhsmlNgbFactor := 1 |}.

Definition ex_quantities (x : R) : GasGrad.Q.Quantities_for_Gradients :=
  {| GasGrad.Q.Density := x; GasGrad.Q.Pressure := x;
     GasGrad.Q.Velocity := (x, x, x) |}.

Definition ex_in : GasGrad.In.GasGraddata_in :=
  {| GasGrad.In.Pos := (0, 0, 0); GasGrad.In.Mass := 0; GasGrad.In.Hsml := 0;
     GasGrad.In.Timestep := 0; GasGrad.In.GQuant := ex_quantities 0 |}.

Definition ex_passer : GasGrad.Passer.temporary_data_topass :=
  {| GasGrad.Passer.Maxima := ex_quantities 1;
     GasGrad.Passer.Minima := ex_quantities (-1);
     GasGrad.Passer.MaxDistance := 2 |}.

Definition ex_grads : GasGrad.Grads.Gradients :=
  {| GasGrad.Grads.Density := (1, 0, 0);
     GasGrad.Grads.Pressure := (0, 1, 0);
     GasGrad.Grads.Velocity := ((1, 0, 0), (0, 1, 0), (0, 0, 1)) |}.

(** A store whose particles are all [p], with empty brackets. *)
Definition ex_store (p : particle_data) : store :=
  {| P := fun _ => p; Left := fun _ => 0; Right := fun _ => 0 |}.

(** A reduction that stores the primary result and accumulates the
    later ones. *)
Definition ex_reduce (mode : TreeWalkReduceMode) (A B : R) : R :=
  match mode with
  | TREEWALK_PRIMARY => B
  | TREEWALK_GHOSTS => A + B
  end.

(** The sums of a walk that finds the density 1 and [ngb] neighbours. *)
Definition ex_result (ngb : R) : TreeWalkResultDensity :=
  {| Rho := 1; DhsmlDensity := 0; Ngb := ngb; Div_ := 0; Rot_ := (0, 0, 0);
     SmoothedEntropy := 0; SmoothedPressure := 0; FeedbackWeightSum_ := 0;
     GasVel := (0, 0, 0) |}.

(** ** density.c: operations *)

Section Density.

Set Default Proof Using "Type".

(** Macros of [allvars.h]: the spatial dimension, the ceiling on the
    neighbour iterations, the adiabatic index, and whether the
    [BLACK_HOLES] blocks are compiled in. *)
Variable NUMDIMS : Z.
Variable MAXITER : Z.
Variable GAMMA : R.
Variable BLACK_HOLES : bool.

(** [pow] of [math.h]. *)
Variable pow : R -> R -> R.

(** The macro [TREEWALK_REDUCE(A, B)] of [treewalk.h], which is not
    among the sources: the value left in [A] when the result [B] is
    reduced into it in the given mode. *)
Variable TREEWALK_REDUCE : TreeWalkReduceMode -> R -> R -> R.

(** The global parameter block [All]. *)
Variable All : global_data.

(** The chain [FirstActiveParticle], [NextActiveParticle[...]], as the
    list of the particle numbers it visits. *)
Variable ActiveParticles : list nat.

(** What the tree walk finds for a target: the sums of the local
    evaluation and the sums returned for its exports.  They stand for
    [density_ngbiter] run over the tree, which is not among the
    sources. *)
Variable ngb_primary : (nat -> particle_data) -> nat -> TreeWalkResultDensity.
Variable ngb_ghosts :
  (nat -> particle_data) -> nat -> list TreeWalkResultDensity.

(** What [sumup_large_ints] adds to the local count at the pass numbered
    [iter]: the unconverged particles of the other MPI ranks. *)
Variable remote_npleft : Z -> nat.

Definition TREEWALK_REDUCE3 (mode : TreeWalkReduceMode) (A B : vec3) : vec3 :=
  let '(a0, a1, a2) := A in
  let '(b0, b1, b2) := B in
  (TREEWALK_REDUCE mode a0 b0, TREEWALK_REDUCE mode a1 b1,
   TREEWALK_REDUCE mode a2 b2).

Definition density_reduce (place : nat) (remote : TreeWalkResultDensity)
    (mode : TreeWalkReduceMode) (P : nat -> particle_data)
    : nat -> particle_data :=
  let p := P place in
  let p := set_NumNgb (TREEWALK_REDUCE mode (NumNgb p) (Ngb remote)) p in
  let p :=
    if (Type_ p =? 0)%Z then
      let d := sph p in
      set_sph
        {| Density := TREEWALK_REDUCE mode (Density d) (Rho remote);
           DhsmlDensityFactor :=
             TREEWALK_REDUCE mode (DhsmlDensityFactor d) (DhsmlDensity remote);
           DivVel := TREEWALK_REDUCE mode (DivVel d) (Div_ remote);
           CurlVel := CurlVel d;
           Rot := TREEWALK_REDUCE3 mode (Rot d) (Rot_ remote);
           Pressure := Pressure d;
           Entropy := Entropy d;
           DtEntropy := DtEntropy d;
           VelPred := VelPred d |} p
    else p in
  let p :=
    if BLACK_HOLES && (Type_ p =? 5)%Z then
      let b := bh p in
      set_bh
        {| BHP.Density := TREEWALK_REDUCE mode (BHP.Density b) (Rho remote);
           BHP.FeedbackWeightSum :=
             TREEWALK_REDUCE mode (BHP.FeedbackWeightSum b)
               (FeedbackWeightSum_ remote);
           BHP.Entropy :=
             TREEWALK_REDUCE mode (BHP.Entropy b) (SmoothedEntropy remote);
           BHP.Pressure :=
             TREEWALK_REDUCE mode (BHP.Pressure b) (SmoothedPressure remote);
           BHP.SurroundingGasVel :=
             TREEWALK_REDUCE3 mode (BHP.SurroundingGasVel b) (GasVel remote)
        |} p
    else p in
  upd P place p.

Definition density_isactive (P : nat -> particle_data) (n : nat) : result Z :=
  if DensityIterationDone (P n) then Ok 0%Z
  else if (TimeBin (P n) <? 0)%Z then Endrun 9999
  else if BLACK_HOLES && (Type_ (P n) =? 5)%Z then Ok 1%Z
  else if (Type_ (P n) =? 0)%Z then Ok 1%Z
  else Ok 0%Z.

(** Lines 539-569 of [density_post_process]: the normalisations of the
    gas state by its density. *)
Definition normalise_by_density (hsml : R) (d : sph_particle_data)
    : Div sph_particle_data :=
  if Density d >? 0 then
    q <-/ fdiv hsml (IZR NUMDIMS * Density d) ;;
    let f := DhsmlDensityFactor d * q in
    f <-/ (if f >? -0.9 then fdiv 1 (1 + f) else dret 1) ;;
    let '(rot0, rot1, rot2) := Rot d in
    curl <-/ fdiv (sqrt (rot0 * rot0 + rot1 * rot1 + rot2 * rot2))
                  (Density d) ;;
    div <-/ fdiv (DivVel d) (Density d) ;;
    dret {| Density := Density d;
            DhsmlDensityFactor := f;
            DivVel := div;
            CurlVel := curl;
            Rot := Rot d;
            Pressure := Pressure d;
            Entropy := Entropy d;
            DtEntropy := DtEntropy d;
            VelPred := VelPred d |}
  else dret d.

(** Lines 574-576: the pressure, from the entropy drifted to the
    current time. *)
Definition update_pressure (p : particle_data) (d : sph_particle_data)
    : sph_particle_data :=
  let dt_step :=
    if (TimeBin p =? 0)%Z then 0%Z else Z.shiftl 1 (TimeBin p) in
  let dt_entr :=
    trunc (IZR (Ti_Current All - (Ti_begstep p + Z.quot dt_step 2))
           * Timebase_interval All) in
  {| Density := Density d;
     DhsmlDensityFactor := DhsmlDensityFactor d;
     DivVel := DivVel d;
     CurlVel := CurlVel d;
     Rot := Rot d;
     Pressure :=
       (Entropy d + DtEntropy d * IZR dt_entr) * pow (Density d) GAMMA;
     Entropy := Entropy d;
     DtEntropy := DtEntropy d;
     VelPred := VelPred d |}.

(** Lines 591-599: the averages around a black hole. *)
Definition normalise_bh (b : BHP.bh_particle_data)
    : Div BHP.bh_particle_data :=
  if BHP.Density b >? 0 then
    e <-/ fdiv (BHP.Entropy b) (BHP.Density b) ;;
    pr <-/ fdiv (BHP.Pressure b) (BHP.Density b) ;;
    let '(g0, g1, g2) := BHP.SurroundingGasVel b in
    g0 <-/ fdiv g0 (BHP.Density b) ;;
    g1 <-/ fdiv g1 (BHP.Density b) ;;
    g2 <-/ fdiv g2 (BHP.Density b) ;;
    dret {| BHP.Density := BHP.Density b;
            BHP.Entropy := e;
            BHP.Pressure := pr;
            BHP.FeedbackWeightSum := BHP.FeedbackWeightSum b;
            BHP.SurroundingGasVel := (g0, g1, g2) |}
  else dret b.

(** The work of [density_post_process(i)] on the particle [P[i]]. *)
Definition post_process (p : particle_data) : Div particle_data :=
  p <-/ (if (Type_ p =? 0)%Z then
           d <-/ normalise_by_density (Hsml p) (sph p) ;;
           dret (set_sph (update_pressure p d) p)
         else dret p) ;;
  if BLACK_HOLES && (Type_ p =? 5)%Z then
    b <-/ normalise_bh (bh p) ;;
    dret (set_bh b p)
  else dret p.

Definition density_post_process (i : nat) (s : store) : store :=
  {| P := upd (P s) i (fst (post_process (P s i)));
     Left := Left s; Right := Right s |}.

(** [density_check_neighbours], by the stages of its body. *)

Definition desnumngb_of (p : particle_data) : R :=
  if BLACK_HOLES && (Type_ p =? 5)%Z
  then DesNumNgb All * BlackHoleNgbFactor All
  else DesNumNgb All.

(** The outer test (lines 614-616): the particle must be redone. *)
Definition needs_redo (desnumngb : R) (p : particle_data) : bool :=
  (NumNgb p <? desnumngb - MaxNumNgbDeviation All)
  || ((NumNgb p >? desnumngb + MaxNumNgbDeviation All)
      && (Hsml p >? 1.01 * MinGasHsml All)).

(** Lines 624-625: the bracket has collapsed. *)
Definition bracket_collapsed (Left_i Right_i : R) : bool :=
  (Left_i >? 0) && (Right_i >? 0) && (Right_i - Left_i <? 1.0e-3 * Left_i).

(** Lines 632-643: the new bracket [(Left[i], Right[i])]. *)
Definition update_bracket (desnumngb : R) (p : particle_data)
    (Left_i Right_i : R) : R * R :=
  if NumNgb p <? desnumngb - MaxNumNgbDeviation All then
    (DMAX (Hsml p) Left_i, Right_i)
  else if negb (Right_i =? 0) then
    (if Hsml p <? Right_i then (Left_i, Hsml p) else (Left_i, Right_i))
  else (Left_i, Hsml p).

(** Lines 656-658 and 673-675. *)
Definition newton_fac (desnumngb : R) (p : particle_data) : R :=
  1 - (NumNgb p - desnumngb) / (IZR NUMDIMS * NumNgb p)
      * DhsmlDensityFactor (sph p).

(** Lines 645-685: the proposed [P[i].Hsml], from the new bracket. *)
Definition propose_hsml (desnumngb : R) (p : particle_data)
    (Left_i Right_i : R) : result R :=
  if (Right_i >? 0) && (Left_i >? 0) then
    Ok (pow (0.5 * (pow Left_i 3 + pow Right_i 3)) (1.0 / 3))
  else if (Right_i =? 0) && (Left_i =? 0) then Endrun 8188
  else
    let h := Hsml p in
    let h :=
      if (Right_i =? 0) && (Left_i >? 0) then
        if (Type_ p =? 0)%Z
           && (fabs (NumNgb p - desnumngb) <? 0.5 * desnumngb) then
          let fac := newton_fac desnumngb p in
          if fac <? 1.26 then h * fac else h * 1.26
        else h * 1.26
      else h in
    let h :=
      if (Right_i >? 0) && (Left_i =? 0) then
        if (Type_ p =? 0)%Z
           && (fabs (NumNgb p - desnumngb) <? 0.5 * desnumngb) then
          let fac := newton_fac desnumngb p in
          if fac >? 1 / 1.26 then h * fac else h / 1.26
        else h / 1.26
      else h in
    Ok h.

(** Lines 687-688. *)
Definition clamp_hsml (h : R) : R :=
  if h <? MinGasHsml All then MinGasHsml All else h.

(** The work of [density_check_neighbours(i, Left, Right)] on [P[i]],
    [Left[i]] and [Right[i]]. *)
Definition check_neighbours (p : particle_data) (Left_i Right_i : R)
    : result (particle_data * R * R) :=
  let desnumngb := desnumngb_of p in
  if needs_redo desnumngb p then
    if DensityIterationDone p then Endrun 999993
    else if bracket_collapsed Left_i Right_i then
      Ok (set_DensityIterationDone true p, Left_i, Right_i)
    else
      let '(Left_i, Right_i) := update_bracket desnumngb p Left_i Right_i in
      h <- propose_hsml desnumngb p Left_i Right_i ;;
      let h := clamp_hsml h in
      if BLACK_HOLES && (Type_ p =? 5)%Z
         && (Left_i >? BlackHoleMaxAccretionRadius All) then
        Ok (set_Hsml (BlackHoleMaxAccretionRadius All) p,
            BlackHoleMaxAccretionRadius All,
            BlackHoleMaxAccretionRadius All)
      else Ok (set_Hsml h p, Left_i, Right_i)
  else Ok (set_DensityIterationDone true p, Left_i, Right_i).

Definition density_check_neighbours (i : nat) (s : store) : result store :=
  '(p, Left_i, Right_i) <- check_neighbours (P s i) (Left s i) (Right s i) ;;
  Ok {| P := upd (P s) i p;
        Left := upd (Left s) i Left_i;
        Right := upd (Right s) i Right_i |}.

(** ** density.c: the driver *)

(** Modelled from the spec: [treewalk_get_queue] of [treewalk.c], which
    is not among the sources.  The queue of a walk holds, in the order of
    the chain of active particles, those for which the walk's [isactive]
    answers nonzero ("(D) updates h and re-queues unconverged
    particles"; in [density]: "the queue has every particle. Later on
    after some iterations are done Nactive will decrease"). *)
Fixpoint get_queue (isactive : nat -> result Z) (active : list nat)
    : result (list nat) :=
  match active with
  | [] => Ok []
  | i :: rest =>
      a <- isactive i ;;
      queue <- get_queue isactive rest ;;
      Ok (if (a =? 0)%Z then queue else i :: queue)
  end.

Definition treewalk_get_queue (P : nat -> particle_data) : result (list nat) :=
  get_queue (density_isactive P) ActiveParticles.

(** The reductions of one target: the local result in primary mode, then
    the results of its exports. *)
Definition reduce_target (src : nat -> particle_data) (place : nat)
    (P : nat -> particle_data) : nat -> particle_data :=
  fold_left (fun P remote => density_reduce place remote TREEWALK_GHOSTS P)
    (ngb_ghosts src place)
    (density_reduce place (ngb_primary src place) TREEWALK_PRIMARY P).

(** Modelled from the spec: [treewalk_run] of [treewalk.c], which is not
    among the sources.  "The driver produces, per active particle, a
    reduced result": the particle array changes through [tw.reduce]
    only, called for the particles of the queue. *)
Definition treewalk_run (P : nat -> particle_data)
    : result (nat -> particle_data) :=
  queue <- treewalk_get_queue P ;;
  Ok (fold_left (fun P' place => reduce_target P place P') queue P).

(** Lines 148-165 of [density]: the flags of the active particles are
    cleared, then the bracket of every queued particle is emptied.  The
    arrays [Left] and [Right] come from [mymalloc]: their first contents
    are whatever the store holds. *)
Definition density_init (s : store) : result store :=
  let P0 :=
    fold_left (fun P i => upd P i (set_DensityIterationDone false (P i)))
      ActiveParticles (P s) in
  queue <- treewalk_get_queue P0 ;;
  Ok (fold_left
        (fun s p =>
           {| P := if BLACK_HOLES
                   then upd (P s) p (set_SwallowID 0 (P s p)) else P s;
              Left := upd (Left s) p 0;
              Right := upd (Right s) p 0 |})
        queue {| P := P0; Left := Left s; Right := Right s |}).

(** The body of the loop over the queue (lines 184-200); the [message]
    of the last ten iterations changes nothing and is left out.  The
    loop is an OpenMP [parallel for]: every iteration reads and writes
    the entries of its own particle only, and the model runs them in the
    order of the queue. *)
Definition finish_particle (acc : store * nat) (p : nat)
    : result (store * nat) :=
  let '(s, npleft) := acc in
  s <- density_check_neighbours p (density_post_process p s) ;;
  Ok (s, if DensityIterationDone (P s p) then npleft else S npleft).

Fixpoint finish_queue (queue : list nat) (acc : store * nat)
    : result (store * nat) :=
  match queue with
  | [] => Ok acc
  | p :: rest => acc <- finish_particle acc p ;; finish_queue rest acc
  end.

(** One pass of the [do] loop up to [sumup_large_ints] (lines 175-206):
    the new store and the global count [ntot]. *)
Definition density_pass (iter : Z) (s : store) : result (store * nat) :=
  P1 <- treewalk_run (P s) ;;
  queue <- treewalk_get_queue P1 ;;
  '(s, npleft) <- finish_queue queue
                    ({| P := P1; Left := Left s; Right := Right s |}, O) ;;
  Ok (s, (npleft + remote_npleft iter)%nat).

(** The [do ... while(ntot > 0)] loop (lines 172-237).  [None]: the fuel
    ran out before the loop ended. *)
Fixpoint density_loop (fuel : nat) (iter : Z) (s : store)
    : option (result store) :=
  match fuel with
  | O => None
  | S fuel =>
      match density_pass iter s with
      | Endrun e => Some (Endrun e)
      | Ok (s, ntot) =>
          if (0 <? ntot)%nat then
            let iter := (iter + 1)%Z in
            if (iter >? MAXITER)%Z then Some (Endrun 1155)
            else density_loop fuel iter s
          else Some (Ok s)
      end
  end.

Definition density (fuel : nat) (s : store) : option (result store) :=
  match density_init s with
  | Endrun e => Some (Endrun e)
  | Ok s => density_loop fuel 0 s
  end.

(** [repeats iter s iter' s']: started with the counter [iter] in the
    store [s], the loop goes through passes that each end with a nonzero
    global count, and stands at the counter [iter'] in the store [s']. *)
Inductive repeats : Z -> store -> Z -> store -> Prop :=
| repeats_refl (iter : Z) (s : store) : repeats iter s iter s
| repeats_step (iter : Z) (s s1 : store) (ntot : nat) (iter' : Z) (s' : store) :
    density_pass iter s = Ok (s1, ntot) ->
    (0 < ntot)%nat ->
    repeats (iter + 1) s1 iter' s' ->
    repeats iter s iter' s'.

(** The particle [j] and its bracket are the same in two stores. *)
Definition same_cell (s s' : store) (j : nat) : Prop :=
  P s' j = P s j /\ Left s' j = Left s j /\ Right s' j = Right s j.

(** The state in which the controller marks a particle DONE: the redo
    test of lines 614-616 fails, or the bracket has collapsed. *)
Definition settled (p : particle_data) (Left_i Right_i : R) : Prop :=
  needs_redo (desnumngb_of p) p = false
  \/ bracket_collapsed Left_i Right_i = true.

(** The same for a gas particle, in terms of the numbers: the neighbour
    count is within the tolerance of [DesNumNgb], or it is above it with
    the smoothing length within 1% of its floor, or the bracket is
    narrower than a thousandth of its lower end. *)
Definition converged (p : particle_data) (Left_i Right_i : R) : Prop :=
  Rabs (NumNgb p - DesNumNgb All) <= MaxNumNgbDeviation All
  \/ (NumNgb p > DesNumNgb All + MaxNumNgbDeviation All
      /\ Hsml p <= 1.01 * MinGasHsml All)
  \/ (Left_i > 0 /\ Right_i > 0 /\ Right_i - Left_i < 1.0e-3 * Left_i).

(** * Properties *)

(** ** Comparisons and the small monads *)

Lemma Rltb_true (x y : R) : (x <? y) = true <-> x < y.
Proof. unfold Rltb. destruct (Rlt_dec x y); split; intros; auto; discriminate. Qed.

Lemma Rltb_false (x y : R) : (x <? y) = false <-> y <= x.
Proof.
  unfold Rltb. destruct (Rlt_dec x y); split; intros; auto; try discriminate; lra.
Qed.

Lemma Rgtb_true (x y : R) : (x >? y) = true <-> x > y.
Proof. unfold Rgtb. rewrite Rltb_true. lra. Qed.

Lemma Rgtb_false (x y : R) : (x >? y) = false <-> x <= y.
Proof. unfold Rgtb. rewrite Rltb_false. lra. Qed.

Lemma Reqb_true (x y : R) : (x =? y) = true <-> x = y.
Proof. unfold Reqb. destruct (Req_dec_T x y); split; intros; auto; discriminate. Qed.

Lemma Reqb_false (x y : R) : (x =? y) = false <-> x <> y.
Proof.
  unfold Reqb. destruct (Req_dec_T x y); split; intros; auto; try discriminate.
  contradiction.
Qed.

Lemma DMAX_Rmax (a b : R) : DMAX a b = Rmax a b.
Proof.
  unfold DMAX, Rmax. destruct (Rle_dec a b); rdec; lra.
Qed.

Lemma DMIN_Rmin (a b : R) : DMIN a b = Rmin a b.
Proof.
  unfold DMIN, Rmin. destruct (Rle_dec a b); rdec; lra.
Qed.

Lemma Rabs_le_iff (a b : R) : Rabs a <= b <-> - b <= a <= b.
Proof. unfold Rabs. destruct (Rcase_abs a); lra. Qed.


(** ** The smoothing-length controller *)

Lemma desnumngb_gas (p : particle_data) :
  Type_ p = 0%Z -> desnumngb_of p = DesNumNgb All.
Proof.
  intros H. unfold desnumngb_of. rewrite H. simpl.
  now rewrite andb_false_r.
Qed.

(** The redo test of lines 614-616 fails exactly when the neighbour
    count is within the tolerance or the particle sits on the floor of
    the smoothing length with too many neighbours. *)
Lemma needs_redo_false (n : R) (p : particle_data) :
  0 <= MaxNumNgbDeviation All ->
  needs_redo n p = false <->
  (Rabs (NumNgb p - n) <= MaxNumNgbDeviation All
   \/ (NumNgb p > n + MaxNumNgbDeviation All
       /\ Hsml p <= 1.01 * MinGasHsml All)).
Proof.
  intros Hdev. unfold needs_redo.
  rewrite orb_false_iff, andb_false_iff, Rltb_false, !Rgtb_false.
  split.
  - intros [H1 [H2 | H2]].
    + left. apply Rabs_le_iff. lra.
    + destruct (Rle_dec (NumNgb p) (n + MaxNumNgbDeviation All)).
      * left. apply Rabs_le_iff. lra.
      * right. lra.
  - intros [H | [H1 H2]].
    + apply Rabs_le_iff in H. split; [lra | left; lra].
    + split; [lra | right; lra].
Qed.

Lemma bracket_collapsed_true (l r : R) :
  bracket_collapsed l r = true <-> (l > 0 /\ r > 0 /\ r - l < 1.0e-3 * l).
Proof.
  unclutter.
  unfold bracket_collapsed.
  rewrite !andb_true_iff, !Rgtb_true, Rltb_true. tauto.
Qed.

(** After the bracket update of a particle with a positive smoothing
    length one side at least is set: [endrun(8188)] is not reached. *)
Lemma update_bracket_set (n : R) (p : particle_data) (l r : R) :
  0 < Hsml p ->
  let '(l', r') := update_bracket n p l r in l' <> 0 \/ r' <> 0.
Proof.
  intros Hh. unfold update_bracket, DMAX.
  destruct (NumNgb p <? n - MaxNumNgbDeviation All).
  - left. rdec; lra.
  - destruct (r =? 0) eqn:E; simpl.
    + right. lra.
    + apply Reqb_false in E. destruct (Hsml p <? r); right; lra.
Qed.

Lemma propose_hsml_ok (n : R) (p : particle_data) (l r : R) :
  l <> 0 \/ r <> 0 -> exists h, propose_hsml n p l r = Ok h.
Proof.
  intros Hset. unfold propose_hsml.
  destruct ((r >? 0) && (l >? 0)); [eauto |].
  destruct ((r =? 0) && (l =? 0)) eqn:E; [| eauto].
  apply andb_true_iff in E. rewrite !Reqb_true in E. lra.
Qed.

Lemma clamp_hsml_Rmax (h : R) : clamp_hsml h = Rmax (MinGasHsml All) h.
Proof.
  unfold clamp_hsml, Rmax. destruct (Rle_dec (MinGasHsml All) h); rdec; lra.
Qed.

(** What [check_neighbours] does with a gas particle that must be
    redone and whose bracket has not collapsed. *)
Lemma check_neighbours_redo (p : particle_data) (l r : R) :
  Type_ p = 0%Z ->
  DensityIterationDone p = false ->
  0 < Hsml p ->
  needs_redo (DesNumNgb All) p = true ->
  bracket_collapsed l r = false ->
  exists h,
    propose_hsml (DesNumNgb All) p
      (fst (update_bracket (DesNumNgb All) p l r))
      (snd (update_bracket (DesNumNgb All) p l r)) = Ok h
    /\ check_neighbours p l r =
       Ok (set_Hsml (clamp_hsml h) p,
           fst (update_bracket (DesNumNgb All) p l r),
           snd (update_bracket (DesNumNgb All) p l r)).
Proof.
  intros Hgas Hflag Hh Hredo Hcol.
  pose proof (update_bracket_set (DesNumNgb All) p l r Hh) as Hset.
  unfold check_neighbours.
  rewrite (desnumngb_gas p Hgas), Hredo, Hflag, Hcol.
  destruct (update_bracket (DesNumNgb All) p l r) as [l' r']. simpl.
  destruct (propose_hsml_ok (DesNumNgb All) p l' r' Hset) as [h Hp].
  exists h. split; [exact Hp |].
  rewrite Hp. simpl. rewrite Hgas. simpl.
  now rewrite andb_false_r.
Qed.

(** C1.  A gas particle examined by [density_check_neighbours] (flag
    clear, positive smoothing length, tolerance not negative) always
    comes back, and its DensityIterationDone flag is set exactly when
    |N_ngb - N*| <= Delta, or N_ngb > N* + Delta with h <= 1.01 H_min,
    or both bracket sides are positive with Right - Left < 0.001 Left.
    In every other case the flag stays clear, the bracket is updated and
    the particle receives the proposed smoothing length, raised to H_min
    if need be, for the next pass. *)
Theorem check_neighbours_done_iff (p : particle_data) (l r : R) :
  Type_ p = 0%Z ->
  DensityIterationDone p = false ->
  0 < Hsml p ->
  0 <= MaxNumNgbDeviation All ->
  exists p' l' r',
    check_neighbours p l r = Ok (p', l', r')
    /\ (DensityIterationDone p' = true <->
        (Rabs (NumNgb p - DesNumNgb All) <= MaxNumNgbDeviation All
         \/ (NumNgb p > DesNumNgb All + MaxNumNgbDeviation All
             /\ Hsml p <= 1.01 * MinGasHsml All)
         \/ (l > 0 /\ r > 0 /\ r - l < 1.0e-3 * l)))
    /\ (DensityIterationDone p' = false ->
        (l', r') = update_bracket (DesNumNgb All) p l r
        /\ exists h,
             propose_hsml (DesNumNgb All) p l' r' = Ok h
             /\ p' = set_Hsml (Rmax (MinGasHsml All) h) p
             /\ MinGasHsml All <= Hsml p').
Proof.
  unclutter.
  intros Hgas Hflag Hh Hdev.
  destruct (needs_redo (DesNumNgb All) p) eqn:Hredo.
  - destruct (bracket_collapsed l r) eqn:Hcol.
    + exists (set_DensityIterationDone true p), l, r.
      unfold check_neighbours.
      rewrite (desnumngb_gas p Hgas), Hredo, Hflag, Hcol.
      split; [reflexivity |]. simpl. split.
      * split; [intros _ | reflexivity].
        right. right. now apply bracket_collapsed_true.
      * discriminate.
    + destruct (check_neighbours_redo p l r Hgas Hflag Hh Hredo Hcol)
        as [h [Hp Hc]].
      destruct (update_bracket (DesNumNgb All) p l r) as [l' r'] eqn:Hu.
      simpl in Hp, Hc.
      exists (set_Hsml (clamp_hsml h) p), l', r'.
      split; [exact Hc |]. simpl. rewrite Hflag. split.
      * split; [discriminate |].
        intros [H | [H | H]].
        -- assert (needs_redo (DesNumNgb All) p = false) as E
             by (apply needs_redo_false; auto).
           congruence.
        -- assert (needs_redo (DesNumNgb All) p = false) as E
             by (apply needs_redo_false; auto).
           congruence.
        -- apply bracket_collapsed_true in H. congruence.
      * intros _. split; [reflexivity |].
        exists h. rewrite clamp_hsml_Rmax.
        repeat split; auto. apply Rmax_l.
  - exists (set_DensityIterationDone true p), l, r.
    unfold check_neighbours.
    rewrite (desnumngb_gas p Hgas), Hredo.
    split; [reflexivity |]. simpl. split.
    + split; [intros _ | reflexivity].
      apply needs_redo_false in Hredo; auto. tauto.
    + discriminate.
Qed.

Lemma update_bracket_left (n : R) (p : particle_data) (l r : R) :
  NumNgb p < n - MaxNumNgbDeviation All ->
  update_bracket n p l r = (Rmax l (Hsml p), r).
Proof.
  intros H. unfold update_bracket.
  apply Rltb_true in H. rewrite H.
  now rewrite DMAX_Rmax, Rmax_comm.
Qed.

Lemma update_bracket_right (n : R) (p : particle_data) (l r : R) :
  ~ NumNgb p < n - MaxNumNgbDeviation All ->
  update_bracket n p l r =
  (l, if r =? 0 then Hsml p else Rmin r (Hsml p)).
Proof.
  intros H. unfold update_bracket.
  assert ((NumNgb p <? n - MaxNumNgbDeviation All) = false) as E
    by (apply Rltb_false; lra).
  rewrite E. destruct (r =? 0); simpl; [reflexivity |].
  unfold Rmin. destruct (Rle_dec r (Hsml p)); rdec; try reflexivity; lra.
Qed.

(** The cube root taken at line 646, for [pow] the real power. *)
Lemma cube_root_mean (l r : R) :
  (forall x y : R, 0 < x -> pow x y = Rpower x y) ->
  0 < l -> 0 < r ->
  let h := pow (0.5 * (pow l 3 + pow r 3)) (1.0 / 3) in
  0 < h /\ h ^ 3 = (l ^ 3 + r ^ 3) / 2.
Proof.
  intros Hpow Hl Hr.
  assert (forall x, 0 < x -> pow x 3 = x ^ 3) as Hcube.
  { intros x Hx. rewrite (Hpow x 3 Hx).
    replace 3 with (INR 3) by (simpl; lra). now apply Rpower_pow. }
  rewrite (Hcube l Hl), (Hcube r Hr).
  assert (0 < l ^ 3) by (apply pow_lt; exact Hl).
  assert (0 < r ^ 3) by (apply pow_lt; exact Hr).
  assert (0 < 0.5 * (l ^ 3 + r ^ 3)) as Hs by lra.
  rewrite (Hpow _ (1.0 / 3) Hs). cbv zeta.
  assert (0 < Rpower (0.5 * (l ^ 3 + r ^ 3)) (1.0 / 3)) as Hh
    by (unfold Rpower; apply exp_pos).
  split; [exact Hh |].
  replace (Rpower (0.5 * (l ^ 3 + r ^ 3)) (1.0 / 3) ^ 3)
    with (Rpower (Rpower (0.5 * (l ^ 3 + r ^ 3)) (1.0 / 3)) (INR 3))
    by (now apply Rpower_pow).
  rewrite Rpower_mult.
  replace (1.0 / 3 * INR 3) with 1 by (simpl; lra).
  rewrite Rpower_1 by exact Hs. lra.
Qed.

(** C2.  When a gas particle must be redone and DONE is not reached:
    with N_ngb < N* - Delta the bracket becomes (max(Left, h), Right);
    otherwise N_ngb > N* + Delta and Right becomes h when it was 0 and
    min(Right, h) when it was not, Left being kept.  If both sides of
    the new bracket are positive the proposed h is the positive cube
    root of (Left^3 + Right^3)/2.  The stored h is the proposal raised
    to H_min: it is never below H_min, and a smaller proposal is stored
    as exactly H_min. *)
Theorem check_neighbours_bracket_update (p : particle_data) (l r : R) :
  (forall x y : R, 0 < x -> pow x y = Rpower x y) ->
  Type_ p = 0%Z ->
  DensityIterationDone p = false ->
  0 < Hsml p ->
  needs_redo (DesNumNgb All) p = true ->
  bracket_collapsed l r = false ->
  exists p' l' r' h,
    check_neighbours p l r = Ok (p', l', r')
    /\ DensityIterationDone p' = false
    /\ (NumNgb p < DesNumNgb All - MaxNumNgbDeviation All ->
        l' = Rmax l (Hsml p) /\ r' = r)
    /\ (~ NumNgb p < DesNumNgb All - MaxNumNgbDeviation All ->
        NumNgb p > DesNumNgb All + MaxNumNgbDeviation All
        /\ l' = l
        /\ (r = 0 -> r' = Hsml p)
        /\ (r <> 0 -> r' = Rmin r (Hsml p)))
    /\ propose_hsml (DesNumNgb All) p l' r' = Ok h
    /\ (0 < l' -> 0 < r' -> 0 < h /\ h ^ 3 = (l' ^ 3 + r' ^ 3) / 2)
    /\ MinGasHsml All <= Hsml p'
    /\ (h < MinGasHsml All -> Hsml p' = MinGasHsml All)
    /\ (MinGasHsml All <= h -> Hsml p' = h).
Proof.
  intros Hpow Hgas Hflag Hh Hredo Hcol.
  destruct (check_neighbours_redo p l r Hgas Hflag Hh Hredo Hcol)
    as [h [Hp Hc]].
  exists (set_Hsml (clamp_hsml h) p),
    (fst (update_bracket (DesNumNgb All) p l r)),
    (snd (update_bracket (DesNumNgb All) p l r)), h.
  split; [exact Hc |]. split; [exact Hflag |].
  split; [| split; [| split; [exact Hp | split]]].
  - intros Hlow. now rewrite update_bracket_left.
  - intros Hnlow. rewrite update_bracket_right by exact Hnlow. simpl.
    unfold needs_redo in Hredo.
    apply orb_true_iff in Hredo. destruct Hredo as [E | E].
    + apply Rltb_true in E. contradiction.
    + apply andb_true_iff in E. destruct E as [E _].
      apply Rgtb_true in E.
      split; [exact E |]. split; [reflexivity |]. split; intros Hr.
      * apply Reqb_true in Hr. now rewrite Hr.
      * apply Reqb_false in Hr. now rewrite Hr.
  - intros Hl Hr.
    unfold propose_hsml in Hp.
    apply Rgtb_true in Hl as El. apply Rgtb_true in Hr as Er.
    rewrite El, Er in Hp. simpl in Hp.
    injection Hp as <-.
    now apply cube_root_mean.
  - simpl. rewrite clamp_hsml_Rmax.
    split; [apply Rmax_l |].
    split; intros Hm.
    + apply Rmax_left. lra.
    + apply Rmax_right. exact Hm.
Qed.





(** The bracket of a gas particle never turns negative: the hypothesis
    on Left and Right of C3 holds from the empty bracket on. *)
Lemma check_neighbours_bracket_nonneg
    (p p' : particle_data) (l r l' r' : R) :
  Type_ p = 0%Z ->
  0 < Hsml p -> 0 <= l -> 0 <= r ->
  check_neighbours p l r = Ok (p', l', r') ->
  0 <= l' /\ 0 <= r'.
Proof.
  intros Hgas Hh Hl Hr H.
  destruct (needs_redo (DesNumNgb All) p) eqn:Hredo.
  - destruct (DensityIterationDone p) eqn:Hflag.
    { unfold check_neighbours in H.
      rewrite (desnumngb_gas p Hgas), Hredo, Hflag in H. discriminate. }
    destruct (bracket_collapsed l r) eqn:Hcol.
    { unfold check_neighbours in H.
      rewrite (desnumngb_gas p Hgas), Hredo, Hflag, Hcol in H.
      injection H as _ <- <-. split; assumption. }
    destruct (check_neighbours_redo p l r Hgas Hflag Hh Hredo Hcol)
      as [h [_ Hc]].
    rewrite Hc in H. injection H as _ <- <-.
    destruct (Rlt_dec (NumNgb p) (DesNumNgb All - MaxNumNgbDeviation All))
      as [Hlow | Hlow].
    + rewrite update_bracket_left by exact Hlow. simpl.
      split; [| exact Hr]. eapply Rle_trans; [exact Hl | apply Rmax_l].
    + rewrite update_bracket_right by exact Hlow. simpl.
      split; [exact Hl |].
      destruct (r =? 0); [lra |]. apply Rmin_glb; lra.
  - unfold check_neighbours in H.
    rewrite (desnumngb_gas p Hgas), Hredo in H.
    injection H as _ <- <-. split; assumption.
Qed.

(** ** Post-processing *)

Lemma dbind_dret {A B : Type} (m : Div A) (f : A -> B) :
  dbind m (fun a => dret (f a)) = (f (fst m), snd m).
Proof.
  destruct m as [a l]. unfold dbind, dret. simpl. now rewrite app_nil_r.
Qed.

(** For a gas particle only the gas block of [post_process] runs. *)
Lemma post_process_gas (p : particle_data) :
  Type_ p = 0%Z ->
  post_process p =
  (set_sph (update_pressure p
              (fst (normalise_by_density (Hsml p) (sph p)))) p,
   snd (normalise_by_density (Hsml p) (sph p))).
Proof.
  intros Hgas. unfold post_process. rewrite Hgas. simpl.
  rewrite dbind_dret.
  unfold dbind at 1. simpl. rewrite Hgas. simpl.
  rewrite andb_false_r. unfold dret. now rewrite app_nil_r.
Qed.

Lemma normalise_by_density_pos (hsml : R) (d : sph_particle_data) :
  0 < Density d ->
  let term := DhsmlDensityFactor d * (hsml / (IZR NUMDIMS * Density d)) in
  let '(rot0, rot1, rot2) := Rot d in
  normalise_by_density hsml d =
  ({| Density := Density d;
      DhsmlDensityFactor := if term >? -0.9 then 1 / (1 + term) else 1;
      DivVel := DivVel d / Density d;
      CurlVel := sqrt (rot0 * rot0 + rot1 * rot1 + rot2 * rot2) / Density d;
      Rot := Rot d;
      Pressure := Pressure d;
      Entropy := Entropy d;
      DtEntropy := DtEntropy d;
      VelPred := VelPred d |},
   [IZR NUMDIMS * Density d]
   ++ (if term >? -0.9 then [1 + term] else [])
   ++ [Density d; Density d]).
Proof.
  intros Hrho term. unfold normalise_by_density.
  apply Rgtb_true in Hrho. rewrite Hrho.
  destruct (Rot d) as [[rot0 rot1] rot2].
  unfold dbind, fdiv, dret. fold term.
  destruct (term >? -0.9); reflexivity.
Qed.

Lemma normalise_by_density_skip (hsml : R) (d : sph_particle_data) :
  Density d <= 0 -> normalise_by_density hsml d = (d, []).
Proof.
  intros Hrho. unfold normalise_by_density.
  apply Rgtb_false in Hrho. now rewrite Hrho.
Qed.

Lemma post_process_factor_pos (p : particle_data) :
  Type_ p = 0%Z ->
  0 < Density (sph p) ->
  0 < DhsmlDensityFactor (sph (fst (post_process p))).
Proof.
  intros Hgas Hrho. rewrite (post_process_gas p Hgas).
  pose proof (normalise_by_density_pos (Hsml p) (sph p) Hrho) as E.
  cbv zeta in E. destruct (Rot (sph p)) as [[rot0 rot1] rot2].
  rewrite E. simpl.
  destruct (_ >? -0.9) eqn:Ef; [| lra].
  apply Rgtb_true in Ef. apply Rdiv_lt_0_compat; lra.
Qed.

Lemma upd_same {A : Type} (a : nat -> A) (i : nat) (v : A) : upd a i v i = v.
Proof. unfold upd. now rewrite Nat.eqb_refl. Qed.

Lemma upd_other {A : Type} (a : nat -> A) (i j : nat) (v : A) :
  j <> i -> upd a i v j = a j.
Proof. intros H. unfold upd. apply Nat.eqb_neq in H. now rewrite H. Qed.

(** C6.  For a gas particle with positive accumulated density,
    [density_post_process] first multiplies the raw accumulator
    DhsmlDensityFactor by h/(D rho); if this term is greater than -0.9
    the stored factor is 1/(1 + term), otherwise (term <= -0.9) it is
    exactly 1. *)
Theorem density_post_process_factor (i : nat) (s : store) :
  Type_ (P s i) = 0%Z ->
  0 < Density (sph (P s i)) ->
  let term :=
    DhsmlDensityFactor (sph (P s i))
    * (Hsml (P s i) / (IZR NUMDIMS * Density (sph (P s i)))) in
  let f' := DhsmlDensityFactor (sph (P (density_post_process i s) i)) in
  (term > -0.9 -> f' = 1 / (1 + term))
  /\ (term <= -0.9 -> f' = 1).
Proof.
  intros Hgas Hrho term f'. subst f'.
  unfold density_post_process. simpl. rewrite upd_same.
  rewrite (post_process_gas _ Hgas).
  pose proof (normalise_by_density_pos (Hsml (P s i)) (sph (P s i)) Hrho) as E.
  cbv zeta in E. destruct (Rot (sph (P s i))) as [[rot0 rot1] rot2].
  rewrite E. simpl. fold term.
  split; intros H.
  - apply Rgtb_true in H. now rewrite H.
  - apply Rgtb_false in H. now rewrite H.
Qed.

(** C9.  For a gas particle whose accumulated density is not strictly
    positive, [density_post_process] skips every normalisation by the
    density: DivVel, CurlVel and DhsmlDensityFactor (and the density
    itself) are left as they were, and no floating-point division is
    evaluated at all, so none divides by zero. *)
Theorem density_post_process_skip (i : nat) (s : store) :
  Type_ (P s i) = 0%Z ->
  Density (sph (P s i)) <= 0 ->
  let p := P s i in
  let p' := P (density_post_process i s) i in
  DivVel (sph p') = DivVel (sph p)
  /\ CurlVel (sph p') = CurlVel (sph p)
  /\ DhsmlDensityFactor (sph p') = DhsmlDensityFactor (sph p)
  /\ Density (sph p') = Density (sph p)
  /\ snd (post_process p) = []
  /\ Forall (fun divisor => divisor <> 0) (snd (post_process p)).
Proof.
  intros Hgas Hrho p p'. subst p p'.
  unfold density_post_process. simpl. rewrite upd_same.
  rewrite (post_process_gas _ Hgas).
  rewrite normalise_by_density_skip by exact Hrho. simpl.
  repeat split; auto.
Qed.

(** Beyond C9: whatever the density of a gas particle, no division of
    the post-processing has a zero divisor (for a nonzero [NUMDIMS]). *)
Lemma post_process_gas_divisors (p : particle_data) :
  Type_ p = 0%Z ->
  NUMDIMS <> 0%Z ->
  Forall (fun divisor => divisor <> 0) (snd (post_process p)).
Proof.
  intros Hgas HD. rewrite (post_process_gas _ Hgas). simpl.
  destruct (Rlt_dec 0 (Density (sph p))) as [Hrho | Hrho].
  - pose proof (normalise_by_density_pos (Hsml p) (sph p) Hrho) as E.
    cbv zeta in E. destruct (Rot (sph p)) as [[rot0 rot1] rot2].
    rewrite E. simpl.
    assert (IZR NUMDIMS <> 0) as HD' by (now apply not_0_IZR).
    assert (IZR NUMDIMS * Density (sph p) <> 0) as Hprod.
    { apply Rmult_integral_contrapositive_currified; lra. }
    destruct (_ >? -0.9) eqn:Ef; simpl.
    + apply Rgtb_true in Ef.
      repeat constructor; auto; lra.
    + repeat constructor; auto; lra.
  - rewrite normalise_by_density_skip by lra. constructor.
Qed.

(** ** The driver: queue, passes and the loop *)

Lemma density_isactive_done (Q : nat -> particle_data) (n : nat) :
  DensityIterationDone (Q n) = true -> density_isactive Q n = Ok 0%Z.
Proof. intros H. unfold density_isactive. now rewrite H. Qed.

(** The queue holds exactly the listed particles that are active. *)
Lemma get_queue_spec (isactive : nat -> result Z) (active queue : list nat) :
  get_queue isactive active = Ok queue ->
  (forall i, In i queue ->
             In i active /\ exists a, isactive i = Ok a /\ a <> 0%Z)
  /\ (forall i, In i active -> ~ In i queue -> isactive i = Ok 0%Z).
Proof.
  revert queue. induction active as [| j rest IH]; intros queue H; simpl in H.
  - injection H as <-. split; intros i Hi; contradiction.
  - destruct (isactive j) as [a |] eqn:Ea; simpl in H; [| discriminate].
    destruct (get_queue isactive rest) as [q |]; simpl in H; [| discriminate].
    destruct (IH q eq_refl) as [IH1 IH2].
    injection H as <-. split.
    + intros i Hi. destruct (a =? 0)%Z eqn:E.
      * destruct (IH1 i Hi) as [Hin Hact]. split; [now right | exact Hact].
      * destruct Hi as [<- | Hi].
        -- split; [now left |]. exists a. split; [exact Ea |].
           now apply Z.eqb_neq.
        -- destruct (IH1 i Hi) as [Hin Hact]. split; [now right | exact Hact].
    + intros i Hi Hni. destruct (a =? 0)%Z eqn:E.
      * destruct Hi as [<- | Hi].
        -- apply Z.eqb_eq in E. now rewrite <- E.
        -- now apply IH2.
      * destruct Hi as [<- | Hi].
        -- exfalso. apply Hni. now left.
        -- apply IH2; [exact Hi |]. intros Hq. apply Hni. now right.
Qed.

Lemma queue_excludes_done (Q : nat -> particle_data) (queue : list nat)
    (j : nat) :
  treewalk_get_queue Q = Ok queue ->
  DensityIterationDone (Q j) = true -> ~ In j queue.
Proof.
  intros Hq Hdone Hin.
  destruct (get_queue_spec _ _ _ Hq) as [H1 _].
  destruct (H1 j Hin) as [_ [a [Ha Hnz]]].
  rewrite (density_isactive_done Q j Hdone) in Ha.
  injection Ha as <-. now apply Hnz.
Qed.

(** [density_reduce] writes the target particle only. *)
Lemma density_reduce_other (place : nat) (remote : TreeWalkResultDensity)
    (mode : TreeWalkReduceMode) (Q : nat -> particle_data) (j : nat) :
  j <> place -> density_reduce place remote mode Q j = Q j.
Proof. intros H. unfold density_reduce. now apply upd_other. Qed.

Lemma reduce_target_other (src : nat -> particle_data) (place : nat)
    (Q : nat -> particle_data) (j : nat) :
  j <> place -> reduce_target src place Q j = Q j.
Proof.
  intros H. unfold reduce_target.
  pose proof (density_reduce_other place (ngb_primary src place)
                TREEWALK_PRIMARY Q j H) as E.
  revert E.
  generalize (density_reduce place (ngb_primary src place) TREEWALK_PRIMARY Q).
  induction (ngb_ghosts src place) as [| g gs IH]; intros Q0 E; simpl;
    [exact E |].
  apply IH. now rewrite density_reduce_other.
Qed.

Lemma treewalk_run_frame (Q Q1 : nat -> particle_data) (j : nat) :
  treewalk_run Q = Ok Q1 ->
  DensityIterationDone (Q j) = true -> Q1 j = Q j.
Proof.
  unfold treewalk_run. intros H Hdone.
  destruct (treewalk_get_queue Q) as [queue |] eqn:Hq; simpl in H;
    [| discriminate].
  injection H as <-.
  pose proof (queue_excludes_done Q queue j Hq Hdone) as Hni.
  clear Hq.
  assert (forall Q0 : nat -> particle_data,
             Q0 j = Q j ->
             fold_left (fun P' place => reduce_target Q place P') queue Q0 j
             = Q j) as Hfold.
  { induction queue as [| place rest IH]; intros Q0 E; simpl; [exact E |].
    apply IH; [intros Hin; apply Hni; now right |].
    rewrite reduce_target_other; [exact E |].
    intros ->. apply Hni. now left. }
  now apply Hfold.
Qed.

Lemma dbind_fst {A B : Type} (m : Div A) (k : A -> Div B) :
  fst (dbind m k) = fst (k (fst m)).
Proof.
  destruct m as [a l]. unfold dbind. simpl. now destruct (k a).
Qed.

(** Post-processing writes the gas and black-hole states only. *)
Lemma post_process_flag (p : particle_data) :
  DensityIterationDone (fst (post_process p)) = DensityIterationDone p.
Proof.
  unfold post_process. rewrite dbind_fst.
  assert (DensityIterationDone
            (fst (if (Type_ p =? 0)%Z
                  then dbind (normalise_by_density (Hsml p) (sph p))
                         (fun d => dret (set_sph (update_pressure p d) p))
                  else dret p)) = DensityIterationDone p) as E.
  { destruct (Type_ p =? 0)%Z; [| reflexivity]. now rewrite dbind_fst. }
  destruct (BLACK_HOLES && _); [rewrite dbind_fst |]; simpl; exact E.
Qed.

(** [check_neighbours] never clears a flag. *)
Lemma check_neighbours_flag (p p' : particle_data) (l r l' r' : R) :
  check_neighbours p l r = Ok (p', l', r') ->
  DensityIterationDone p = true -> DensityIterationDone p' = true.
Proof.
  unfold check_neighbours. intros H Hflag.
  destruct (needs_redo (desnumngb_of p) p).
  - rewrite Hflag in H. discriminate.
  - now injection H as <- <- <-.
Qed.

Lemma same_cell_refl (s : store) (j : nat) : same_cell s s j.
Proof. repeat split. Qed.

Lemma same_cell_trans (s1 s2 s3 : store) (j : nat) :
  same_cell s1 s2 j -> same_cell s2 s3 j -> same_cell s1 s3 j.
Proof.
  unfold same_cell. intros (A1 & A2 & A3) (B1 & B2 & B3).
  repeat split; congruence.
Qed.

Lemma finish_particle_spec (s s' : store) (n n' p : nat) :
  finish_particle (s, n) p = Ok (s', n') ->
  (forall j, j <> p -> same_cell s s' j)
  /\ (n <= n')%nat
  /\ (n' = n -> DensityIterationDone (P s' p) = true)
  /\ (forall j, DensityIterationDone (P s j) = true ->
                DensityIterationDone (P s' j) = true).
Proof.
  unfold finish_particle, density_check_neighbours. intros H.
  destruct (check_neighbours _ _ _) as [[[p' l'] r'] |] eqn:Hc;
    simpl in H; [| discriminate].
  injection H as <- <-. simpl in *. rewrite !upd_same in *.
  split; [| split; [| split]].
  - intros j Hj. unfold same_cell. simpl. now rewrite !upd_other by exact Hj.
  - destruct (DensityIterationDone p'); lia.
  - destruct (DensityIterationDone p'); [reflexivity | lia].
  - intros j Hdone. destruct (Nat.eq_dec j p) as [-> | Hj].
    + rewrite upd_same in *.
      apply (check_neighbours_flag _ _ _ _ _ _ Hc).
      now rewrite post_process_flag.
    + now rewrite !upd_other by exact Hj.
Qed.

Lemma finish_queue_spec (queue : list nat) (s s' : store) (n n' : nat) :
  finish_queue queue (s, n) = Ok (s', n') ->
  (forall j, ~ In j queue -> same_cell s s' j)
  /\ (n <= n')%nat
  /\ (n' = n -> forall p, In p queue -> DensityIterationDone (P s' p) = true)
  /\ (forall j, DensityIterationDone (P s j) = true ->
                DensityIterationDone (P s' j) = true).
Proof.
  revert s n. induction queue as [| p rest IH]; intros s n H;
    cbn [finish_queue] in H.
  - injection H as <- <-.
    repeat split; auto; intros; contradiction.
  - destruct (finish_particle (s, n) p) as [[s1 n1] |] eqn:Hp;
      simpl in H; [| discriminate].
    destruct (finish_particle_spec _ _ _ _ _ Hp) as (F1 & F2 & F3 & F4).
    destruct (IH _ _ H) as (Q1 & Q2 & Q3 & Q4).
    split; [| split; [| split]].
    + intros j Hj. apply (same_cell_trans s s1 s').
      * apply F1. intros ->. apply Hj. now left.
      * apply Q1. intros Hin. apply Hj. now right.
    + lia.
    + intros E q [<- | Hq].
      * apply Q4, F3. lia.
      * apply Q3; [lia | exact Hq].
    + intros j Hdone. now apply Q4, F4.
Qed.

Lemma density_pass_frame (iter : Z) (s s' : store) (ntot j : nat) :
  density_pass iter s = Ok (s', ntot) ->
  DensityIterationDone (P s j) = true -> same_cell s s' j.
Proof.
  unfold density_pass. intros H Hdone.
  destruct (treewalk_run (P s)) as [P1 |] eqn:Hrun; simpl in H;
    [| discriminate].
  destruct (treewalk_get_queue P1) as [queue |] eqn:Hq; simpl in H;
    [| discriminate].
  destruct (finish_queue queue _) as [[s2 npleft] |] eqn:Hf; simpl in H;
    [| discriminate].
  injection H as <- <-.
  pose proof (treewalk_run_frame _ _ j Hrun Hdone) as E.
  assert (DensityIterationDone (P1 j) = true) as Hdone1 by (now rewrite E).
  pose proof (queue_excludes_done _ _ j Hq Hdone1) as Hni.
  destruct (finish_queue_spec _ _ _ _ _ Hf) as (F1 & _).
  destruct (F1 j Hni) as (A1 & A2 & A3). simpl in *.
  repeat split; congruence.
Qed.

(** A pass that ends with the global count 0 leaves no listed particle
    active. *)
Lemma density_pass_zero (iter : Z) (s s' : store) (p : nat) :
  density_pass iter s = Ok (s', O) ->
  In p ActiveParticles -> density_isactive (P s') p = Ok 0%Z.
Proof.
  unfold density_pass. intros H Hin.
  destruct (treewalk_run (P s)) as [P1 |] eqn:Hrun; simpl in H;
    [| discriminate].
  destruct (treewalk_get_queue P1) as [queue |] eqn:Hq; simpl in H;
    [| discriminate].
  destruct (finish_queue queue _) as [[s2 npleft] |] eqn:Hf; simpl in H;
    [| discriminate].
  injection H as <- Hn.
  assert (npleft = O) as -> by lia.
  destruct (finish_queue_spec _ _ _ _ _ Hf) as (F1 & _ & F3 & _).
  destruct (in_dec Nat.eq_dec p queue) as [Hq' | Hq'].
  - apply density_isactive_done. now apply F3.
  - destruct (get_queue_spec _ _ _ Hq) as [_ G2].
    specialize (G2 p Hin Hq').
    destruct (F1 p Hq') as (A1 & _). simpl in A1.
    unfold density_isactive in *. now rewrite A1.
Qed.

Lemma density_loop_frame (fuel : nat) (iter : Z) (s s' : store) (j : nat) :
  density_loop fuel iter s = Some (Ok s') ->
  DensityIterationDone (P s j) = true -> same_cell s s' j.
Proof.
  revert iter s. induction fuel as [| fuel IH]; intros iter s H Hdone;
    simpl in H; [discriminate |].
  destruct (density_pass iter s) as [[s1 ntot] |] eqn:Hp; [| discriminate].
  pose proof (density_pass_frame _ _ _ _ j Hp Hdone) as Hc.
  destruct (0 <? ntot)%nat.
  - destruct (iter + 1 >? MAXITER)%Z; [discriminate |].
    apply (same_cell_trans s s1 s'); [exact Hc |].
    apply (IH _ _ H). destruct Hc as (E & _). now rewrite E.
  - now injection H as <-.
Qed.

(** C10.  Once the DensityIterationDone flag of a particle is set,
    [density_isactive] returns 0 for it, no later queue of the walk
    contains it, and every pass, and so the rest of the loop of
    [density], leaves the whole particle record (Hsml, Density and all
    other fields) and its bracket (Left, Right) as they are. *)
Theorem done_particle_is_frozen (s : store) (j : nat) :
  DensityIterationDone (P s j) = true ->
  density_isactive (P s) j = Ok 0%Z
  /\ (forall queue, treewalk_get_queue (P s) = Ok queue -> ~ In j queue)
  /\ (forall iter s' ntot,
         density_pass iter s = Ok (s', ntot) ->
         DensityIterationDone (P s' j) = true /\ same_cell s s' j)
  /\ (forall fuel iter s',
         density_loop fuel iter s = Some (Ok s') ->
         P s' j = P s j /\ Left s' j = Left s j /\ Right s' j = Right s j).
Proof.
  intros Hdone.
  split; [now apply density_isactive_done |].
  split; [intros queue Hq; now apply (queue_excludes_done _ _ _ Hq) |].
  split.
  - intros iter s' ntot Hp.
    pose proof (density_pass_frame _ _ _ _ j Hp Hdone) as Hc.
    split; [| exact Hc]. destruct Hc as (E & _). now rewrite E.
  - intros fuel iter s' Hl.
    exact (density_loop_frame _ _ _ _ j Hl Hdone).
Qed.

Lemma repeats_le (iter iter' : Z) (s s' : store) :
  repeats iter s iter' s' -> (iter <= iter')%Z.
Proof. induction 1; lia. Qed.

(** With one unit of fuel for the pass at hand and one for every value
    the counter can still take, the loop ends. *)
Lemma density_loop_total (fuel : nat) (iter : Z) (s : store) :
  (Z.to_nat (MAXITER - iter) < fuel)%nat ->
  exists r, density_loop fuel iter s = Some r.
Proof.
  revert iter s. induction fuel as [| fuel IH]; intros iter s Hfuel; [lia |].
  simpl. destruct (density_pass iter s) as [[s1 ntot] |]; [| eauto].
  destruct (0 <? ntot)%nat; [| eauto].
  destruct (iter + 1 >? MAXITER)%Z eqn:E; [eauto |].
  apply IH. lia.
Qed.

Lemma density_loop_exit (fuel : nat) (iter k : Z) (s sk s' : store) :
  repeats iter s k sk ->
  (k <= MAXITER)%Z ->
  density_pass k sk = Ok (s', O) ->
  (Z.to_nat (k - iter) < fuel)%nat ->
  density_loop fuel iter s = Some (Ok s').
Proof.
  intros Hrep. revert fuel.
  induction Hrep as [iter s | iter s s1 ntot k sk Hp Hn Hrep IH];
    intros fuel Hk Hlast Hfuel.
  - destruct fuel as [| fuel]; [lia |]. simpl. now rewrite Hlast.
  - destruct fuel as [| fuel]; [lia |]. simpl. rewrite Hp.
    apply Nat.ltb_lt in Hn. rewrite Hn.
    pose proof (repeats_le _ _ _ _ Hrep).
    destruct (iter + 1 >? MAXITER)%Z eqn:E; [lia |].
    apply IH; auto. lia.
Qed.

Lemma density_loop_fatal (fuel : nat) (iter : Z) (s sk s' : store)
    (ntot : nat) :
  repeats iter s MAXITER sk ->
  density_pass MAXITER sk = Ok (s', ntot) ->
  (0 < ntot)%nat ->
  (Z.to_nat (MAXITER - iter) < fuel)%nat ->
  density_loop fuel iter s = Some (Endrun 1155).
Proof.
  intros Hrep. remember MAXITER as k eqn:Ek. revert fuel.
  induction Hrep as [iter s | iter s s1 n1 k sk Hp Hn Hrep IH];
    intros fuel Hlast Hpos Hfuel.
  - destruct fuel as [| fuel]; [lia |]. simpl. rewrite Hlast.
    apply Nat.ltb_lt in Hpos. rewrite Hpos.
    destruct (iter + 1 >? MAXITER)%Z eqn:E; [reflexivity | lia].
  - destruct fuel as [| fuel]; [lia |]. simpl. rewrite Hp.
    apply Nat.ltb_lt in Hn. rewrite Hn.
    pose proof (repeats_le _ _ _ _ Hrep).
    destruct (iter + 1 >? MAXITER)%Z eqn:E; [lia |].
    apply IH; auto. lia.
Qed.

Lemma density_loop_sound (fuel : nat) (iter : Z) (s s' : store) :
  (iter <= MAXITER)%Z ->
  density_loop fuel iter s = Some (Ok s') ->
  exists k sk,
    repeats iter s k sk /\ (k <= MAXITER)%Z
    /\ density_pass k sk = Ok (s', O).
Proof.
  revert iter s. induction fuel as [| fuel IH]; intros iter s Hi H;
    simpl in H; [discriminate |].
  destruct (density_pass iter s) as [[s1 ntot] |] eqn:Hp; [| discriminate].
  destruct (0 <? ntot)%nat eqn:Hn.
  - destruct (iter + 1 >? MAXITER)%Z eqn:E; [discriminate |].
    destruct (IH (iter + 1)%Z s1 ltac:(lia) H) as (k & sk & Hrep & Hk & Hl).
    exists k, sk. split; [| auto].
    apply Nat.ltb_lt in Hn. eapply repeats_step; eauto.
  - injection H as <-. apply Nat.ltb_ge in Hn.
    assert (ntot = O) as -> by lia.
    exists iter, s. repeat split; auto. apply repeats_refl.
Qed.

(** C8.  The loop of [density], started with the counter 0 and given
    fuel for MAXITER + 1 passes, always ends.  It repeats passes while
    the global count of particles not marked DONE is nonzero: it
    returns normally at the first pass that ends with the count 0, if
    that pass is among the first MAXITER + 1, and then no listed
    particle is active any more; if the pass numbered MAXITER still
    ends with a nonzero count it stops with endrun(1155) and does not
    return.  A normal return happens in no other way. *)
Theorem density_loop_outcome (fuel : nat) (s : store) :
  (0 <= MAXITER)%Z ->
  (Z.to_nat MAXITER < fuel)%nat ->
  (exists r, density_loop fuel 0 s = Some r)
  /\ (forall k sk s',
         repeats 0 s k sk -> (k <= MAXITER)%Z ->
         density_pass k sk = Ok (s', O) ->
         density_loop fuel 0 s = Some (Ok s'))
  /\ (forall sk s' ntot,
         repeats 0 s MAXITER sk ->
         density_pass MAXITER sk = Ok (s', ntot) -> (0 < ntot)%nat ->
         density_loop fuel 0 s = Some (Endrun 1155))
  /\ (forall s',
         density_loop fuel 0 s = Some (Ok s') ->
         (exists k sk,
             repeats 0 s k sk /\ (k <= MAXITER)%Z
             /\ density_pass k sk = Ok (s', O))
         /\ forall p, In p ActiveParticles ->
                      density_isactive (P s') p = Ok 0%Z).
Proof.
  intros HM Hfuel.
  split; [apply density_loop_total; now rewrite Z.sub_0_r |].
  split.
  { intros k sk s' Hrep Hk Hl.
    apply (density_loop_exit fuel 0 k s sk s' Hrep Hk Hl).
    rewrite Z.sub_0_r. lia. }
  split.
  { intros sk s' ntot Hrep Hl Hpos.
    apply (density_loop_fatal fuel 0 s sk s' ntot Hrep Hl Hpos).
    now rewrite Z.sub_0_r. }
  intros s' Hl.
  destruct (density_loop_sound fuel 0 s s' HM Hl) as (k & sk & Hrep & Hk & Hp).
  split; [eauto |].
  intros p Hin. exact (density_pass_zero k sk s' p Hp Hin).
Qed.

(** ** Further properties: the controller *)

(** What [post_process] keeps: everything but the gas and black-hole
    states. *)
Lemma post_process_fst (p : particle_data) :
  fst (post_process p) =
  let p1 :=
    if (Type_ p =? 0)%Z
    then set_sph (update_pressure p
                    (fst (normalise_by_density (Hsml p) (sph p)))) p
    else p in
  if BLACK_HOLES && (Type_ p1 =? 5)%Z
  then set_bh (fst (normalise_bh (bh p1))) p1 else p1.
Proof.
  unfold post_process. cbv zeta.
  destruct (Type_ p =? 0)%Z.
  - rewrite dbind_fst, dbind_fst. unfold dret at 1. cbn [fst].
    destruct (BLACK_HOLES && _); [now rewrite dbind_fst | reflexivity].
  - rewrite dbind_fst. unfold dret at 1. cbn [fst].
    destruct (BLACK_HOLES && _); [now rewrite dbind_fst | reflexivity].
Qed.

Lemma normalise_by_density_keeps (hsml : R) (d : sph_particle_data) :
  let d' := fst (normalise_by_density hsml d) in
  Density d' = Density d /\ Rot d' = Rot d /\ Pressure d' = Pressure d
  /\ Entropy d' = Entropy d /\ DtEntropy d' = DtEntropy d
  /\ VelPred d' = VelPred d.
Proof.
  cbv zeta. destruct (Rlt_dec 0 (Density d)) as [Hrho | Hrho].
  - pose proof (normalise_by_density_pos hsml d Hrho) as E. cbv zeta in E.
    destruct (Rot d) as [[rot0 rot1] rot2] eqn:ER. rewrite E. simpl.
    repeat split; auto.
  - rewrite normalise_by_density_skip by lra. simpl. repeat split.
Qed.

(** X7.  [density_post_process] writes the gas state of a gas particle
    and the black-hole state of a black hole, and nothing else: the
    identity, type, position, mass, time bin, smoothing length,
    neighbour count, flag and SwallowID are kept, the gas density,
    rotation, entropy and predicted velocity are kept, and a particle
    that is neither gas nor a compiled-in black hole is returned as it
    is. *)
Theorem post_process_keeps (p : particle_data) :
  let p' := fst (post_process p) in
  (ID p' = ID p /\ Type_ p' = Type_ p /\ Pos p' = Pos p /\ Mass p' = Mass p
   /\ TimeBin p' = TimeBin p /\ Ti_begstep p' = Ti_begstep p
   /\ Hsml p' = Hsml p /\ NumNgb p' = NumNgb p
   /\ DensityIterationDone p' = DensityIterationDone p
   /\ SwallowID p' = SwallowID p)
  /\ (Density (sph p') = Density (sph p) /\ Rot (sph p') = Rot (sph p)
      /\ Entropy (sph p') = Entropy (sph p)
      /\ DtEntropy (sph p') = DtEntropy (sph p)
      /\ VelPred (sph p') = VelPred (sph p))
  /\ (Type_ p <> 0%Z -> sph p' = sph p)
  /\ (BLACK_HOLES && (Type_ p =? 5)%Z = false -> bh p' = bh p)
  /\ (Type_ p <> 0%Z -> BLACK_HOLES && (Type_ p =? 5)%Z = false -> p' = p).
Proof.
  cbv zeta. rewrite post_process_fst. cbv zeta.
  pose proof (normalise_by_density_keeps (Hsml p) (sph p)) as K.
  cbv zeta in K. destruct K as (K1 & K2 & K3 & K4 & K5 & K6).
  destruct (Type_ p =? 0)%Z eqn:Et.
  - apply Z.eqb_eq in Et.
    assert ((Type_ (set_sph (update_pressure p
               (fst (normalise_by_density (Hsml p) (sph p)))) p) =? 5)%Z
            = false) as E5 by (simpl; now rewrite Et).
    rewrite E5, andb_false_r. simpl.
    repeat split; auto; try contradiction.
  - apply Z.eqb_neq in Et.
    destruct (BLACK_HOLES && (Type_ p =? 5)%Z) eqn:Eb; simpl.
    + repeat split; auto; discriminate.
    + repeat split; auto.
Qed.

Lemma post_process_core (p : particle_data) :
  Type_ (fst (post_process p)) = Type_ p
  /\ Hsml (fst (post_process p)) = Hsml p
  /\ NumNgb (fst (post_process p)) = NumNgb p
  /\ DensityIterationDone (fst (post_process p)) = DensityIterationDone p.
Proof.
  rewrite post_process_fst. cbv zeta.
  destruct (Type_ p =? 0)%Z; destruct (BLACK_HOLES && _); simpl; auto.
Qed.

(** The two ways in which [check_neighbours] returns. *)
Lemma check_neighbours_ok_shape (p p' : particle_data) (l r l' r' : R) :
  check_neighbours p l r = Ok (p', l', r') ->
  (p' = set_DensityIterationDone true p /\ l' = l /\ r' = r
   /\ settled p l r
   /\ (DensityIterationDone p = true ->
       needs_redo (desnumngb_of p) p = false))
  \/ (DensityIterationDone p = false
      /\ needs_redo (desnumngb_of p) p = true
      /\ bracket_collapsed l r = false
      /\ exists h,
           propose_hsml (desnumngb_of p) p
             (fst (update_bracket (desnumngb_of p) p l r))
             (snd (update_bracket (desnumngb_of p) p l r)) = Ok h
           /\ ((p' = set_Hsml (clamp_hsml h) p
                /\ (l', r') = update_bracket (desnumngb_of p) p l r)
               \/ (BLACK_HOLES && (Type_ p =? 5)%Z = true
                   /\ fst (update_bracket (desnumngb_of p) p l r)
                      > BlackHoleMaxAccretionRadius All
                   /\ p' = set_Hsml (BlackHoleMaxAccretionRadius All) p
                   /\ l' = BlackHoleMaxAccretionRadius All
                   /\ r' = BlackHoleMaxAccretionRadius All))).
Proof.
  unfold check_neighbours, settled. intros H.
  destruct (needs_redo (desnumngb_of p) p) eqn:Hredo.
  - destruct (DensityIterationDone p) eqn:Hflag; [discriminate |].
    destruct (bracket_collapsed l r) eqn:Hcol.
    + injection H as <- <- <-. left. repeat split; auto; discriminate.
    + right. repeat split; auto.
      destruct (update_bracket (desnumngb_of p) p l r) as [l1 r1]. simpl.
      destruct (propose_hsml (desnumngb_of p) p l1 r1) as [h |];
        simpl in H; [| discriminate].
      exists h. split; [reflexivity |].
      destruct (BLACK_HOLES && (Type_ p =? 5)%Z) eqn:Eb; simpl in H.
      * destruct (l1 >? BlackHoleMaxAccretionRadius All) eqn:Ec.
        -- injection H as <- <- <-. right. apply Rgtb_true in Ec.
           repeat split; auto.
        -- injection H as <- <- <-. left. split; reflexivity.
      * injection H as <- <- <-. left. split; reflexivity.
  - injection H as <- <- <-. left. repeat split; auto.
Qed.

(** X2.  The fatal exits of [density_check_neighbours].  A particle
    whose flag is already set and that must be redone stops the run
    with endrun(999993).  No other code than 999993 and 8188 is ever
    raised; 8188 ("cannot occur") is raised only from a clear flag with
    a smoothing length that is not positive.  So a particle with a clear
    flag and a positive smoothing length, of any type, always comes
    back. *)
Theorem check_neighbours_fatal (p : particle_data) (l r : R) :
  (DensityIterationDone p = true ->
   needs_redo (desnumngb_of p) p = true ->
   check_neighbours p l r = Endrun 999993)
  /\ (forall e,
         check_neighbours p l r = Endrun e ->
         (e = 999993%Z /\ DensityIterationDone p = true
          /\ needs_redo (desnumngb_of p) p = true)
         \/ (e = 8188%Z /\ DensityIterationDone p = false /\ Hsml p <= 0))
  /\ (DensityIterationDone p = false -> 0 < Hsml p ->
      exists x, check_neighbours p l r = Ok x).
Proof.
  split; [| split].
  - intros Hflag Hredo. unfold check_neighbours. now rewrite Hredo, Hflag.
  - intros e H. unfold check_neighbours in H.
    destruct (needs_redo (desnumngb_of p) p) eqn:Hredo; [| discriminate].
    destruct (DensityIterationDone p) eqn:Hflag.
    { injection H as <-. left. auto. }
    destruct (bracket_collapsed l r); [discriminate |].
    right.
    destruct (Rlt_dec 0 (Hsml p)) as [Hh | Hh].
    + exfalso.
      pose proof (update_bracket_set (desnumngb_of p) p l r Hh) as Hset.
      destruct (update_bracket (desnumngb_of p) p l r) as [l1 r1].
      destruct (propose_hsml_ok (desnumngb_of p) p l1 r1 Hset) as [h Hp].
      rewrite Hp in H. simpl in H.
      destruct (BLACK_HOLES && _ && _); discriminate.
    + destruct (update_bracket (desnumngb_of p) p l r) as [l1 r1].
      unfold propose_hsml in H.
      destruct ((r1 >? 0) && (l1 >? 0)).
      { simpl in H. destruct (BLACK_HOLES && _ && _); discriminate. }
      destruct ((r1 =? 0) && (l1 =? 0)).
      { simpl in H. injection H as <-. repeat split; auto. lra. }
      simpl in H. destruct (BLACK_HOLES && _ && _); discriminate.
  - intros Hflag Hh. unfold check_neighbours. rewrite Hflag.
    destruct (needs_redo (desnumngb_of p) p); [| eauto].
    destruct (bracket_collapsed l r); [eauto |].
    pose proof (update_bracket_set (desnumngb_of p) p l r Hh) as Hset.
    destruct (update_bracket (desnumngb_of p) p l r) as [l1 r1].
    destruct (propose_hsml_ok (desnumngb_of p) p l1 r1 Hset) as [h Hp].
    rewrite Hp. simpl. destruct (BLACK_HOLES && _ && _); eauto.
Qed.

(** X9.  A call of [density_check_neighbours] that returns does one of
    two things to the particle: it sets the flag and leaves everything
    else, the smoothing length and the bracket included, as it is; or
    (from a clear flag only) it assigns the smoothing length and leaves
    everything else, the flag included, as it is. *)
Theorem check_neighbours_effect (p p' : particle_data) (l r l' r' : R) :
  check_neighbours p l r = Ok (p', l', r') ->
  (p' = set_DensityIterationDone true p /\ l' = l /\ r' = r)
  \/ (DensityIterationDone p = false
      /\ exists h, p' = set_Hsml h p).
Proof.
  intros H. destruct (check_neighbours_ok_shape _ _ _ _ _ _ H)
    as [(E & El & Er & _) | (Hflag & _ & _ & h & _ & [[E _] | (_ & _ & E & _)])].
  - left. auto.
  - right. split; [exact Hflag | eauto].
  - right. split; [exact Hflag | eauto].
Qed.

(** X3.  The bracket only tightens.  Unless the black-hole cap applies,
    a call that returns never lowers Left, never raises a Right that was
    set, and every new end of the bracket is the old one or the
    smoothing length the particle came in with. *)
Theorem check_neighbours_bracket_monotone
    (p p' : particle_data) (l r l' r' : R) :
  BLACK_HOLES && (Type_ p =? 5)%Z = false ->
  check_neighbours p l r = Ok (p', l', r') ->
  l <= l'
  /\ (r <> 0 -> r' <= r)
  /\ (l' = l \/ l' = Hsml p)
  /\ (r' = r \/ r' = Hsml p).
Proof.
  intros Hbh H.
  destruct (check_neighbours_ok_shape _ _ _ _ _ _ H)
    as [(_ & -> & -> & _) | (_ & _ & _ & h & _ & [[_ E] | (Eb & _)])].
  - repeat split; auto; lra.
  - destruct (Rlt_dec (NumNgb p)
                (desnumngb_of p - MaxNumNgbDeviation All)) as [Hlow | Hlow].
    + rewrite update_bracket_left in E by exact Hlow.
      injection E as -> ->.
      split; [apply Rmax_l |]. split; [lra |].
      split; [| now left].
      unfold Rmax. destruct (Rle_dec l (Hsml p)); auto.
    + rewrite update_bracket_right in E by exact Hlow.
      injection E as -> ->.
      split; [lra |]. split.
      * intros Hr. apply Reqb_false in Hr. rewrite Hr. apply Rmin_l.
      * split; [now left |].
        destruct (r =? 0); [now right |].
        unfold Rmin. destruct (Rle_dec r (Hsml p)); auto.
  - congruence.
Qed.

Lemma cube_lt_inv (x y : R) : 0 <= x -> 0 <= y -> x ^ 3 < y ^ 3 -> x < y.
Proof.
  intros Hx Hy H. destruct (Rlt_dec x y) as [Hlt | Hge]; [exact Hlt |].
  exfalso. assert (y ^ 3 <= x ^ 3) by (apply pow_incr; lra). lra.
Qed.

(** X4.  With both sides of the bracket set and Left < Right, the
    smoothing length proposed at line 646 lies strictly inside the
    bracket (for [pow] the real power). *)
Theorem propose_hsml_bisects (n : R) (p : particle_data) (l r : R) :
  (forall x y : R, 0 < x -> pow x y = Rpower x y) ->
  0 < l -> l < r ->
  exists h, propose_hsml n p l r = Ok h /\ l < h < r.
Proof.
  intros Hpow Hl Hlr.
  assert (0 < r) as Hr by lra.
  unfold propose_hsml.
  apply Rgtb_true in Hl as El. apply Rgtb_true in Hr as Er.
  rewrite El, Er. simpl.
  eexists. split; [reflexivity |].
  destruct (cube_root_mean l r Hpow Hl Hr) as [Hh Hcube].
  cbv zeta in Hh, Hcube.
  set (h := pow (0.5 * (pow l 3 + pow r 3)) (1.0 / 3)) in *.
  assert (l ^ 3 < r ^ 3).
  { assert (l * l < r * r) by nra. simpl. nra. }
  split; apply cube_lt_inv; lra.
Qed.

(** X5.  "This will stop the search for a new BH smoothing length in the
    next iteration" (line 694).  With the [BLACK_HOLES] blocks compiled
    in and a positive BlackHoleMaxAccretionRadius: when the update of a
    black hole raises Left above that radius, the particle leaves with
    Hsml = Left = Right = BlackHoleMaxAccretionRadius; and whatever any
    unflagged particle's neighbour count is, a call with such a bracket
    marks it DONE without touching its smoothing length. *)
Theorem bh_cap_stops_search (p : particle_data) (l r : R) :
  BLACK_HOLES = true ->
  Type_ p = 5%Z ->
  0 < BlackHoleMaxAccretionRadius All ->
  DensityIterationDone p = false ->
  0 < Hsml p ->
  needs_redo (desnumngb_of p) p = true ->
  bracket_collapsed l r = false ->
  fst (update_bracket (desnumngb_of p) p l r)
  > BlackHoleMaxAccretionRadius All ->
  check_neighbours p l r =
  Ok (set_Hsml (BlackHoleMaxAccretionRadius All) p,
      BlackHoleMaxAccretionRadius All, BlackHoleMaxAccretionRadius All)
  /\ forall q,
       DensityIterationDone q = false ->
       check_neighbours q (BlackHoleMaxAccretionRadius All)
         (BlackHoleMaxAccretionRadius All)
       = Ok (set_DensityIterationDone true q,
             BlackHoleMaxAccretionRadius All,
             BlackHoleMaxAccretionRadius All).
Proof.
  intros Hbh Ht Hpos Hflag Hh Hredo Hcol Hcap. split.
  - unfold check_neighbours. rewrite Hredo, Hflag, Hcol.
    pose proof (update_bracket_set (desnumngb_of p) p l r Hh) as Hset.
    destruct (update_bracket (desnumngb_of p) p l r) as [l1 r1].
    simpl in Hcap.
    destruct (propose_hsml_ok (desnumngb_of p) p l1 r1 Hset) as [h Hp].
    rewrite Hp. simpl. rewrite Hbh, Ht. simpl.
    apply Rgtb_true in Hcap. now rewrite Hcap.
  - intros q Hq. unfold check_neighbours. rewrite Hq.
    assert (bracket_collapsed (BlackHoleMaxAccretionRadius All)
              (BlackHoleMaxAccretionRadius All) = true) as Ec.
    { apply bracket_collapsed_true. repeat split; lra. }
    rewrite Ec. now destruct (needs_redo (desnumngb_of q) q).
Qed.

(** X6.  After the post-processing of a gas particle with positive
    density the DhsmlDensityFactor lies strictly between 0 and 10 (the
    guard at -0.9 keeps 1/(1 + term) below 10), and the curl magnitude
    is not negative. *)
Theorem post_process_factor_bounds (p : particle_data) :
  Type_ p = 0%Z ->
  0 < Density (sph p) ->
  0 < DhsmlDensityFactor (sph (fst (post_process p))) < 10
  /\ 0 <= CurlVel (sph (fst (post_process p))).
Proof.
  intros Hgas Hrho. rewrite (post_process_gas p Hgas).
  pose proof (normalise_by_density_pos (Hsml p) (sph p) Hrho) as E.
  cbv zeta in E. destruct (Rot (sph p)) as [[rot0 rot1] rot2].
  rewrite E. simpl. split.
  - destruct (_ >? -0.9) eqn:Ef; [| lra].
    apply Rgtb_true in Ef. split.
    + apply Rdiv_lt_0_compat; lra.
    + apply Rmult_lt_reg_r with
        (1 + DhsmlDensityFactor (sph p)
             * (Hsml p / (IZR NUMDIMS * Density (sph p)))); [lra |].
      unfold Rdiv. rewrite Rmult_assoc, Rinv_l by lra. lra.
  - apply Rmult_le_pos; [apply sqrt_pos |].
    apply Rlt_le, Rinv_0_lt_compat, Hrho.
Qed.

(** ** Further properties: what a whole run of [density] keeps *)

(** [density_reduce] writes accumulators only. *)
Lemma density_reduce_keeps (place : nat) (remote : TreeWalkResultDensity)
    (mode : TreeWalkReduceMode) (Q : nat -> particle_data) (j : nat) :
  Type_ (density_reduce place remote mode Q j) = Type_ (Q j)
  /\ Hsml (density_reduce place remote mode Q j) = Hsml (Q j)
  /\ DensityIterationDone (density_reduce place remote mode Q j)
     = DensityIterationDone (Q j)
  /\ TimeBin (density_reduce place remote mode Q j) = TimeBin (Q j).
Proof.
  destruct (Nat.eq_dec j place) as [-> | Hj].
  - unfold density_reduce. rewrite upd_same. simpl.
    destruct (Type_ (Q place) =? 0)%Z; simpl;
      destruct (BLACK_HOLES && (Type_ (Q place) =? 5)%Z); simpl; auto.
  - rewrite density_reduce_other by exact Hj. auto.
Qed.

Section Preserved.

(** A property [Inv] of a particle and its bracket that the reduction of
    an unflagged particle and the post-processing followed by the
    controller keep. *)
Variable Inv : particle_data -> R -> R -> Prop.

Hypothesis Inv_reduce :
  forall place remote mode (Q : nat -> particle_data) l r,
    DensityIterationDone (Q place) = false ->
    Inv (Q place) l r -> Inv (density_reduce place remote mode Q place) l r.

Hypothesis Inv_check :
  forall p l r p' l' r',
    check_neighbours (fst (post_process p)) l r = Ok (p', l', r') ->
    Inv p l r -> Inv p' l' r'.

Lemma reduce_target_preserves (src : nat -> particle_data) (place : nat)
    (Q : nat -> particle_data) (l r : R) :
  DensityIterationDone (Q place) = false ->
  Inv (Q place) l r ->
  Inv (reduce_target src place Q place) l r
  /\ DensityIterationDone (reduce_target src place Q place) = false.
Proof using Inv_reduce.
  intros Hflag HI. unfold reduce_target.
  assert (Inv (density_reduce place (ngb_primary src place)
                 TREEWALK_PRIMARY Q place) l r
          /\ DensityIterationDone
               (density_reduce place (ngb_primary src place)
                  TREEWALK_PRIMARY Q place) = false) as H0.
  { split; [now apply Inv_reduce |].
    destruct (density_reduce_keeps place (ngb_primary src place)
                TREEWALK_PRIMARY Q place) as (_ & _ & E & _).
    now rewrite E. }
  revert H0.
  generalize (density_reduce place (ngb_primary src place) TREEWALK_PRIMARY Q).
  induction (ngb_ghosts src place) as [| g gs IH]; intros Q0 [HI0 HF0]; simpl;
    [now split |].
  apply IH. split; [now apply Inv_reduce |].
  destruct (density_reduce_keeps place g TREEWALK_GHOSTS Q0 place)
    as (_ & _ & E & _).
  now rewrite E.
Qed.

Lemma treewalk_run_preserves (Q Q1 : nat -> particle_data) (j : nat)
    (l r : R) :
  treewalk_run Q = Ok Q1 -> Inv (Q j) l r -> Inv (Q1 j) l r.
Proof using Inv_reduce.
  unfold treewalk_run. intros H HI.
  destruct (treewalk_get_queue Q) as [queue |] eqn:Hq; simpl in H;
    [| discriminate].
  injection H as <-.
  assert (forall place, In place queue ->
                        DensityIterationDone (Q place) = false) as Hclear.
  { intros place Hin. destruct (DensityIterationDone (Q place)) eqn:E; auto.
    exfalso. exact (queue_excludes_done Q queue place Hq E Hin). }
  clear Hq.
  assert (forall Q0 : nat -> particle_data,
             Inv (Q0 j) l r ->
             DensityIterationDone (Q0 j) = DensityIterationDone (Q j) ->
             Inv (fold_left (fun P' place => reduce_target Q place P')
                    queue Q0 j) l r) as Hfold.
  { induction queue as [| place rest IH]; intros Q0 HI0 HF0; simpl;
      [exact HI0 |].
    assert (forall k, In k rest -> DensityIterationDone (Q k) = false)
      as Hrest by (intros k Hk; apply Hclear; now right).
    destruct (Nat.eq_dec place j) as [-> | Hne].
    - assert (DensityIterationDone (Q0 j) = false) as HF
        by (rewrite HF0; apply Hclear; now left).
      destruct (reduce_target_preserves Q j Q0 l r HF HI0) as [HI1 HF1].
      apply (IH Hrest); [exact HI1 |].
      rewrite HF1. symmetry. apply Hclear. now left.
    - apply (IH Hrest);
        rewrite reduce_target_other by (intros E; apply Hne; now rewrite E);
        assumption. }
  now apply Hfold.
Qed.

Lemma finish_particle_preserves (s s' : store) (n n' p j : nat) :
  finish_particle (s, n) p = Ok (s', n') ->
  Inv (P s j) (Left s j) (Right s j) ->
  Inv (P s' j) (Left s' j) (Right s' j).
Proof using Inv_check.
  intros H HI. destruct (Nat.eq_dec j p) as [-> | Hj].
  - unfold finish_particle, density_check_neighbours, density_post_process
      in H. simpl in H. rewrite upd_same in H.
    destruct (check_neighbours _ _ _) as [[[p' l'] r'] |] eqn:Hc;
      simpl in H; [| discriminate].
    injection H as <- _. simpl. rewrite !upd_same.
    exact (Inv_check _ _ _ _ _ _ Hc HI).
  - destruct (finish_particle_spec _ _ _ _ _ H) as (F1 & _).
    destruct (F1 j Hj) as (E1 & E2 & E3). now rewrite E1, E2, E3.
Qed.

Lemma finish_queue_preserves (queue : list nat) (s s' : store)
    (n n' j : nat) :
  finish_queue queue (s, n) = Ok (s', n') ->
  Inv (P s j) (Left s j) (Right s j) ->
  Inv (P s' j) (Left s' j) (Right s' j).
Proof using Inv_check.
  revert s n. induction queue as [| p rest IH]; intros s n H HI;
    cbn [finish_queue] in H.
  - now injection H as <- <-.
  - destruct (finish_particle (s, n) p) as [[s1 n1] |] eqn:Hp;
      simpl in H; [| discriminate].
    apply (IH _ _ H). exact (finish_particle_preserves _ _ _ _ _ j Hp HI).
Qed.

Lemma density_pass_preserves (iter : Z) (s s' : store) (ntot j : nat) :
  density_pass iter s = Ok (s', ntot) ->
  Inv (P s j) (Left s j) (Right s j) ->
  Inv (P s' j) (Left s' j) (Right s' j).
Proof using Inv_check Inv_reduce.
  unfold density_pass. intros H HI.
  destruct (treewalk_run (P s)) as [P1 |] eqn:Hrun; simpl in H;
    [| discriminate].
  destruct (treewalk_get_queue P1) as [queue |] eqn:Hq; simpl in H;
    [| discriminate].
  destruct (finish_queue queue _) as [[s2 npleft] |] eqn:Hf; simpl in H;
    [| discriminate].
  injection H as <- _.
  apply (finish_queue_preserves _ _ _ _ _ j Hf). simpl.
  exact (treewalk_run_preserves _ _ j _ _ Hrun HI).
Qed.

Lemma density_loop_preserves (fuel : nat) (iter : Z) (s s' : store)
    (j : nat) :
  density_loop fuel iter s = Some (Ok s') ->
  Inv (P s j) (Left s j) (Right s j) ->
  Inv (P s' j) (Left s' j) (Right s' j).
Proof using Inv_check Inv_reduce.
  revert iter s. induction fuel as [| fuel IH]; intros iter s H HI;
    simpl in H; [discriminate |].
  destruct (density_pass iter s) as [[s1 ntot] |] eqn:Hp; [| discriminate].
  pose proof (density_pass_preserves _ _ _ _ j Hp HI) as HI1.
  destruct (0 <? ntot)%nat.
  - destruct (iter + 1 >? MAXITER)%Z; [discriminate |].
    exact (IH _ _ H HI1).
  - now injection H as <-.
Qed.

End Preserved.

Lemma clear_flags_spec (active : list nat) (Q : nat -> particle_data)
    (j : nat) :
  let Q0 :=
    fold_left (fun P i => upd P i (set_DensityIterationDone false (P i)))
      active Q in
  (In j active -> Q0 j = set_DensityIterationDone false (Q j))
  /\ (~ In j active -> Q0 j = Q j).
Proof.
  cbv zeta. revert Q. induction active as [| i rest IH]; intros Q; simpl.
  - split; [contradiction | reflexivity].
  - destruct (IH (upd Q i (set_DensityIterationDone false (Q i))))
      as [IH1 IH2].
    destruct (in_dec Nat.eq_dec j rest) as [Hr | Hr].
    + split; [| intros Hn; exfalso; apply Hn; now right].
      intros _. rewrite (IH1 Hr).
      destruct (Nat.eq_dec j i) as [-> | Hj].
      * now rewrite upd_same.
      * now rewrite upd_other.
    + rewrite (IH2 Hr). split.
      * intros [-> | Hin]; [now rewrite upd_same | contradiction].
      * intros Hn. apply upd_other. intros ->. apply Hn. now left.
Qed.

Lemma empty_brackets_spec (queue : list nat) (s0 : store) (j : nat) :
  let s1 :=
    fold_left
      (fun s p =>
         {| P := if BLACK_HOLES
                 then upd (P s) p (set_SwallowID 0 (P s p)) else P s;
            Left := upd (Left s) p 0;
            Right := upd (Right s) p 0 |})
      queue s0 in
  (In j queue -> Left s1 j = 0 /\ Right s1 j = 0)
  /\ (~ In j queue -> same_cell s0 s1 j)
  /\ (P s1 j = P s0 j \/ P s1 j = set_SwallowID 0 (P s0 j)).
Proof.
  cbv zeta. revert s0. induction queue as [| p rest IH]; intros s0; simpl.
  - split; [contradiction |]. split; [intros _; apply same_cell_refl | now left].
  - match goal with |- context [fold_left _ rest ?s] => set (s1 := s) end.
    destruct (IH s1) as (I1 & I2 & I3).
    assert (P s1 j = P s0 j \/ P s1 j = set_SwallowID 0 (P s0 j)) as HP.
    { subst s1. simpl. destruct BLACK_HOLES; [| now left].
      destruct (Nat.eq_dec j p) as [-> | Hj].
      - right. now rewrite upd_same.
      - left. now rewrite upd_other. }
    split; [| split].
    + intros Hin. destruct (in_dec Nat.eq_dec j rest) as [Hr | Hr];
        [now apply I1 |].
      destruct Hin as [-> | Hin]; [| contradiction].
      destruct (I2 Hr) as (_ & E2 & E3). rewrite E2, E3.
      subst s1. simpl. now rewrite !upd_same.
    + intros Hn.
      assert (j <> p) as Hj by (intros ->; apply Hn; now left).
      apply (same_cell_trans s0 s1).
      * subst s1. unfold same_cell. simpl.
        rewrite !upd_other by exact Hj.
        destruct BLACK_HOLES; [rewrite upd_other by exact Hj |]; auto.
      * apply I2. intros Hr. apply Hn. now right.
    + destruct I3 as [E | E]; rewrite E; destruct HP as [E' | E'];
        rewrite E'; auto.
Qed.

(** What the set-up of [density] (lines 145-165) leaves behind. *)
Lemma density_init_spec (s s' : store) :
  density_init s = Ok s' ->
  (forall j, In j ActiveParticles -> DensityIterationDone (P s' j) = false)
  /\ (forall j, In j ActiveParticles ->
                Type_ (P s j) = 0%Z
                \/ (BLACK_HOLES = true /\ Type_ (P s j) = 5%Z) ->
                Left s' j = 0 /\ Right s' j = 0)
  /\ (forall j, ~ In j ActiveParticles -> same_cell s s' j)
  /\ (forall j, Hsml (P s' j) = Hsml (P s j)
                /\ Type_ (P s' j) = Type_ (P s j)
                /\ NumNgb (P s' j) = NumNgb (P s j)
                /\ TimeBin (P s' j) = TimeBin (P s j)
                /\ sph (P s' j) = sph (P s j)
                /\ bh (P s' j) = bh (P s j)).
Proof.
  unfold density_init. intros H.
  set (P0 := fold_left
               (fun P i => upd P i (set_DensityIterationDone false (P i)))
               ActiveParticles (P s)) in *.
  destruct (treewalk_get_queue P0) as [queue |] eqn:Hq; simpl in H;
    [| discriminate].
  injection H as <-.
  set (s0 := {| P := P0; Left := Left s; Right := Right s |}).
  assert (forall j, In j queue -> In j ActiveParticles) as Hsub.
  { intros j Hj. destruct (get_queue_spec _ _ _ Hq) as [G1 _].
    now destruct (G1 j Hj). }
  split; [| split; [| split]].
  - intros j Hin.
    destruct (clear_flags_spec ActiveParticles (P s) j) as [C1 _].
    specialize (C1 Hin). fold P0 in C1.
    destruct (empty_brackets_spec queue s0 j) as (_ & _ & [E | E]);
      rewrite E; simpl; now rewrite C1.
  - intros j Hin Htype.
    destruct (empty_brackets_spec queue s0 j) as (E1 & _).
    apply E1.
    destruct (in_dec Nat.eq_dec j queue) as [Hjq | Hjq]; [exact Hjq |].
    exfalso.
    destruct (get_queue_spec _ _ _ Hq) as [_ G2].
    specialize (G2 j Hin Hjq).
    destruct (clear_flags_spec ActiveParticles (P s) j) as [C1 _].
    specialize (C1 Hin). fold P0 in C1.
    unfold density_isactive in G2. rewrite C1 in G2. simpl in G2.
    destruct (TimeBin (P s j) <? 0)%Z; [discriminate |].
    destruct Htype as [Ht | [Hb Ht]]; rewrite Ht in G2.
    + simpl in G2. rewrite andb_false_r in G2. discriminate.
    + rewrite Hb in G2. discriminate.
  - intros j Hn.
    destruct (empty_brackets_spec queue s0 j) as (_ & E2 & _).
    assert (~ In j queue) as Hnq by (intros Hjq; apply Hn; now apply Hsub).
    specialize (E2 Hnq).
    destruct (clear_flags_spec ActiveParticles (P s) j) as [_ C2].
    specialize (C2 Hn). fold P0 in C2.
    destruct E2 as (A1 & A2 & A3). subst s0. simpl in *.
    unfold same_cell. rewrite A1, A2, A3, C2. auto.
  - intros j.
    assert (P0 j = P s j \/ P0 j = set_DensityIterationDone false (P s j))
      as HP0.
    { destruct (clear_flags_spec ActiveParticles (P s) j) as [C1 C2].
      fold P0 in C1, C2.
      destruct (in_dec Nat.eq_dec j ActiveParticles); auto. }
    destruct (empty_brackets_spec queue s0 j) as (_ & _ & [E | E]);
      rewrite E; subst s0; simpl; destruct HP0 as [E' | E']; rewrite E';
      simpl; auto 10.
Qed.

(** X8.  "This has to be done before get_queue so that all particles are
    returned for the first loop" (lines 145-147).  When the set-up of
    [density] returns, every listed particle has a clear flag, whatever
    the flag was before; every listed gas particle (and black hole, when
    compiled in) has an empty bracket Left = Right = 0; a particle that
    is not listed is untouched, bracket included; and no smoothing
    length, type, neighbour count or gas state has changed. *)
Theorem density_init_post (s s' : store) :
  density_init s = Ok s' ->
  (forall j, In j ActiveParticles -> DensityIterationDone (P s' j) = false)
  /\ (forall j, In j ActiveParticles ->
                Type_ (P s j) = 0%Z
                \/ (BLACK_HOLES = true /\ Type_ (P s j) = 5%Z) ->
                Left s' j = 0 /\ Right s' j = 0)
  /\ (forall j, ~ In j ActiveParticles -> same_cell s s' j)
  /\ (forall j, Hsml (P s' j) = Hsml (P s j)
                /\ Type_ (P s' j) = Type_ (P s j)
                /\ NumNgb (P s' j) = NumNgb (P s j)
                /\ TimeBin (P s' j) = TimeBin (P s j)
                /\ sph (P s' j) = sph (P s j)
                /\ bh (P s' j) = bh (P s j)).
Proof.
  exact (density_init_spec s s').
Qed.

Lemma density_loop_last (fuel : nat) (iter : Z) (s s' : store) :
  density_loop fuel iter s = Some (Ok s') ->
  exists k sk, density_pass k sk = Ok (s', O).
Proof.
  revert iter s. induction fuel as [| fuel IH]; intros iter s H;
    simpl in H; [discriminate |].
  destruct (density_pass iter s) as [[s1 ntot] |] eqn:Hp; [| discriminate].
  destruct (0 <? ntot)%nat eqn:Hn.
  - destruct (iter + 1 >? MAXITER)%Z; [discriminate |]. exact (IH _ _ H).
  - injection H as <-. apply Nat.ltb_ge in Hn.
    assert (ntot = O) as -> by lia. eauto.
Qed.

Lemma settled_flagged (p p' : particle_data) (l r l' r' : R) :
  check_neighbours (fst (post_process p)) l r = Ok (p', l', r') ->
  (DensityIterationDone p = true -> settled p l r) ->
  DensityIterationDone p' = true -> settled p' l' r'.
Proof.
  intros H _ Hdone.
  destruct (check_neighbours_ok_shape _ _ _ _ _ _ H)
    as [(-> & -> & -> & Hs & _) | (Hflag & _ & _ & h & _ & Hcase)].
  - exact Hs.
  - exfalso.
    destruct Hcase as [[E _] | (_ & _ & E & _)]; rewrite E in Hdone;
      simpl in Hdone; congruence.
Qed.

Lemma settled_converged (p : particle_data) (l r : R) :
  Type_ p = 0%Z -> 0 <= MaxNumNgbDeviation All ->
  settled p l r -> converged p l r.
Proof.
  unclutter.
  intros Hgas Hdev [H | H]; unfold converged.
  - rewrite (desnumngb_gas p Hgas) in H.
    apply needs_redo_false in H; [tauto | exact Hdev].
  - apply bracket_collapsed_true in H. tauto.
Qed.

(** X1.  The postcondition of [density].  When a run returns, every
    listed gas particle is marked DONE and is converged as it stands in
    the final store: its neighbour count is within MaxNumNgbDeviation of
    DesNumNgb, or it is above that window with a smoothing length no
    larger than 1.01 MinGasHsml, or its bracket has both ends positive
    and narrower than a thousandth of Left. *)
Theorem density_postcondition (fuel : nat) (s s' : store) :
  0 <= MaxNumNgbDeviation All ->
  density fuel s = Some (Ok s') ->
  forall j, In j ActiveParticles -> Type_ (P s' j) = 0%Z ->
    DensityIterationDone (P s' j) = true
    /\ converged (P s' j) (Left s' j) (Right s' j).
Proof.
  intros Hdev H j Hin Hgas. unfold density in H.
  destruct (density_init s) as [s0 |] eqn:Hinit; [| discriminate].
  destruct (density_init_spec _ _ Hinit) as (I1 & _).
  destruct (density_loop_last _ _ _ _ H) as (k & sk & Hlast).
  pose proof (density_pass_zero k sk s' j Hlast Hin) as Hact.
  assert (DensityIterationDone (P s' j) = true) as Hdone.
  { unfold density_isactive in Hact.
    destruct (DensityIterationDone (P s' j)); [reflexivity |].
    destruct (TimeBin (P s' j) <? 0)%Z; [discriminate |].
    rewrite Hgas in Hact. simpl in Hact.
    rewrite andb_false_r in Hact. discriminate. }
  split; [exact Hdone |].
  apply settled_converged; [exact Hgas | exact Hdev |].
  refine (density_loop_preserves
            (fun p l r => DensityIterationDone p = true -> settled p l r)
            _ _ fuel 0%Z s0 s' j H _ Hdone).
  - intros place remote mode Q l r Hflag _ Hdone'.
    destruct (density_reduce_keeps place remote mode Q place)
      as (_ & _ & E & _).
    congruence.
  - intros p l r p' l' r' Hc HI. exact (settled_flagged _ _ _ _ _ _ Hc HI).
  - intros Hd. rewrite (I1 j Hin) in Hd. discriminate.
Qed.

(** X10.  "The smoothing length is not allowed to fall below the lower
    bound set by MinGasHsml" (header of [density]).  When a run returns,
    every particle has the smoothing length it came in with, or one that
    is at least MinGasHsml; this needs the black-hole blocks to be
    compiled out or BlackHoleMaxAccretionRadius to be at least
    MinGasHsml. *)
Theorem density_hsml_floor (fuel : nat) (s s' : store) :
  BLACK_HOLES = false
  \/ MinGasHsml All <= BlackHoleMaxAccretionRadius All ->
  density fuel s = Some (Ok s') ->
  forall j, Hsml (P s' j) = Hsml (P s j)
            \/ MinGasHsml All <= Hsml (P s' j).
Proof.
  intros Hbh H j. unfold density in H.
  destruct (density_init s) as [s0 |] eqn:Hinit; [| discriminate].
  destruct (density_init_spec _ _ Hinit) as (_ & _ & _ & I4).
  destruct (I4 j) as (Eh & _).
  refine (density_loop_preserves
            (fun p _ _ => Hsml p = Hsml (P s j) \/ MinGasHsml All <= Hsml p)
            _ _ fuel 0%Z s0 s' j H _).
  - intros place remote mode Q l r _ HI.
    destruct (density_reduce_keeps place remote mode Q place)
      as (_ & E & _).
    now rewrite E.
  - intros p l r p' l' r' Hc HI.
    destruct (post_process_core p) as (_ & Ep & _).
    destruct (check_neighbours_ok_shape _ _ _ _ _ _ Hc)
      as [(-> & _) | (_ & _ & _ & h & _ & [[-> _] | (Eb & _ & -> & _)])].
    + simpl. now rewrite Ep.
    + right. simpl. rewrite clamp_hsml_Rmax. apply Rmax_l.
    + right. simpl. destruct Hbh as [Hb | Hb]; [| exact Hb].
      rewrite Hb in Eb. discriminate.
  - left. exact Eh.
Qed.

End Density.

(** ** gradients.c: the slope limiter and the gradient finalisation *)

(** What [local_slopelimiter] computes, with the temporaries of the code
    named: [d] is [d_abs], [X] the bound multiplied into [cfac], and [c]
    the final [cfac]. *)
Lemma local_slopelimiter_unfold (g : vec3) (valmax valmin alim h tol : R) :
  let '(g0, g1, g2) := g in
  let d := g0 * g0 + g1 * g1 + g2 * g2 in
  let M := Rmin (Rabs valmax) (Rabs valmin) in
  let A := Rmax (Rabs valmax) (Rabs valmin) in
  let X := if tol >? 0 then Rmin (M + tol * A) A else M in
  let c := 1 / (alim * h * sqrt d) * X in
  0 <= X
  /\ Gradients.local_slopelimiter g valmax valmin alim h tol =
     if d >? 0 then (if c <? 1 then vscale c g else g) else g.
Proof.
  destruct g as [[g0 g1] g2]. intros d M A X c.
  assert (0 <= M) as HM
    by (apply Rmin_glb; apply Rabs_pos).
  assert (0 <= A) as HA
    by (eapply Rle_trans; [apply (Rabs_pos valmax) | apply Rmax_l]).
  split.
  - subst X. destruct (tol >? 0) eqn:E; [| exact HM].
    apply Rgtb_true in E. apply Rmin_glb; [| exact HA].
    assert (0 <= tol * A) by (apply Rmult_le_pos; lra). lra.
  - unfold Gradients.local_slopelimiter, fabs.
    replace (0.0 + g0 * g0 + g1 * g1 + g2 * g2) with d by (subst d; lra).
    rewrite !DMIN_Rmin, !DMAX_Rmax. fold M A.
    destruct (d >? 0); [| reflexivity].
    subst c X. destruct (tol >? 0); reflexivity.
Qed.

Lemma sum_squares_zero (g0 g1 g2 : R) :
  g0 * g0 + g1 * g1 + g2 * g2 <= 0 -> g0 = 0 /\ g1 = 0 /\ g2 = 0.
Proof.
  intros H.
  pose proof (Rle_0_sqr g0) as H0. pose proof (Rle_0_sqr g1) as H1.
  pose proof (Rle_0_sqr g2) as H2. unfold Rsqr in *.
  repeat split; apply Rsqr_0_uniq; unfold Rsqr; lra.
Qed.

(** C4, as the code has it.  [local_slopelimiter] leaves a zero
    gradient unchanged; otherwise, with M the smaller and A the larger
    of |valmax| and |valmin|, it computes
    c = (1/(alim h |g|)) (min(M + tol A, A) if tol > 0 else M),
    multiplies every component of g by c when c < 1 and leaves g
    unchanged when c >= 1.  (The bound with overshoot tolerance is
    capped by A: it is min(M + tol A, A), not M + tol A.) *)
Theorem local_slopelimiter_amended (g : vec3) (valmax valmin alim h tol : R) :
  let M := Rmin (Rabs valmax) (Rabs valmin) in
  let A := Rmax (Rabs valmax) (Rabs valmin) in
  let c := 1 / (alim * h * Gradients.norm3 g)
           * (if tol >? 0 then Rmin (M + tol * A) A else M) in
  let out := Gradients.local_slopelimiter g valmax valmin alim h tol in
  (g = (0, 0, 0) -> out = g)
  /\ (g <> (0, 0, 0) -> c < 1 -> out = vscale c g)
  /\ (g <> (0, 0, 0) -> 1 <= c -> out = g).
Proof.
  intros M A c out. subst out.
  pose proof (local_slopelimiter_unfold g valmax valmin alim h tol) as U.
  destruct g as [[g0 g1] g2]. cbv zeta in U. destruct U as [_ U].
  unfold Gradients.norm3 in c. fold M A c in U. rewrite U. clear U.
  split; [| split].
  - intros E. injection E as -> -> ->.
    assert ((0 * 0 + 0 * 0 + 0 * 0 >? 0) = false) as E
      by (apply Rgtb_false; lra).
    now rewrite E.
  - intros Hg Hc.
    destruct (g0 * g0 + g1 * g1 + g2 * g2 >? 0) eqn:E.
    + apply Rltb_true in Hc. now rewrite Hc.
    + apply Rgtb_false, sum_squares_zero in E.
      destruct E as (-> & -> & ->). now contradiction Hg.
  - intros Hg Hc.
    destruct (g0 * g0 + g1 * g1 + g2 * g2 >? 0); [| reflexivity].
    apply Rltb_false in Hc. now rewrite Hc.
Qed.

(** C4, as the claim words it, fails: for g = (1, 0, 0), both envelopes
    1, alim = 0.5, h = 4 and tol = 1 the code scales g by 0.5 (the
    bound is min(1 + 1, 1) = 1), while the claimed factor
    c = (1/2) (1 + 1) = 1 would leave g unchanged. *)
Lemma local_slopelimiter_not_spec :
  Gradients.local_slopelimiter (1, 0, 0) 1 1 0.5 4 1 = (1 * 0.5, 0 * 0.5, 0 * 0.5)
  /\ Gradients.spec_slopelimiter (1, 0, 0) 1 1 0.5 4 1 = (1, 0, 0)
  /\ Gradients.local_slopelimiter (1, 0, 0) 1 1 0.5 4 1
     <> Gradients.spec_slopelimiter (1, 0, 0) 1 1 0.5 4 1.
Proof.
  assert (Gradients.local_slopelimiter (1, 0, 0) 1 1 0.5 4 1
          = (1 * 0.5, 0 * 0.5, 0 * 0.5)) as Hcode.
  { unfold Gradients.local_slopelimiter, fabs, DMIN, DMAX.
    replace (0.0 + 1 * 1 + 0 * 0 + 0 * 0) with 1 by lra.
    rewrite sqrt_1, Rabs_R1.
    rdec; try (exfalso; lra). unfold vscale. repeat f_equal; lra. }
  assert (Gradients.spec_slopelimiter (1, 0, 0) 1 1 0.5 4 1 = (1, 0, 0))
    as Hspec.
  { unfold Gradients.spec_slopelimiter, Gradients.norm3.
    replace (1 * 1 + 0 * 0 + 0 * 0) with 1 by lra.
    rewrite sqrt_1, Rabs_R1.
    unfold Rmin, Rmax. destruct (Rle_dec 1 1); [| lra].
    rdec; try (exfalso; lra); reflexivity. }
  split; [exact Hcode |]. split; [exact Hspec |].
  rewrite Hcode, Hspec. intros E. injection E as E. lra.
Qed.

(** C5.  [construct_gradient] finalises the accumulated 3-vector: when
    the condition number is at or below CONDITION_NUMBER_DANGER the
    result is the matrix NV_T applied to the vector; when it exceeds
    the threshold every component is scaled by DhsmlNgbFactor / Density
    (the SPH fallback). *)
Theorem construct_gradient_cases (CONDITION_NUMBER_DANGER : R)
    (SphP : nat -> Gradients.sph_particle_data)
    (PPP : nat -> Gradients.particle_data) (grad : vec3) (i : nat) :
  let '(v0, v1, v2) := grad in
  let '((a00, a01, a02), (a10, a11, a12), (a20, a21, a22)) :=
    Gradients.NV_T (SphP i) in
  let out :=
    Gradients.construct_gradient CONDITION_NUMBER_DANGER SphP PPP grad i in
  let sph_fac :=
    Gradients.DhsmlNgbFactor (PPP i) / Gradients.Density (SphP i) in
  (Gradients.ConditionNumber (SphP i) <= CONDITION_NUMBER_DANGER ->
   out = (a00 * v0 + a01 * v1 + a02 * v2,
          a10 * v0 + a11 * v1 + a12 * v2,
          a20 * v0 + a21 * v1 + a22 * v2))
  /\ (Gradients.ConditionNumber (SphP i) > CONDITION_NUMBER_DANGER ->
      out = (v0 * sph_fac, v1 * sph_fac, v2 * sph_fac)).
Proof.
  destruct grad as [[v0 v1] v2].
  destruct (Gradients.NV_T (SphP i))
    as [[[[a00 a01] a02] [[a10 a11] a12]] [[a20 a21] a22]] eqn:ENV.
  intros out sph_fac. subst out.
  unfold Gradients.construct_gradient, Gradients.SHOULD_I_USE_SPH_GRADIENTS.
  rewrite ENV. split; intros H.
  - apply Rgtb_false in H. now rewrite H.
  - apply Rgtb_true in H. now rewrite H.
Qed.


(** ** Further properties: what the limiter guarantees *)

Lemma norm3_vscale (c : R) (g : vec3) :
  0 <= c -> Gradients.norm3 (vscale c g) = c * Gradients.norm3 g.
Proof.
  intros Hc. destruct g as [[g0 g1] g2]. unfold vscale, Gradients.norm3.
  replace (g0 * c * (g0 * c) + g1 * c * (g1 * c) + g2 * c * (g2 * c))
    with (c * c * (g0 * g0 + g1 * g1 + g2 * g2)) by ring.
  rewrite sqrt_mult_alt by nra.
  replace (c * c) with (Rsqr c) by reflexivity.
  now rewrite sqrt_Rsqr.
Qed.

Lemma vscale_one (g : vec3) : vscale 1 g = g.
Proof.
  destruct g as [[g0 g1] g2]. unfold vscale. now rewrite !Rmult_1_r.
Qed.

Lemma vscale_zero (g : vec3) : vscale 0 g = (0, 0, 0).
Proof.
  destruct g as [[g0 g1] g2]. unfold vscale. now rewrite !Rmult_0_r.
Qed.

Lemma norm3_zero : Gradients.norm3 (0, 0, 0) = 0.
Proof.
  unfold Gradients.norm3.
  replace (0 * 0 + 0 * 0 + 0 * 0) with 0 by ring. apply sqrt_0.
Qed.

(** The bound multiplied into [cfac], and what the limiter returns in
    terms of it: a multiple [k] of the input with [0 <= k <= 1] whose
    norm times [alim * h] is at most the bound. *)
Lemma local_slopelimiter_limits (g : vec3) (valmax valmin alim h tol : R) :
  0 < alim -> 0 < h ->
  let M := Rmin (Rabs valmax) (Rabs valmin) in
  let A := Rmax (Rabs valmax) (Rabs valmin) in
  let X := if tol >? 0 then Rmin (M + tol * A) A else M in
  let out := Gradients.local_slopelimiter g valmax valmin alim h tol in
  (exists k, 0 <= k <= 1 /\ out = vscale k g)
  /\ alim * h * Gradients.norm3 out <= X.
Proof.
  intros Ha Hh M A X out. subst out.
  pose proof (local_slopelimiter_unfold g valmax valmin alim h tol) as U.
  destruct g as [[g0 g1] g2]. cbv zeta in U. fold M A in U. fold X in U.
  set (d := g0 * g0 + g1 * g1 + g2 * g2) in *.
  destruct U as [HX U]. rewrite U. clear U.
  destruct (d >? 0) eqn:Ed.
  2:{ apply Rgtb_false, sum_squares_zero in Ed.
      destruct Ed as (-> & -> & ->). split.
      - exists 1. split; [lra | now rewrite vscale_one].
      - rewrite norm3_zero. lra. }
  apply Rgtb_true in Ed.
  assert (0 < sqrt d) as Hsd by (now apply sqrt_lt_R0).
  assert (0 < alim * h * sqrt d) as Hden
    by (repeat apply Rmult_lt_0_compat; assumption).
  set (c := 1 / (alim * h * sqrt d) * X).
  assert (c * (alim * h * sqrt d) = X) as Hc
    by (subst c; field; lra).
  assert (0 <= c) as Hc0.
  { subst c. apply Rmult_le_pos; [| exact HX].
    apply Rlt_le, Rdiv_lt_0_compat; lra. }
  destruct (c <? 1) eqn:Ec.
  - apply Rltb_true in Ec. split.
    + exists c. split; [lra | reflexivity].
    + rewrite norm3_vscale by exact Hc0. unfold Gradients.norm3. fold d.
      lra.
  - apply Rltb_false in Ec. split.
    + exists 1. split; [lra | now rewrite vscale_one].
    + unfold Gradients.norm3. fold d. nra.
Qed.

(** X11.  In exact arithmetic, for a positive aggressiveness and a
    positive length, the limiter never lengthens or turns a gradient,
    and the change it allows over the distance alim h is bounded by the
    envelope: the result is k g with 0 <= k <= 1, and alim h |result|
    is at most the smaller absolute envelope when the tolerance is not
    positive, and at most the larger absolute envelope in every case.
    (The rounding of binary64 is not part of this statement: there the
    components are rounded products, and the bound can be exceeded by a
    rounding error, as at g = (0, 0, 20) with envelopes 3 and -3,
    alim = 0.25 and h = 1, where alim h |result| is
    3.0000000000000004.) *)
Theorem local_slopelimiter_bound (g : vec3) (valmax valmin alim h tol : R) :
  0 < alim -> 0 < h ->
  let out := Gradients.local_slopelimiter g valmax valmin alim h tol in
  (exists k, 0 <= k <= 1 /\ out = vscale k g)
  /\ alim * h * Gradients.norm3 out <= Rmax (Rabs valmax) (Rabs valmin)
  /\ (tol <= 0 ->
      alim * h * Gradients.norm3 out <= Rmin (Rabs valmax) (Rabs valmin)).
Proof.
  intros Ha Hh out.
  destruct (local_slopelimiter_limits g valmax valmin alim h tol Ha Hh)
    as [Hk Hb].
  fold out in Hk, Hb. split; [exact Hk |]. split.
  - eapply Rle_trans; [exact Hb |].
    destruct (tol >? 0); [apply Rmin_r |].
    apply Rle_trans with (Rabs valmax); [apply Rmin_l | apply Rmax_l].
  - intros Ht. apply Rgtb_false in Ht. now rewrite Ht in Hb.
Qed.

(** X12.  At a local extremum the limiter without overshoot tolerance
    removes the gradient: when one of the two envelopes is zero and the
    tolerance is not positive, the result is the zero vector. *)
Theorem local_slopelimiter_extremum
    (g : vec3) (valmax valmin alim h tol : R) :
  0 < alim -> 0 < h -> tol <= 0 -> valmax = 0 \/ valmin = 0 ->
  Gradients.local_slopelimiter g valmax valmin alim h tol = (0, 0, 0).
Proof.
  intros Ha Hh Ht H0.
  pose proof (local_slopelimiter_unfold g valmax valmin alim h tol) as U.
  destruct g as [[g0 g1] g2]. cbv zeta in U. destruct U as [_ U].
  rewrite U. clear U.
  apply Rgtb_false in Ht. rewrite Ht.
  assert (Rmin (Rabs valmax) (Rabs valmin) = 0) as HM.
  { pose proof (Rabs_pos valmax). pose proof (Rabs_pos valmin).
    destruct H0 as [-> | ->]; rewrite Rabs_R0.
    - now apply Rmin_left.
    - now apply Rmin_right. }
  rewrite HM, Rmult_0_r.
  destruct (g0 * g0 + g1 * g1 + g2 * g2 >? 0) eqn:Ed.
  - assert ((0 <? 1) = true) as E by (apply Rltb_true; lra).
    rewrite E. apply vscale_zero.
  - apply Rgtb_false, sum_squares_zero in Ed.
    now destruct Ed as (-> & -> & ->).
Qed.

(** ** Further properties: the gradient loop *)

Lemma MAX_ADD_Rmax (x y : R) : GasGrad.MAX_ADD x y = Rmax x y.
Proof.
  unfold GasGrad.MAX_ADD, Rmax. rdec; destruct (Rle_dec x y); lra.
Qed.

Lemma MIN_ADD_Rmin (x y : R) : GasGrad.MIN_ADD x y = Rmin x y.
Proof.
  unfold GasGrad.MIN_ADD, Rmin. rdec; destruct (Rle_dec x y); lra.
Qed.

Lemma MINMAX_CHECK_ordered (d lo hi : R) :
  lo <= hi -> GasGrad.MINMAX_CHECK d lo hi = (Rmin lo d, Rmax hi d).
Proof.
  intros H. unfold GasGrad.MINMAX_CHECK, Rmin, Rmax.
  rdec; destruct (Rle_dec lo d); destruct (Rle_dec hi d);
    try (exfalso; lra); f_equal; lra.
Qed.

Lemma envelope_ordered (ds : list R) (lo hi : R) :
  lo <= hi ->
  GasGrad.envelope ds (lo, hi) = (fold_left Rmin ds lo, fold_left Rmax ds hi).
Proof.
  revert lo hi. induction ds as [| d ds IH]; intros lo hi H.
  - reflexivity.
  - unfold GasGrad.envelope in *. cbn [fold_left fst snd].
    rewrite MINMAX_CHECK_ordered by exact H. apply IH.
    apply Rle_trans with lo; [apply Rmin_l |].
    apply Rle_trans with hi; [exact H | apply Rmax_l].
Qed.

Lemma fold_Rmin_start (ds : list R) (a b : R) :
  fold_left Rmin ds (Rmin a b) = Rmin a (fold_left Rmin ds b).
Proof.
  revert a b. induction ds as [| d ds IH]; intros a b; cbn [fold_left].
  - reflexivity.
  - rewrite <- IH. f_equal. symmetry. apply Rmin_assoc.
Qed.

Lemma fold_Rmax_start (ds : list R) (a b : R) :
  fold_left Rmax ds (Rmax a b) = Rmax a (fold_left Rmax ds b).
Proof.
  revert a b. induction ds as [| d ds IH]; intros a b; cbn [fold_left].
  - reflexivity.
  - rewrite <- IH. f_equal. symmetry. apply Rmax_assoc.
Qed.

Lemma fold_Rmin_le (ds : list R) (a : R) :
  fold_left Rmin ds a <= a /\ forall d, In d ds -> fold_left Rmin ds a <= d.
Proof.
  revert a. induction ds as [| d ds IH]; intros a; cbn [fold_left].
  - split; [lra | intros d []].
  - destruct (IH (Rmin a d)) as [H1 H2]. split.
    + eapply Rle_trans; [exact H1 | apply Rmin_l].
    + intros x [<- | Hx]; [| now apply H2].
      eapply Rle_trans; [exact H1 | apply Rmin_r].
Qed.

Lemma fold_Rmax_ge (ds : list R) (a : R) :
  a <= fold_left Rmax ds a /\ forall d, In d ds -> d <= fold_left Rmax ds a.
Proof.
  revert a. induction ds as [| d ds IH]; intros a; cbn [fold_left].
  - split; [lra | intros d []].
  - destruct (IH (Rmax a d)) as [H1 H2]. split.
    + eapply Rle_trans; [apply Rmax_l | exact H1].
    + intros x [<- | Hx]; [| now apply H2].
      eapply Rle_trans; [apply Rmax_r | exact H1].
Qed.

(** X13.  The envelope that [MINMAX_CHECK] builds for a target from the
    zeroed record brackets zero and every difference it was shown:
    minimum <= 0 <= maximum, and minimum <= d <= maximum for each
    difference d. *)
Theorem envelope_brackets (ds : list R) :
  let '(lo, hi) := GasGrad.envelope ds (0, 0) in
  lo <= 0 <= hi /\ forall d, In d ds -> lo <= d <= hi.
Proof.
  rewrite envelope_ordered by lra.
  destruct (fold_Rmin_le ds 0) as [H1 H2].
  destruct (fold_Rmax_ge ds 0) as [H3 H4].
  split; [lra |]. intros d Hd. split; [now apply H2 | now apply H4].
Qed.

(** X14.  A target's envelope does not depend on which side evaluated
    its pairs.  Starting from an envelope that brackets zero, checking
    the differences one by one against it with [MINMAX_CHECK] (as is
    done for the partner j of a pair) gives the same envelope as
    collecting them in a zeroed result record and merging that with
    [MIN_ADD] and [MAX_ADD] (as is done for the target itself). *)
Theorem envelope_direct_or_merged (ds : list R) (lo hi : R) :
  lo <= 0 <= hi ->
  GasGrad.envelope ds (lo, hi) =
  (GasGrad.MIN_ADD lo (fst (GasGrad.envelope ds (0, 0))),
   GasGrad.MAX_ADD hi (snd (GasGrad.envelope ds (0, 0)))).
Proof.
  intros H. rewrite !envelope_ordered by lra. cbn [fst snd].
  rewrite MIN_ADD_Rmin, MAX_ADD_Rmax.
  rewrite <- fold_Rmin_start, <- fold_Rmax_start.
  rewrite (Rmin_left lo 0), (Rmax_left hi 0) by lra. reflexivity.
Qed.

Lemma Rmax_swap (x a b : R) : Rmax (Rmax x a) b = Rmax (Rmax x b) a.
Proof.
  rewrite <- !Rmax_assoc. f_equal. apply Rmax_comm.
Qed.

Lemma Rmin_swap (x a b : R) : Rmin (Rmin x a) b = Rmin (Rmin x b) a.
Proof.
  rewrite <- !Rmin_assoc. f_equal. apply Rmin_comm.
Qed.

(** X15.  The order in which results reach a particle does not matter:
    reducing the result records a and b into a particle with
    [out2particle_GasGrad] gives the same envelopes, the same largest
    distance and (the sums being exact) the same accumulated gradients
    as reducing b and then a, whatever the mode of each call. *)
Theorem out2particle_GasGrad_commutes
    (a b : GasGrad.Out.GasGraddata_out)
    (st : GasGrad.Passer.temporary_data_topass * GasGrad.Grads.Gradients)
    (mode_a mode_b mode_a' mode_b' gradient_iteration : Z) :
  GasGrad.out2particle_GasGrad a
    (GasGrad.out2particle_GasGrad b st mode_b gradient_iteration)
    mode_a gradient_iteration =
  GasGrad.out2particle_GasGrad b
    (GasGrad.out2particle_GasGrad a st mode_a' gradient_iteration)
    mode_b' gradient_iteration.
Proof.
  unfold GasGrad.out2particle_GasGrad.
  destruct (gradient_iteration =? 0)%Z; [| reflexivity].
  destruct st as [[pmax pmin pdist] [gd gp gv]].
  destruct a as [[[a0 a1] a2] amax amin adist].
  destruct b as [[[b0 b1] b2] bmax bmin bdist].
  destruct pmax as [? ? [[? ?] ?]]. destruct pmin as [? ? [[? ?] ?]].
  destruct amax as [? ? [[? ?] ?]]. destruct amin as [? ? [[? ?] ?]].
  destruct bmax as [? ? [[? ?] ?]]. destruct bmin as [? ? [[? ?] ?]].
  destruct a0 as [? ? [[? ?] ?]]. destruct a1 as [? ? [[? ?] ?]].
  destruct a2 as [? ? [[? ?] ?]]. destruct b0 as [? ? [[? ?] ?]].
  destruct b1 as [? ? [[? ?] ?]]. destruct b2 as [? ? [[? ?] ?]].
  destruct gd as [[? ?] ?]. destruct gp as [[? ?] ?].
  destruct gv as [[[[? ?] ?] [[? ?] ?]] [[? ?] ?]].
  cbn. unfold GasGrad.ASSIGN_ADD_PRESET.
  rewrite !MAX_ADD_Rmax, !MIN_ADD_Rmin.
  repeat match goal with
         | |- Rmax (Rmax _ _) _ = _ => apply Rmax_swap
         | |- Rmin (Rmin _ _) _ = _ => apply Rmin_swap
         | |- @eq R _ _ => ring
         | |- _ => f_equal
         end.
Qed.

(** X16.  The sign of the exported mass carries the estimator choice to
    the evaluation and is undone there.  For a particle of positive
    mass, smoothing length and density, [GasGrad_evaluate] on the record
    written by [particle2in_GasGrad] starts its neighbour loop with
    sph_gradients_flag_i equal to SHOULD_I_USE_SPH_GRADIENTS of the
    particle's condition number, the particle's own mass restored, and
    V_i = Mass / Density. *)
Theorem mass_sign_round_trip (CONDITION_NUMBER_DANGER : R)
    (P : nat -> GasGrad.particle_data)
    (PPP : nat -> Gradients.particle_data)
    (SphP : nat -> GasGrad.sph_particle_data)
    (in_ : GasGrad.In.GasGraddata_in) (i : nat) :
  0 < GasGrad.Mass (P i) -> 0 < Gradients.Hsml (PPP i) ->
  0 < GasGrad.Density (SphP i) ->
  GasGrad.evaluate_prologue
    (GasGrad.particle2in_GasGrad CONDITION_NUMBER_DANGER P PPP SphP in_ i 0) 0
  = Some (Gradients.SHOULD_I_USE_SPH_GRADIENTS CONDITION_NUMBER_DANGER
            (GasGrad.ConditionNumber (SphP i)),
          {| GasGrad.In.Pos := GasGrad.Pos (P i);
             GasGrad.In.Mass := GasGrad.Mass (P i);
             GasGrad.In.Hsml := Gradients.Hsml (PPP i);
             GasGrad.In.Timestep := GasGrad.TimeStep_of (GasGrad.TimeBin (P i));
             GasGrad.In.GQuant :=
               {| GasGrad.Q.Density := GasGrad.Density (SphP i);
                  GasGrad.Q.Pressure := GasGrad.Pressure (SphP i);
                  GasGrad.Q.Velocity := GasGrad.VelPred (SphP i) |} |},
          GasGrad.Mass (P i) / GasGrad.Density (SphP i)).
Proof.
  intros Hm Hh Hd.
  unfold GasGrad.evaluate_prologue, GasGrad.particle2in_GasGrad,
    Gradients.SHOULD_I_USE_SPH_GRADIENTS.
  cbn [GasGrad.In.Hsml GasGrad.In.Mass GasGrad.In.GQuant GasGrad.In.Pos
       GasGrad.In.Timestep GasGrad.Q.Density Z.eqb andb].
  assert (GasGrad.Rleb (Gradients.Hsml (PPP i)) 0 = false) as E1
    by (unfold GasGrad.Rleb; destruct (Rle_dec _ _); [lra | reflexivity]).
  assert (GasGrad.Rleb (GasGrad.Density (SphP i)) 0 = false) as E2
    by (unfold GasGrad.Rleb; destruct (Rle_dec _ _); [lra | reflexivity]).
  assert ((GasGrad.Mass (P i) <? 0) = false) as E3
    by (apply Rltb_false; lra).
  rewrite E1, E2, E3.
  destruct (GasGrad.ConditionNumber (SphP i) >? CONDITION_NUMBER_DANGER);
    cbn [Z.eqb negb].
  - assert ((GasGrad.Mass (P i) * -1 =? 0) = false) as E4
      by (apply Reqb_false; lra).
    assert ((GasGrad.Mass (P i) * -1 <? 0) = true) as E5
      by (apply Rltb_true; lra).
    rewrite E4, E5.
    cbn [GasGrad.In.Hsml GasGrad.In.Mass GasGrad.In.GQuant GasGrad.In.Pos
         GasGrad.In.Timestep GasGrad.Q.Density].
    replace (GasGrad.Mass (P i) * -1 * -1) with (GasGrad.Mass (P i)) by ring.
    reflexivity.
  - assert ((GasGrad.Mass (P i) =? 0) = false) as E4
      by (apply Reqb_false; lra).
    rewrite E4, E3. reflexivity.
Qed.

(** X17.  On the first sweep [GasGrad_evaluate] returns before its
    neighbour loop for a particle it set up itself exactly when the
    particle's mass, smoothing length or density is not positive. *)
Theorem evaluate_prologue_returns_early (CONDITION_NUMBER_DANGER : R)
    (P : nat -> GasGrad.particle_data)
    (PPP : nat -> Gradients.particle_data)
    (SphP : nat -> GasGrad.sph_particle_data)
    (in_ : GasGrad.In.GasGraddata_in) (i : nat) :
  GasGrad.evaluate_prologue
    (GasGrad.particle2in_GasGrad CONDITION_NUMBER_DANGER P PPP SphP in_ i 0) 0
  = None
  <-> (GasGrad.Mass (P i) <= 0 \/ Gradients.Hsml (PPP i) <= 0
       \/ GasGrad.Density (SphP i) <= 0).
Proof.
  unfold GasGrad.evaluate_prologue, GasGrad.particle2in_GasGrad,
    Gradients.SHOULD_I_USE_SPH_GRADIENTS.
  cbn [GasGrad.In.Hsml GasGrad.In.Mass GasGrad.In.GQuant GasGrad.In.Pos
       GasGrad.In.Timestep GasGrad.Q.Density Z.eqb andb].
  unfold GasGrad.Rleb.
  destruct (GasGrad.ConditionNumber (SphP i) >? CONDITION_NUMBER_DANGER);
    cbn [Z.eqb negb];
    destruct (Rle_dec (Gradients.Hsml (PPP i)) 0);
    destruct (Rle_dec (GasGrad.Density (SphP i)) 0);
    rdec;
    (split; [intros E; try discriminate E; lra
            | intros H; try reflexivity; exfalso; lra]).
Qed.

(** X18.  No pair is dropped: the ordering test of the neighbour loop
    never leaves one pair to the other side from both of its sides. *)
Theorem skip_by_order_never_both (ti tj : Z) (pos_i pos_j : vec3) :
  GasGrad.skip_by_order ti tj pos_i pos_j
  && GasGrad.skip_by_order tj ti pos_j pos_i = false.
Proof.
  unfold GasGrad.skip_by_order.
  destruct pos_i as [[a0 a1] a2]. destruct pos_j as [[b0 b1] b2].
  destruct (Z.gtb_spec ti tj), (Z.eqb_spec ti tj),
    (Z.gtb_spec tj ti), (Z.eqb_spec tj ti); try lia; try reflexivity.
  cbn. rdec; cbn; rdec; try reflexivity; try (exfalso; lra).
Qed.

(** X19.  No pair is evaluated twice: for two particles that differ in
    time step or in position, the ordering test skips the pair from
    exactly one of its two sides. *)
Theorem skip_by_order_one_side (ti tj : Z) (pos_i pos_j : vec3) :
  ti <> tj \/ pos_i <> pos_j ->
  GasGrad.skip_by_order ti tj pos_i pos_j
  = negb (GasGrad.skip_by_order tj ti pos_j pos_i).
Proof.
  intros H. unfold GasGrad.skip_by_order.
  destruct pos_i as [[a0 a1] a2]. destruct pos_j as [[b0 b1] b2].
  destruct (Z.gtb_spec ti tj), (Z.eqb_spec ti tj),
    (Z.gtb_spec tj ti), (Z.eqb_spec tj ti); try lia; try reflexivity.
  destruct H as [H | H]; [contradiction |].
  cbn. rdec; cbn; rdec; try reflexivity; try (exfalso; lra).
  all: cbn in *; exfalso; apply H; repeat f_equal; lra.
Qed.

(** ** Further properties: the finalisation of the gradients *)

Lemma limiter_parameters_spec (SLOPE_LIMITER_TOLERANCE : Z)
    (hsml maxdistance condition_number : R) :
  let '(a_limiter, h_lim, stol) :=
    GasGrad.limiter_parameters SLOPE_LIMITER_TOLERANCE hsml maxdistance
      condition_number in
  0.125 <= a_limiter <= 1
  /\ hsml <= h_lim <= Rmax hsml maxdistance
  /\ 0 <= stol <= 0.125.
Proof.
  unfold GasGrad.limiter_parameters.
  rewrite DMAX_Rmax, DMIN_Rmin.
  pose proof (Rmax_l hsml maxdistance) as Hmax.
  assert (0.25 <= (if condition_number >? 100
                   then Rmin 0.5 (0.25 + 0.25 * (condition_number - 100) / 100)
                   else 0.25) <= 0.5) as Ha.
  { destruct (condition_number >? 100) eqn:E; [| lra].
    apply Rgtb_true in E. split.
    - apply Rmin_glb; lra.
    - apply Rmin_l. }
  set (a := if condition_number >? 100
            then Rmin 0.5 (0.25 + 0.25 * (condition_number - 100) / 100)
            else 0.25) in *.
  destruct (Z.eqb_spec SLOPE_LIMITER_TOLERANCE 2) as [-> | H2].
  - cbn [Z.eqb Pos.eqb]. lra.
  - destruct (SLOPE_LIMITER_TOLERANCE =? 0)%Z; lra.
Qed.

(** X20.  Whatever the build's tolerance setting, the particle's
    condition number and the largest neighbour distance, the limiter of
    the finalisation is called with an aggressiveness between 1/8 and
    1, a length between the smoothing length and the larger of it and
    MaxDistance, and a tolerance between 0 and 1/8; with the default
    setting (neither 0 nor 2) the aggressiveness lies between 1/4 and
    1/2, the length is that larger value and the tolerance is 0. *)
Theorem limiter_parameters_range (SLOPE_LIMITER_TOLERANCE : Z)
    (hsml maxdistance condition_number : R) :
  let '(a_limiter, h_lim, stol) :=
    GasGrad.limiter_parameters SLOPE_LIMITER_TOLERANCE hsml maxdistance
      condition_number in
  (0.125 <= a_limiter <= 1
   /\ hsml <= h_lim <= Rmax hsml maxdistance
   /\ 0 <= stol <= 0.125)
  /\ (SLOPE_LIMITER_TOLERANCE <> 0%Z -> SLOPE_LIMITER_TOLERANCE <> 2%Z ->
      0.25 <= a_limiter <= 0.5 /\ h_lim = Rmax hsml maxdistance /\ stol = 0).
Proof.
  pose proof (limiter_parameters_spec SLOPE_LIMITER_TOLERANCE hsml
                maxdistance condition_number) as S.
  destruct (GasGrad.limiter_parameters SLOPE_LIMITER_TOLERANCE hsml
              maxdistance condition_number) as [[a h] t] eqn:E.
  split; [exact S |]. intros H0 H2.
  unfold GasGrad.limiter_parameters in E.
  apply Z.eqb_neq in H0, H2. rewrite H0, H2 in E.
  rewrite DMAX_Rmax, DMIN_Rmin in E. injection E as <- <- <-.
  split; [| split; [reflexivity | lra]].
  destruct (condition_number >? 100) eqn:Ec; [| lra].
  apply Rgtb_true in Ec. split; [apply Rmin_glb; lra | apply Rmin_l].
Qed.

Lemma norm3_nonneg (g : vec3) : 0 <= Gradients.norm3 g.
Proof.
  destruct g as [[g0 g1] g2]. apply sqrt_pos.
Qed.

Lemma limiter_bound_le_max (valmax valmin tol : R) :
  (if tol >? 0
   then Rmin (Rmin (Rabs valmax) (Rabs valmin)
              + tol * Rmax (Rabs valmax) (Rabs valmin))
          (Rmax (Rabs valmax) (Rabs valmin))
   else Rmin (Rabs valmax) (Rabs valmin))
  <= Rmax (Rabs valmax) (Rabs valmin).
Proof.
  destruct (tol >? 0); [apply Rmin_r |].
  apply Rle_trans with (Rabs valmax); [apply Rmin_l | apply Rmax_l].
Qed.

(** The limited gradient over an eighth of the smoothing length. *)
Lemma limited_over_hsml (g : vec3) (valmax valmin a h tol hsml : R) :
  0 < hsml -> 0.125 <= a -> hsml <= h ->
  0.125 * hsml
  * Gradients.norm3 (Gradients.local_slopelimiter g valmax valmin a h tol)
  <= Rmax (Rabs valmax) (Rabs valmin)
  /\ (tol <= 0 ->
      0.125 * hsml
      * Gradients.norm3 (Gradients.local_slopelimiter g valmax valmin a h tol)
      <= Rmin (Rabs valmax) (Rabs valmin)).
Proof.
  intros Hh Ha Hl.
  destruct (local_slopelimiter_limits g valmax valmin a h tol) as [_ Hb];
    [lra | lra |].
  pose proof (limiter_bound_le_max valmax valmin tol) as HX.
  pose proof (norm3_nonneg
                (Gradients.local_slopelimiter g valmax valmin a h tol)) as Hn.
  set (n := Gradients.norm3 _) in *.
  assert (0.125 * hsml * n <= a * h * n) as Hs.
  { apply Rmult_le_compat_r; [exact Hn |]. nra. }
  split; [lra |]. intros Ht. apply Rgtb_false in Ht. rewrite Ht in Hb. lra.
Qed.

(** X21.  In exact arithmetic, after the finalisation no gradient of
    a particle with a positive smoothing length extrapolates beyond its
    envelope within an eighth of that length: Hsml/8 times the norm of
    the density gradient is at most the smaller of |Maxima.Density| and
    |Minima.Density|, and Hsml/8 times the norm of the pressure
    gradient and of each row of the velocity gradient is at most the
    larger of the two absolute envelopes of that field.  (The rounding
    of binary64 is not part of this statement: with
    SLOPE_LIMITER_TOLERANCE = 2 the bound is met with equality, and the
    rounded gradient can exceed it by a rounding error.) *)
Theorem finalise_gradients_bounded
    (CONDITION_NUMBER_DANGER : R) (SLOPE_LIMITER_TOLERANCE : Z)
    (SphP : nat -> Gradients.sph_particle_data)
    (PPP : nat -> Gradients.particle_data)
    (passer : GasGrad.Passer.temporary_data_topass)
    (grads : GasGrad.Grads.Gradients) (i : nat) :
  0 < Gradients.Hsml (PPP i) ->
  let out :=
    GasGrad.finalise_gradients CONDITION_NUMBER_DANGER SLOPE_LIMITER_TOLERANCE
      SphP PPP passer grads i in
  let maxima := GasGrad.Passer.Maxima passer in
  let minima := GasGrad.Passer.Minima passer in
  let reach (g : vec3) := 0.125 * Gradients.Hsml (PPP i) * Gradients.norm3 g in
  let '(v0, v1, v2) := GasGrad.Grads.Velocity out in
  reach (GasGrad.Grads.Density out)
    <= Rmin (Rabs (GasGrad.Q.Density maxima)) (Rabs (GasGrad.Q.Density minima))
  /\ reach (GasGrad.Grads.Pressure out)
    <= Rmax (Rabs (GasGrad.Q.Pressure maxima))
            (Rabs (GasGrad.Q.Pressure minima))
  /\ reach v0
    <= Rmax (Rabs (GasGrad.idx (GasGrad.Q.Velocity maxima) 0))
            (Rabs (GasGrad.idx (GasGrad.Q.Velocity minima) 0))
  /\ reach v1
    <= Rmax (Rabs (GasGrad.idx (GasGrad.Q.Velocity maxima) 1))
            (Rabs (GasGrad.idx (GasGrad.Q.Velocity minima) 1))
  /\ reach v2
    <= Rmax (Rabs (GasGrad.idx (GasGrad.Q.Velocity maxima) 2))
            (Rabs (GasGrad.idx (GasGrad.Q.Velocity minima) 2)).
Proof.
  intros Hh out maxima minima reach. subst out reach.
  unfold GasGrad.finalise_gradients.
  pose proof (limiter_parameters_spec SLOPE_LIMITER_TOLERANCE
                (Gradients.Hsml (PPP i)) (GasGrad.Passer.MaxDistance passer)
                (Gradients.ConditionNumber (SphP i))) as S.
  destruct (GasGrad.limiter_parameters _ _ _ _) as [[a h] t].
  destruct S as ([Ha _] & [Hl _] & _).
  destruct (GasGrad.Grads.Velocity grads) as [[gv0 gv1] gv2].
  fold maxima minima.
  destruct (GasGrad.Q.Velocity maxima) as [[vmax0 vmax1] vmax2].
  destruct (GasGrad.Q.Velocity minima) as [[vmin0 vmin1] vmin2].
  cbn [GasGrad.Grads.Velocity GasGrad.Grads.Density GasGrad.Grads.Pressure
       GasGrad.idx Z.eqb].
  repeat split.
  - apply limited_over_hsml; try assumption. lra.
  - apply limited_over_hsml; assumption.
  - apply limited_over_hsml; assumption.
  - apply limited_over_hsml; assumption.
  - apply limited_over_hsml; assumption.
Qed.

Lemma construct_gradient_zero (CONDITION_NUMBER_DANGER : R)
    (SphP : nat -> Gradients.sph_particle_data)
    (PPP : nat -> Gradients.particle_data) (i : nat) :
  Gradients.construct_gradient CONDITION_NUMBER_DANGER SphP PPP (0, 0, 0) i
  = (0, 0, 0).
Proof.
  unfold Gradients.construct_gradient.
  destruct (negb _).
  - unfold vscale. now rewrite !Rmult_0_l.
  - destruct (Gradients.NV_T (SphP i)) as [[[[? ?] ?] [[? ?] ?]] [[? ?] ?]].
    repeat f_equal; ring.
Qed.

Lemma local_slopelimiter_zero (valmax valmin alim h tol : R) :
  Gradients.local_slopelimiter (0, 0, 0) valmax valmin alim h tol = (0, 0, 0).
Proof.
  unfold Gradients.local_slopelimiter.
  assert ((0.0 + 0 * 0 + 0 * 0 + 0 * 0 >? 0) = false) as E
    by (apply Rgtb_false; lra).
  now rewrite E.
Qed.

(** X22.  A particle whose accumulated sums are all zero (every
    neighbour carries the same density, pressure and velocity as the
    particle) leaves the finalisation with all gradients zero, whatever
    the envelopes: with the matrix estimator always, and with the SPH
    estimator when the particle's density is not zero.  (The SPH branch
    of [construct_gradient] divides by the density without a guard: at
    density 0 the C code multiplies the zero sums by an infinite or NaN
    quotient, and the gradients are NaN.) *)
Theorem finalise_gradients_zero
    (CONDITION_NUMBER_DANGER : R) (SLOPE_LIMITER_TOLERANCE : Z)
    (SphP : nat -> Gradients.sph_particle_data)
    (PPP : nat -> Gradients.particle_data)
    (passer : GasGrad.Passer.temporary_data_topass) (i : nat) :
  (Gradients.ConditionNumber (SphP i) > CONDITION_NUMBER_DANGER ->
   Gradients.Density (SphP i) <> 0) ->
  let zero :=
    {| GasGrad.Grads.Density := (0, 0, 0);
       GasGrad.Grads.Pressure := (0, 0, 0);
       GasGrad.Grads.Velocity := ((0, 0, 0), (0, 0, 0), (0, 0, 0)) |} in
  GasGrad.finalise_gradients CONDITION_NUMBER_DANGER SLOPE_LIMITER_TOLERANCE
    SphP PPP passer zero i = zero.
Proof.
  intros _ zero. subst zero. unfold GasGrad.finalise_gradients.
  cbn [GasGrad.Grads.Velocity GasGrad.Grads.Density GasGrad.Grads.Pressure].
  rewrite construct_gradient_zero.
  destruct (GasGrad.limiter_parameters _ _ _ _) as [[a h] t].
  destruct (GasGrad.Q.Velocity (GasGrad.Passer.Maxima passer))
    as [[vmax0 vmax1] vmax2].
  destruct (GasGrad.Q.Velocity (GasGrad.Passer.Minima passer))
    as [[vmin0 vmin1] vmin2].
  now rewrite !local_slopelimiter_zero.
Qed.

(** ** Further properties: the grid helpers of lenstools *)

Lemma Rgeb_true (x y : R) : x >= y -> Lenstools.Rgeb x y = true.
Proof.
  intros H. unfold Lenstools.Rgeb. destruct (Rge_dec x y); [reflexivity | lra].
Qed.

Lemma Rgeb_false (x y : R) : x < y -> Lenstools.Rgeb x y = false.
Proof.
  intros H. unfold Lenstools.Rgeb. destruct (Rge_dec x y); [lra | reflexivity].
Qed.

Lemma find_bin_loop_spec (value : R) (bins : list R) (i todo : nat) :
  let inside k := nth k bins 0 <= value < nth (k + 1) bins 0 in
  (Lenstools.find_bin_loop value bins i todo = (-1)%Z
   /\ forall j, (i <= j < i + todo)%nat -> ~ inside j)
  \/ (exists k, Lenstools.find_bin_loop value bins i todo = Z.of_nat k
                /\ (i <= k < i + todo)%nat /\ inside k
                /\ forall j, (i <= j < k)%nat -> ~ inside j).
Proof.
  intros inside. revert i. induction todo as [| todo IH]; intros i.
  - left. split; [reflexivity | intros j Hj; lia].
  - cbn [Lenstools.find_bin_loop].
    destruct (Rge_dec value (nth i bins 0)) as [H1 | H1].
    + destruct (Rlt_dec value (nth (i + 1) bins 0)) as [H2 | H2].
      * rewrite Rgeb_true by assumption.
        rewrite (proj2 (Rltb_true _ _) H2). cbn [andb].
        right. exists i. repeat split; try lia; try lra.
      * rewrite Rgeb_true by assumption.
        rewrite (proj2 (Rltb_false _ _)) by lra. cbn [andb].
        destruct (IH (S i)) as [[E N] | (k & E & Hk & Ik & N)].
        -- left. split; [exact E |]. intros j Hj.
           destruct (Nat.eq_dec j i) as [-> | Hne].
           ++ unfold inside. lra.
           ++ apply N. lia.
        -- right. exists k. repeat split; try assumption; try lia;
             try apply Ik.
           intros j Hj. destruct (Nat.eq_dec j i) as [-> | Hne].
           ++ unfold inside. lra.
           ++ apply N. lia.
    + rewrite Rgeb_false by lra. cbn [andb].
      destruct (IH (S i)) as [[E N] | (k & E & Hk & Ik & N)].
      * left. split; [exact E |]. intros j Hj.
        destruct (Nat.eq_dec j i) as [-> | Hne].
        -- unfold inside. lra.
        -- apply N. lia.
      * right. exists k. repeat split; try assumption; try lia;
          try apply Ik.
        intros j Hj. destruct (Nat.eq_dec j i) as [-> | Hne].
        -- unfold inside. lra.
        -- apply N. lia.
Qed.

(** X23.  [find_bin] returns the first bin that holds the value, and -1
    exactly when none of the num_bins - 1 bins does: either the result
    is -1 and no bin i satisfies bins[i] <= value < bins[i+1], or the
    result is an index i below num_bins - 1 whose bin holds the value
    while no earlier bin does. *)
Theorem find_bin_spec (value : R) (bins : list R) (num_bins : Z) :
  let inside k := nth k bins 0 <= value < nth (k + 1) bins 0 in
  let r := Lenstools.find_bin value bins num_bins in
  (r = (-1)%Z
   /\ forall i, (Z.of_nat i < num_bins - 1)%Z -> ~ inside i)
  \/ (exists i, r = Z.of_nat i /\ (Z.of_nat i < num_bins - 1)%Z /\ inside i
                /\ forall j, (j < i)%nat -> ~ inside j).
Proof.
  intros inside r. subst r. unfold Lenstools.find_bin.
  destruct (find_bin_loop_spec value bins 0 (Z.to_nat (num_bins - 1)))
    as [[E N] | (k & E & Hk & Ik & N)].
  - left. split; [exact E |]. intros i Hi. apply N. lia.
  - right. exists k. repeat split; try assumption; try apply Ik; try lia.
    intros j Hj. apply N. lia.
Qed.

Lemma linspace_length (start stop : R) (num : Z) :
  length (Lenstools.linspace start stop num) = Z.to_nat num.
Proof.
  unfold Lenstools.linspace. now rewrite length_map, length_seq.
Qed.

Lemma linspace_nth (start stop : R) (num : Z) (i : nat) :
  (Z.of_nat i < num)%Z ->
  nth i (Lenstools.linspace start stop num) 0
  = start + IZR (Z.of_nat i) * ((stop - start) / IZR (num - 1)).
Proof.
  intros Hi. unfold Lenstools.linspace.
  set (f := fun i : nat => start + IZR (Z.of_nat i) * _).
  rewrite (nth_indep _ 0 (f 0%nat))
    by (rewrite length_map, length_seq; lia).
  rewrite map_nth, seq_nth by lia. reflexivity.
Qed.

(** X24.  For at least two points [linspace] fills num entries that
    start at start, end at stop and are evenly spaced by
    (stop - start)/(num - 1) (in exact arithmetic). *)
Theorem linspace_endpoints (start stop : R) (num : Z) :
  (2 <= num)%Z ->
  let result := Lenstools.linspace start stop num in
  length result = Z.to_nat num
  /\ nth 0 result 0 = start
  /\ nth (Z.to_nat (num - 1)) result 0 = stop
  /\ forall i, (Z.of_nat i < num - 1)%Z ->
       nth (i + 1) result 0 - nth i result 0
       = (stop - start) / IZR (num - 1).
Proof.
  intros Hn result. subst result.
  assert (IZR (num - 1) <> 0) as Hd.
  { apply not_0_IZR. lia. }
  split; [apply linspace_length |]. split; [| split].
  - rewrite linspace_nth by lia. cbn [Z.of_nat]. lra.
  - rewrite linspace_nth by lia. rewrite Z2Nat.id by lia. field. exact Hd.
  - intros i Hi. rewrite !linspace_nth by lia.
    replace (Z.of_nat (i + 1)) with (Z.of_nat i + 1)%Z by lia.
    rewrite plus_IZR. lra.
Qed.

(** Edges in nondecreasing order are ordered at any distance. *)
Lemma sorted_edges (bins : list R) (n : nat) :
  (forall i, (i < n)%nat -> nth i bins 0 <= nth (i + 1) bins 0) ->
  forall i j, (i <= j <= n)%nat -> nth i bins 0 <= nth j bins 0.
Proof.
  intros Hs i j [Hij Hj]. induction j as [| j IH].
  - replace i with 0%nat by lia. lra.
  - destruct (Nat.eq_dec i (S j)) as [-> | Hne]; [lra |].
    apply Rle_trans with (nth j bins 0); [apply IH; lia |].
    replace (S j) with (j + 1)%nat by lia. apply Hs. lia.
Qed.

(** The edges that [linspace] lays from start up to stop are in
    nondecreasing order. *)
Lemma linspace_sorted (start stop : R) (num : Z) (i : nat) :
  (2 <= num)%Z -> start <= stop -> (Z.of_nat i < num - 1)%Z ->
  nth i (Lenstools.linspace start stop num) 0
  <= nth (i + 1) (Lenstools.linspace start stop num) 0.
Proof.
  intros Hn Hle Hi. rewrite !linspace_nth by lia.
  assert (0 < IZR (num - 1)) as Hd by (apply IZR_lt; lia).
  assert (0 <= (stop - start) / IZR (num - 1)) as Hstep.
  { apply Rmult_le_pos; [lra |]. apply Rlt_le, Rinv_0_lt_compat, Hd. }
  replace (Z.of_nat (i + 1)) with (Z.of_nat i + 1)%Z by lia.
  rewrite plus_IZR. lra.
Qed.

(** X25.  On edges in nondecreasing order (as [linspace] lays them for
    start <= stop) the search covers exactly the half-open range from
    the first edge to the last: a value below the first edge or at or
    above the last edge (the upper boundary included) gets -1, and a
    value from the first edge up to but excluding the last gets a bin i
    with 0 <= i < num_bins - 1 whose edges bins[i] and bins[i+1] enclose
    it.  The statement compares the edges as they are stored, whatever
    rounding produced them. *)
Theorem find_bin_sorted (value : R) (bins : list R) (num_bins : Z) :
  (2 <= num_bins)%Z ->
  (forall i, (Z.of_nat i < num_bins - 1)%Z ->
             nth i bins 0 <= nth (i + 1) bins 0) ->
  let first := nth 0 bins 0 in
  let last := nth (Z.to_nat (num_bins - 1)) bins 0 in
  let r := Lenstools.find_bin value bins num_bins in
  (value < first \/ last <= value -> r = (-1)%Z)
  /\ (first <= value < last ->
      (0 <= r < num_bins - 1)%Z
      /\ nth (Z.to_nat r) bins 0 <= value < nth (Z.to_nat r + 1) bins 0).
Proof.
  intros Hn Hs first last r.
  assert (forall i j, (i <= j <= Z.to_nat (num_bins - 1))%nat ->
            nth i bins 0 <= nth j bins 0) as Hmono.
  { apply sorted_edges. intros i Hi. apply Hs. lia. }
  pose proof (find_bin_loop_spec value bins 0 (Z.to_nat (num_bins - 1))) as S.
  cbv zeta in S. fold (Lenstools.find_bin value bins num_bins) in S.
  fold r in S.
  split.
  - intros Hout.
    destruct S as [[E _] | (i & E & Hi & [I1 I2] & _)]; [exact E |].
    exfalso.
    assert (first <= nth i bins 0) as H1 by (apply Hmono; lia).
    assert (nth (i + 1) bins 0 <= last) as H2 by (apply Hmono; lia).
    destruct Hout as [Hout | Hout]; lra.
  - intros [Hlo Hhi].
    destruct S as [[E N] | (i & E & Hi & [I1 I2] & _)].
    + exfalso.
      assert (forall i, (i <= Z.to_nat (num_bins - 1))%nat ->
                nth i bins 0 <= value) as Hall.
      { induction i as [| i IH]; intros Hi.
        - exact Hlo.
        - assert (nth i bins 0 <= value) as Hprev by (apply IH; lia).
          destruct (Rle_dec (nth (S i) bins 0) value) as [Hle | Hgt];
            [exact Hle |].
          exfalso. apply (N i); [lia |].
          replace (i + 1)%nat with (S i) by lia. lra. }
      specialize (Hall (Z.to_nat (num_bins - 1)) (Nat.le_refl _)).
      fold last in Hall. lra.
    + rewrite E, Nat2Z.id. split; [lia | lra].
Qed.

(** ** The theorems at concrete inputs *)

(** C1 at a gas particle with h = 1 and 10 neighbours, bracket empty. *)
Lemma check_neighbours_done_iff_witness :
  let p := ex_particle 1 10 false (ex_sph 1 1) in
  exists p' l' r',
    check_neighbours 3 false Rpower ex_All p 0 0 = Ok (p', l', r')
    /\ (DensityIterationDone p' = true <->
        (Rabs (NumNgb p - DesNumNgb ex_All) <= MaxNumNgbDeviation ex_All
         \/ (NumNgb p > DesNumNgb ex_All + MaxNumNgbDeviation ex_All
             /\ Hsml p <= 1.01 * MinGasHsml ex_All)
         \/ (0 > 0 /\ 0 > 0 /\ 0 - 0 < 1.0e-3 * 0)))
    /\ (DensityIterationDone p' = false ->
        (l', r') = update_bracket ex_All (DesNumNgb ex_All) p 0 0
        /\ exists h,
             propose_hsml 3 Rpower (DesNumNgb ex_All) p l' r' = Ok h
             /\ p' = set_Hsml (Rmax (MinGasHsml ex_All) h) p
             /\ MinGasHsml ex_All <= Hsml p').
Proof.
  apply (check_neighbours_done_iff 3 false Rpower ex_All
           (ex_particle 1 10 false (ex_sph 1 1)) 0 0); simpl.
  - reflexivity.
  - reflexivity.
  - lra.
  - lra.
Defined.

(** C2 at the same particle: too few neighbours, so Left becomes
    max(0, 1) and Right stays 0. *)
Lemma check_neighbours_bracket_update_witness :
  let p := ex_particle 1 10 false (ex_sph 1 1) in
  exists p' l' r' h,
    check_neighbours 3 false Rpower ex_All p 0 0 = Ok (p', l', r')
    /\ DensityIterationDone p' = false
    /\ (NumNgb p < DesNumNgb ex_All - MaxNumNgbDeviation ex_All ->
        l' = Rmax 0 (Hsml p) /\ r' = 0)
    /\ (~ NumNgb p < DesNumNgb ex_All - MaxNumNgbDeviation ex_All ->
        NumNgb p > DesNumNgb ex_All + MaxNumNgbDeviation ex_All
        /\ l' = 0
        /\ (0 = 0 -> r' = Hsml p)
        /\ (0 <> 0 -> r' = Rmin 0 (Hsml p)))
    /\ propose_hsml 3 Rpower (DesNumNgb ex_All) p l' r' = Ok h
    /\ (0 < l' -> 0 < r' -> 0 < h /\ h ^ 3 = (l' ^ 3 + r' ^ 3) / 2)
    /\ MinGasHsml ex_All <= Hsml p'
    /\ (h < MinGasHsml ex_All -> Hsml p' = MinGasHsml ex_All)
    /\ (MinGasHsml ex_All <= h -> Hsml p' = h).
Proof.
  apply (check_neighbours_bracket_update 3 false Rpower ex_All
           (ex_particle 1 10 false (ex_sph 1 1)) 0 0).
  - intros x y _. reflexivity.
  - reflexivity.
  - reflexivity.
  - simpl. lra.
  - unfold needs_redo. simpl. apply orb_true_iff. left.
    apply Rltb_true. lra.
  - unfold bracket_collapsed.
    assert ((0 >? 0) = false) as E by (apply Rgtb_false; lra).
    now rewrite E.
Defined.



(** C6 at a gas particle with density 2, raw accumulator 3 and h = 1:
    the term is 3 (1/(3 * 2)) and the factor 1/(1 + term). *)
Lemma density_post_process_factor_witness :
  let s := ex_store (ex_particle 1 32 false (ex_sph 2 3)) in
  DhsmlDensityFactor
    (sph (P (density_post_process 3 (5 / 3) false Rpower ex_All 0 s) 0))
  = 1 / (1 + 3 * (1 / (3 * 2))).
Proof.
  refine (proj1 (density_post_process_factor 3 (5 / 3) false Rpower ex_All 0
                   (ex_store (ex_particle 1 32 false (ex_sph 2 3))) _ _) _).
  - reflexivity.
  - simpl. lra.
  - simpl. lra.
Defined.

(** C9 at a gas particle that found nothing: density 0. *)
Lemma density_post_process_skip_witness :
  let s := ex_store (ex_particle 1 0 false (ex_sph 0 5)) in
  let p' := P (density_post_process 3 (5 / 3) false Rpower ex_All 0 s) 0 in
  DivVel (sph p') = 3
  /\ CurlVel (sph p') = 0
  /\ DhsmlDensityFactor (sph p') = 5
  /\ Density (sph p') = 0
  /\ snd (post_process 3 (5 / 3) false Rpower ex_All (P s 0)) = []
  /\ Forall (fun divisor => divisor <> 0)
       (snd (post_process 3 (5 / 3) false Rpower ex_All (P s 0))).
Proof.
  refine (density_post_process_skip 3 (5 / 3) false Rpower ex_All 0
            (ex_store (ex_particle 1 0 false (ex_sph 0 5))) _ _).
  - reflexivity.
  - simpl. lra.
Defined.



(** C8 with MAXITER = 150 (the typical value of the specification), one
    listed particle and fuel for 151 passes: the loop ends. *)
Lemma density_loop_outcome_witness :
  exists r,
    density_loop 3 150 (5 / 3) false Rpower ex_reduce ex_All [O]
      (fun _ _ => ex_result 32) (fun _ _ => []) (fun _ => O)
      151 0 (ex_store (ex_particle 1 0 false (ex_sph 0 0))) = Some r.
Proof.
  refine (proj1 (density_loop_outcome 3 150 (5 / 3) false Rpower ex_reduce ex_All [O]
                   (fun _ _ => ex_result 32) (fun _ _ => []) (fun _ => O)
                   151 (ex_store (ex_particle 1 0 false (ex_sph 0 0))) _ _)).
  - lia.
  - lia.
Defined.

(** C10 at a store whose particle 0 is already marked DONE. *)
Lemma done_particle_is_frozen_witness :
  let s := ex_store (ex_particle 1 32 true (ex_sph 1 1)) in
  density_isactive false (P s) 0 = Ok 0%Z
  /\ forall fuel iter s',
       density_loop 3 150 (5 / 3) false Rpower ex_reduce ex_All [O]
         (fun _ _ => ex_result 32) (fun _ _ => []) (fun _ => O)
         fuel iter s = Some (Ok s') ->
       P s' 0 = P s 0 /\ Left s' 0 = Left s 0 /\ Right s' 0 = Right s 0.
Proof.
  pose proof (done_particle_is_frozen 3 150 (5 / 3) false Rpower ex_reduce ex_All [O]
                (fun _ _ => ex_result 32) (fun _ _ => []) (fun _ => O)
                (ex_store (ex_particle 1 32 true (ex_sph 1 1))) 0%nat
                eq_refl) as H.
  split; [exact (proj1 H) | exact (proj2 (proj2 (proj2 H)))].
Defined.

(** ** Two runs of [density] *)

(** The driver is unfolded and evaluated, pass after pass. *)
Ltac run_density :=
  unfold density, density_init;
  repeat progress
    (unfold density_loop, density_pass, treewalk_run, treewalk_get_queue,
       reduce_target, ex_reduce;
     cbn;
     unfold density_check_neighbours, density_post_process, density_reduce,
       post_process, normalise_by_density, check_neighbours, needs_redo,
       bracket_collapsed, update_bracket, propose_hsml, clamp_hsml, DMAX,
       desnumngb_of, upd, dbind, dret, fdiv, update_pressure;
     reval).

(** One listed gas particle with h = 1 and a stale flag.  The walk
    finds 32 neighbours: the first pass marks the particle DONE and the
    loop returns. *)
Example density_converges_at_once :
  exists s',
    density 3 150 (5 / 3) false Rpower ex_reduce ex_All [O]
      (fun _ _ => ex_result 32) (fun _ _ => []) (fun _ => O)
      1 (ex_store (ex_particle 1 0 true (ex_sph 0 0))) = Some (Ok s')
    /\ DensityIterationDone (P s' 0) = true
    /\ NumNgb (P s' 0) = 32
    /\ Hsml (P s' 0) = 1.
Proof.
  run_density.
  eexists. split; [reflexivity |]. cbn. repeat split; reflexivity.
Qed.

(** The walk finds 10 neighbours whatever h is, and MAXITER is 1: the
    passes numbered 0 and 1 both leave the particle unconverged and the
    run stops with endrun(1155). *)
Example density_fails_to_converge :
  density 3 1 (5 / 3) false Rpower ex_reduce ex_All [O]
    (fun _ _ => ex_result 10) (fun _ _ => []) (fun _ => O)
    2 (ex_store (ex_particle 1 0 false (ex_sph 0 0))) = Some (Endrun 1155).
Proof.
  run_density.
  reflexivity.
Qed.

(** ** The further theorems at concrete inputs *)

(** [density_check_neighbours] at a gas particle with h = 1 and 10
    neighbours, bracket empty: Left becomes 1 and h becomes 1.26. *)
Lemma ex_check_neighbours_low :
  check_neighbours 3 false Rpower ex_All
    (ex_particle 1 10 false (ex_sph 1 1)) 0 0
  = Ok (set_Hsml (1 * 1.26) (ex_particle 1 10 false (ex_sph 1 1)), 1, 0).
Proof.
  unfold check_neighbours, needs_redo, bracket_collapsed, update_bracket,
    propose_hsml, clamp_hsml, DMAX, DMIN, desnumngb_of, newton_fac.
  cbn. reval. reflexivity.
Qed.

(** X9 at that particle. *)
Lemma check_neighbours_effect_witness :
  let p := ex_particle 1 10 false (ex_sph 1 1) in
  (set_Hsml (1 * 1.26) p = set_DensityIterationDone true p
   /\ 1 = 0 /\ 0 = 0)
  \/ (DensityIterationDone p = false
      /\ exists h, set_Hsml (1 * 1.26) p = set_Hsml h p).
Proof.
  apply (check_neighbours_effect 3 false Rpower ex_All
           (ex_particle 1 10 false (ex_sph 1 1)) _ 0 0 1 0).
  exact ex_check_neighbours_low.
Defined.

(** X3 at that particle: Left rises from 0 to the smoothing length 1. *)
Lemma check_neighbours_bracket_monotone_witness :
  let p := ex_particle 1 10 false (ex_sph 1 1) in
  0 <= 1
  /\ (0 <> 0 -> 0 <= 0)
  /\ (1 = 0 \/ 1 = Hsml p)
  /\ (0 = 0 \/ 0 = Hsml p).
Proof.
  apply (check_neighbours_bracket_monotone 3 false Rpower ex_All
           (ex_particle 1 10 false (ex_sph 1 1))
           (set_Hsml (1 * 1.26) (ex_particle 1 10 false (ex_sph 1 1)))
           0 0 1 0).
  - reflexivity.
  - exact ex_check_neighbours_low.
Defined.

(** X4 at the bracket (1, 2). *)
Lemma propose_hsml_bisects_witness :
  exists h,
    propose_hsml 3 Rpower 32 (ex_particle 1 10 false (ex_sph 1 1)) 1 2 = Ok h
    /\ 1 < h < 2.
Proof.
  apply (propose_hsml_bisects 3 Rpower 32
           (ex_particle 1 10 false (ex_sph 1 1)) 1 2).
  - intros x y _. reflexivity.
  - lra.
  - lra.
Defined.

(** X5 at a black hole with h = 2 and 10 neighbours, the radius capped
    at 1. *)
Lemma bh_cap_stops_search_witness :
  check_neighbours 3 true Rpower ex_All (ex_black_hole 2 10) 0 0 =
  Ok (set_Hsml 1 (ex_black_hole 2 10), 1, 1)
  /\ forall q,
       DensityIterationDone q = false ->
       check_neighbours 3 true Rpower ex_All q 1 1
       = Ok (set_DensityIterationDone true q, 1, 1).
Proof.
  apply (bh_cap_stops_search 3 true Rpower ex_All (ex_black_hole 2 10) 0 0).
  - reflexivity.
  - reflexivity.
  - simpl. lra.
  - reflexivity.
  - simpl. lra.
  - unfold needs_redo, desnumngb_of. simpl. apply orb_true_iff. left.
    apply Rltb_true. lra.
  - unfold bracket_collapsed.
    assert ((0 >? 0) = false) as E by (apply Rgtb_false; lra).
    now rewrite E.
  - unfold desnumngb_of. simpl andb. cbv iota.
    rewrite update_bracket_left by (simpl; lra).
    simpl. rewrite Rmax_right by lra. lra.
Defined.

(** X6 at a gas particle with density 2 and raw accumulator 3. *)
Lemma post_process_factor_bounds_witness :
  let p := ex_particle 1 32 false (ex_sph 2 3) in
  0 < DhsmlDensityFactor
        (sph (fst (post_process 3 (5 / 3) false Rpower ex_All p))) < 10
  /\ 0 <= CurlVel (sph (fst (post_process 3 (5 / 3) false Rpower ex_All p))).
Proof.
  apply (post_process_factor_bounds 3 (5 / 3) false Rpower ex_All
           (ex_particle 1 32 false (ex_sph 2 3))).
  - reflexivity.
  - simpl. lra.
Defined.

(** X8 at a store whose listed particle carries a stale flag. *)
Lemma density_init_post_witness :
  let s := ex_store (ex_particle 1 0 true (ex_sph 0 0)) in
  exists s',
    density_init false [O] s = Ok s'
    /\ (forall j, In j [O] -> DensityIterationDone (P s' j) = false)
    /\ (forall j, In j [O] ->
                  Type_ (P s j) = 0%Z
                  \/ (false = true /\ Type_ (P s j) = 5%Z) ->
                  Left s' j = 0 /\ Right s' j = 0)
    /\ (forall j, ~ In j [O] -> same_cell s s' j)
    /\ (forall j, Hsml (P s' j) = Hsml (P s j)
                  /\ Type_ (P s' j) = Type_ (P s j)
                  /\ NumNgb (P s' j) = NumNgb (P s j)
                  /\ TimeBin (P s' j) = TimeBin (P s j)
                  /\ sph (P s' j) = sph (P s j)
                  /\ bh (P s' j) = bh (P s j)).
Proof.
  eexists. split.
  - unfold density_init, treewalk_get_queue. cbn. reflexivity.
  - apply (density_init_post false [O]
             (ex_store (ex_particle 1 0 true (ex_sph 0 0)))).
    unfold density_init, treewalk_get_queue. cbn. reflexivity.
Defined.

(** X1 at the run that converges at once. *)
Lemma density_postcondition_witness :
  exists s',
    density 3 150 (5 / 3) false Rpower ex_reduce ex_All [O]
      (fun _ _ => ex_result 32) (fun _ _ => []) (fun _ => O)
      1 (ex_store (ex_particle 1 0 true (ex_sph 0 0))) = Some (Ok s')
    /\ forall j, In j [O] -> Type_ (P s' j) = 0%Z ->
         DensityIterationDone (P s' j) = true
         /\ converged ex_All (P s' j) (Left s' j) (Right s' j).
Proof.
  destruct density_converges_at_once as (s' & E & _).
  exists s'. split; [exact E |].
  apply (density_postcondition 3 150 (5 / 3) false Rpower ex_reduce ex_All
           [O] (fun _ _ => ex_result 32) (fun _ _ => []) (fun _ => O)
           1%nat (ex_store (ex_particle 1 0 true (ex_sph 0 0))) s').
  - simpl. lra.
  - exact E.
Defined.

(** X10 at the same run. *)
Lemma density_hsml_floor_witness :
  let s := ex_store (ex_particle 1 0 true (ex_sph 0 0)) in
  exists s',
    density 3 150 (5 / 3) false Rpower ex_reduce ex_All [O]
      (fun _ _ => ex_result 32) (fun _ _ => []) (fun _ => O)
      1 s = Some (Ok s')
    /\ forall j, Hsml (P s' j) = Hsml (P s j)
                 \/ MinGasHsml ex_All <= Hsml (P s' j).
Proof.
  destruct density_converges_at_once as (s' & E & _).
  exists s'. split; [exact E |].
  apply (density_hsml_floor 3 150 (5 / 3) false Rpower ex_reduce ex_All
           [O] (fun _ _ => ex_result 32) (fun _ _ => []) (fun _ => O)
           1%nat (ex_store (ex_particle 1 0 true (ex_sph 0 0))) s').
  - left. reflexivity.
  - exact E.
Defined.

(** X11 at the gradient (1, 0, 0) with both envelopes 1, alim = 0.5,
    h = 4 and tol = 1. *)
Lemma local_slopelimiter_bound_witness :
  let out := Gradients.local_slopelimiter (1, 0, 0) 1 1 0.5 4 1 in
  (exists k, 0 <= k <= 1 /\ out = vscale k (1, 0, 0))
  /\ 0.5 * 4 * Gradients.norm3 out <= Rmax (Rabs 1) (Rabs 1)
  /\ (1 <= 0 -> 0.5 * 4 * Gradients.norm3 out <= Rmin (Rabs 1) (Rabs 1)).
Proof.
  apply (local_slopelimiter_bound (1, 0, 0) 1 1 0.5 4 1); lra.
Defined.

(** X12 at a particle that is the local maximum (no neighbour value
    lies above it). *)
Lemma local_slopelimiter_extremum_witness :
  Gradients.local_slopelimiter (1, 2, 3) 0 (-1) 0.25 1 0 = (0, 0, 0).
Proof.
  apply (local_slopelimiter_extremum (1, 2, 3) 0 (-1) 0.25 1 0).
  - lra.
  - lra.
  - lra.
  - left. reflexivity.
Defined.

(** X14 at three differences and the envelope (-1, 2). *)
Lemma envelope_direct_or_merged_witness :
  GasGrad.envelope [1; -2; 3] (-1, 2) =
  (GasGrad.MIN_ADD (-1) (fst (GasGrad.envelope [1; -2; 3] (0, 0))),
   GasGrad.MAX_ADD 2 (snd (GasGrad.envelope [1; -2; 3] (0, 0)))).
Proof.
  apply (envelope_direct_or_merged [1; -2; 3] (-1) 2). lra.
Defined.

(** X16 at the sample gas particle, with the threshold at 5: its
    condition number 10 asks for the SPH estimator. *)
Lemma mass_sign_round_trip_witness :
  GasGrad.evaluate_prologue
    (GasGrad.particle2in_GasGrad 5 (fun _ => ex_gas_P) (fun _ => ex_grad_PPP)
       (fun _ => ex_gas_SphP) ex_in 0 0) 0
  = Some (Gradients.SHOULD_I_USE_SPH_GRADIENTS 5 10,
          {| GasGrad.In.Pos := (0, 0, 0);
             GasGrad.In.Mass := 3;
             GasGrad.In.Hsml := 1;
             GasGrad.In.Timestep := GasGrad.TimeStep_of 2;
             GasGrad.In.GQuant :=
               {| GasGrad.Q.Density := 2;
                  GasGrad.Q.Pressure := 1;
                  GasGrad.Q.Velocity := (0, 0, 0) |} |},
          3 / 2).
Proof.
  apply (mass_sign_round_trip 5 (fun _ => ex_gas_P) (fun _ => ex_grad_PPP)
           (fun _ => ex_gas_SphP) ex_in 0); simpl; lra.
Defined.

(** X19 at two particles on the same time step, one unit apart. *)
Lemma skip_by_order_one_side_witness :
  GasGrad.skip_by_order 4 4 (1, 0, 0) (0, 0, 0)
  = negb (GasGrad.skip_by_order 4 4 (0, 0, 0) (1, 0, 0)).
Proof.
  apply (skip_by_order_one_side 4 4 (1, 0, 0) (0, 0, 0)).
  right. intros E. injection E as E. lra.
Defined.

(** X21 at the sample gas particle. *)
Lemma finalise_gradients_bounded_witness :
  let out :=
    GasGrad.finalise_gradients 100 1 (fun _ => ex_grad_SphP)
      (fun _ => ex_grad_PPP) ex_passer ex_grads 0 in
  let maxima := GasGrad.Passer.Maxima ex_passer in
  let minima := GasGrad.Passer.Minima ex_passer in
  let reach (g : vec3) := 0.125 * 1 * Gradients.norm3 g in
  let '(v0, v1, v2) := GasGrad.Grads.Velocity out in
  reach (GasGrad.Grads.Density out)
    <= Rmin (Rabs (GasGrad.Q.Density maxima)) (Rabs (GasGrad.Q.Density minima))
  /\ reach (GasGrad.Grads.Pressure out)
    <= Rmax (Rabs (GasGrad.Q.Pressure maxima))
            (Rabs (GasGrad.Q.Pressure minima))
  /\ reach v0
    <= Rmax (Rabs (GasGrad.idx (GasGrad.Q.Velocity maxima) 0))
            (Rabs (GasGrad.idx (GasGrad.Q.Velocity minima) 0))
  /\ reach v1
    <= Rmax (Rabs (GasGrad.idx (GasGrad.Q.Velocity maxima) 1))
            (Rabs (GasGrad.idx (GasGrad.Q.Velocity minima) 1))
  /\ reach v2
    <= Rmax (Rabs (GasGrad.idx (GasGrad.Q.Velocity maxima) 2))
            (Rabs (GasGrad.idx (GasGrad.Q.Velocity minima) 2)).
Proof.
  apply (finalise_gradients_bounded 100 1 (fun _ => ex_grad_SphP)
           (fun _ => ex_grad_PPP) ex_passer ex_grads 0).
  simpl. lra.
Defined.

(** X22 at the sample gas particle with the threshold at 5: its
    condition number 10 selects the SPH estimator, and its density is
    2. *)
Lemma finalise_gradients_zero_witness :
  let zero :=
    {| GasGrad.Grads.Density := (0, 0, 0);
       GasGrad.Grads.Pressure := (0, 0, 0);
       GasGrad.Grads.Velocity := ((0, 0, 0), (0, 0, 0), (0, 0, 0)) |} in
  GasGrad.finalise_gradients 5 1 (fun _ => ex_grad_SphP)
    (fun _ => ex_grad_PPP) ex_passer zero 0 = zero.
Proof.
  apply (finalise_gradients_zero 5 1 (fun _ => ex_grad_SphP)
           (fun _ => ex_grad_PPP) ex_passer 0).
  intros _. simpl. lra.
Defined.

(** X24 at five points from 0 to 1. *)
Lemma linspace_endpoints_witness :
  let result := Lenstools.linspace 0 1 5 in
  length result = Z.to_nat 5
  /\ nth 0 result 0 = 0
  /\ nth (Z.to_nat (5 - 1)) result 0 = 1
  /\ forall i, (Z.of_nat i < 5 - 1)%Z ->
       nth (i + 1) result 0 - nth i result 0 = (1 - 0) / IZR (5 - 1).
Proof.
  apply (linspace_endpoints 0 1 5). lia.
Defined.

(** X25 at the value 0.3 on the five edges that [linspace] lays from 0
    to 1. *)
Lemma find_bin_sorted_witness :
  let bins := Lenstools.linspace 0 1 5 in
  let first := nth 0 bins 0 in
  let last := nth (Z.to_nat (5 - 1)) bins 0 in
  let r := Lenstools.find_bin 0.3 bins 5 in
  (0.3 < first \/ last <= 0.3 -> r = (-1)%Z)
  /\ (first <= 0.3 < last ->
      (0 <= r < 5 - 1)%Z
      /\ nth (Z.to_nat r) bins 0 <= 0.3 < nth (Z.to_nat r + 1) bins 0).
Proof.
  apply (find_bin_sorted 0.3 (Lenstools.linspace 0 1 5) 5).
  - lia.
  - intros i Hi. apply linspace_sorted; [lia | lra | exact Hi].
Defined.
